(** * Trellis ingress: the ingestion handlers, the routing engine and the
      authentication middleware, embedded from the Go sources

    Sources embedded:
    - [ingress/internal/ingestion/handler.go]: [Handler] and [RoutingEngine];
    - [ingress/internal/ingestion/metrics.go]: [SimpleMetrics];
    - [ingress/cmd/api/main.go]: package [auth] ([WardenClient]) and package
      [config].

    Go maps are [gmap]s.  Where the result of a [range] over a map depends on
    the visiting order (Go leaves that order unspecified and randomises it),
    the order is an explicit argument: a list holding the entries of the map.
    Go [int] is 64 bits wide; its wrap-around is written out.  Strings are
    byte strings.

    Some functions of Go's library are parameters of the model, since their
    tables and grammars are not part of these sources: what [strings.ToLower]
    and [strings.TrimSpace] do outside ASCII ([GoStrings.Unicode]), and
    [url.Parse] with [URL.String] ([URL.Lib]).  What the code does with their
    results is embedded; the properties hold for every such library. *)

From Stdlib Require Import ZArith List Ascii String Bool Lia.
From stdpp Require Import base option list strings gmap fin_maps.

Local Open Scope string_scope.
Local Open Scope Z_scope.
Local Open Scope list_scope.

(** ** Package [strings] of the Go library, on byte strings *)

Module GoStrings.

(** [strings.HasPrefix(s, p)] *)
Definition HasPrefix (s p : string) : bool := String.prefix p s.

(** [strings.TrimPrefix(s, p)] *)
Definition TrimPrefix (s p : string) : string :=
  if HasPrefix s p
  then String.substring (String.length p) (String.length s - String.length p) s
  else s.

(** [strings.Index(s, sub)]; [None] stands for [-1]. *)
Fixpoint Index (s sub : string) : option nat :=
  if String.prefix sub s then Some 0%nat
  else match s with
       | EmptyString => None
       | String _ s' => S <$> Index s' sub
       end.

(** [strings.LastIndex(s, sub)]; [None] stands for [-1]. *)
Fixpoint LastIndex (s sub : string) : option nat :=
  match s with
  | EmptyString => if String.prefix sub s then Some 0%nat else None
  | String _ s' =>
      match LastIndex s' sub with
      | Some i => Some (S i)
      | None => if String.prefix sub s then Some 0%nat else None
      end
  end.

(** [strings.Contains(s, sub)] *)
Definition Contains (s sub : string) : bool :=
  match Index s sub with Some _ => true | None => false end.

(** [strings.Cut(s, sep)] for a one-byte separator: the text before the
    first [sep], the text after it, and whether [sep] occurs. *)
Fixpoint Cut (s : string) (sep : ascii) : string * string * bool :=
  match s with
  | EmptyString => (EmptyString, EmptyString, false)
  | String c s' =>
      if Ascii.eqb c sep then (EmptyString, s', true)
      else let '(b, a, found) := Cut s' sep in (String c b, a, found)
  end.

(** ASCII letters are mapped as [strings.ToLower] maps them; the bytes of
    other characters are left as they are. *)
Definition lower_byte (c : ascii) : ascii :=
  let n := nat_of_ascii c in
  if ((65 <=? n) && (n <=? 90))%nat then ascii_of_nat (n + 32) else c.

(** The ASCII letters of a string lowered: all that [strings.ToLower] does
    to a string of ASCII bytes. *)
Fixpoint lowerASCII (s : string) : string :=
  match s with
  | EmptyString => EmptyString
  | String c s' => String (lower_byte c) (lowerASCII s')
  end.

(** No byte of the string is [utf8.RuneSelf] (128) or above. *)
Fixpoint isASCII (s : string) : bool :=
  match s with
  | EmptyString => true
  | String c s' => (nat_of_ascii c <? 128)%nat && isASCII s'
  end.

(** What the functions of this package take from the tables of package
    [unicode], which are not spelled out:
    - [lowerNonASCII]: what [strings.Map(unicode.ToLower, s)] does to the
      runes outside ASCII (their lower case, and U+FFFD for a byte that is
      not UTF-8);
    - [trimSpaceFunc]: [strings.TrimFunc(s, unicode.IsSpace)];
    - [trimRightSpaceFunc]: [strings.TrimRightFunc(s, unicode.IsSpace)]. *)
Class Unicode := mkUnicode {
  lowerNonASCII : string → string;
  trimSpaceFunc : string → string;
  trimRightSpaceFunc : string → string;
}.

(** [strings.ToLower(s)]: a string of ASCII bytes has its letters lowered;
    any other string is mapped rune by rune, the ASCII letters as before and
    the runes outside ASCII by the tables. *)
Definition ToLower `{!Unicode} (s : string) : string :=
  if isASCII s then lowerASCII s else lowerNonASCII (lowerASCII s).

(** The ASCII white space [strings.TrimSpace] removes. *)
Definition is_space (c : ascii) : bool :=
  let n := nat_of_ascii c in
  ((n =? 32) || ((9 <=? n) && (n <=? 13)))%nat.

(** The string without the ASCII white space at its end. *)
Fixpoint trim_right (s : string) : string :=
  match s with
  | EmptyString => EmptyString
  | String c s' =>
      match trim_right s' with
      | EmptyString => if is_space c then EmptyString else String c EmptyString
      | t => String c t
      end
  end.

(** The last byte of the string is outside ASCII. *)
Fixpoint endsNonASCII (s : string) : bool :=
  match s with
  | EmptyString => false
  | String c EmptyString => (128 <=? nat_of_ascii c)%nat
  | String _ s' => endsNonASCII s'
  end.

(** The second loop of [TrimSpace], from the end: ASCII white space is cut
    off; a byte outside ASCII met there hands what is left to
    [TrimRightFunc]. *)
Definition trimRightLoop `{!Unicode} (s : string) : string :=
  let t := trim_right s in
  if endsNonASCII t then trimRightSpaceFunc t else t.

(** [strings.TrimSpace(s)]; the first loop, from the start: ASCII white
    space is skipped; a byte outside ASCII met there hands the rest to
    [TrimFunc]. *)
Fixpoint TrimSpace `{!Unicode} (s : string) : string :=
  match s with
  | EmptyString => EmptyString
  | String c s' =>
      if (128 <=? nat_of_ascii c)%nat then trimSpaceFunc s
      else if is_space c then TrimSpace s'
      else trimRightLoop s
  end.

End GoStrings.

(** ** Package [net/url] of the Go library

    [url.Values] is [map[string][]string], with [Get], [Add], [Encode] and
    [ParseQuery] written out.  [url.Parse] and [URL.String] are parameters
    ([Lib]): the code reads and writes the raw query of the URL it parses and
    leaves scheme, authority, path and fragment to the library. *)

Module URL.

Abbreviation Values := (gmap string (list string)).

(** [v.Get(key)]: the first value of [key], or the empty string. *)
Definition Get (v : Values) (key : string) : string :=
  match v !! key with
  | Some (x :: _) => x
  | _ => EmptyString
  end.

(** [v.Add(key, value)]: [v[key] = append(v[key], value)]. *)
Definition Add (key value : string) (v : Values) : Values :=
  <[key := (default [] (v !! key) ++ [value])%list]> v.

Definition hex_digit (n : nat) : ascii :=
  if (n <? 10)%nat then ascii_of_nat (48 + n) else ascii_of_nat (55 + n).

Definition unhex (c : ascii) : option nat :=
  let n := nat_of_ascii c in
  if ((48 <=? n) && (n <=? 57))%nat then Some (n - 48)%nat
  else if ((97 <=? n) && (n <=? 102))%nat then Some (n - 87)%nat
  else if ((65 <=? n) && (n <=? 70))%nat then Some (n - 55)%nat
  else None.

(** [shouldEscape(c, encodeQueryComponent)]: letters, digits and
    [-], [_], [.], [~] are kept; every other byte is escaped. *)
Definition shouldEscape (c : ascii) : bool :=
  let n := nat_of_ascii c in
  negb (((97 <=? n) && (n <=? 122)) || ((65 <=? n) && (n <=? 90))
        || ((48 <=? n) && (n <=? 57))
        || (n =? 45) || (n =? 95) || (n =? 46) || (n =? 126))%nat.

(** [url.QueryEscape(s)] *)
Fixpoint QueryEscape (s : string) : string :=
  match s with
  | EmptyString => EmptyString
  | String c s' =>
      if Ascii.eqb c " " then String "+" (QueryEscape s')
      else if shouldEscape c
      then String "%" (String (hex_digit (nat_of_ascii c / 16))
                      (String (hex_digit (nat_of_ascii c mod 16)) (QueryEscape s')))
      else String c (QueryEscape s')
  end.

(** [url.QueryUnescape(s)]; [None] is the [EscapeError]. *)
Fixpoint QueryUnescape (s : string) : option string :=
  match s with
  | EmptyString => Some EmptyString
  | String c s' =>
      if Ascii.eqb c "%" then
        match s' with
        | String h (String l s'') =>
            match unhex h, unhex l, QueryUnescape s'' with
            | Some a, Some b, Some r => Some (String (ascii_of_nat (16 * a + b)) r)
            | _, _, _ => None
            end
        | _ => None
        end
      else if Ascii.eqb c "+" then String " " <$> QueryUnescape s'
      else String c <$> QueryUnescape s'
  end.

(** One round of the loop of [parseQuery]: the text up to the next [&]. *)
Definition parsePair (pair : string) (m : Values) : Values :=
  if GoStrings.Contains pair ";" then m
  else if String.eqb pair EmptyString then m
  else
    let '(key, value, _) := GoStrings.Cut pair "="%char in
    match QueryUnescape key with
    | None => m
    | Some key =>
        match QueryUnescape value with
        | None => m
        | Some value => Add key value m
        end
    end.

(** [strings.Split(query, "&")], the segments [parseQuery] cuts off one
    after the other. *)
Fixpoint segments (query : string) : list string :=
  match query with
  | EmptyString => [EmptyString]
  | String c q' =>
      if Ascii.eqb c "&" then EmptyString :: segments q'
      else match segments q' with
           | seg :: rest => String c seg :: rest
           | [] => [String c EmptyString]
           end
  end.

(** [url.ParseQuery(query)], as [u.Query()] uses it: the error is dropped
    and the pairs that did parse are kept. *)
Definition ParseQuery (query : string) : Values :=
  foldl (λ m pair, parsePair pair m) ∅ (segments query).

Fixpoint insert_sorted (k : string) (l : list string) : list string :=
  match l with
  | [] => [k]
  | x :: l' => if String.leb k x then k :: l else x :: insert_sorted k l'
  end.

(** [slices.Sort(keys)] on the keys of a [Values]. *)
Definition sorted_keys (v : Values) : list string :=
  foldr insert_sorted [] (map fst (map_to_list v)).

Definition join_amp (parts : list string) : string :=
  match parts with
  | [] => EmptyString
  | p :: ps => foldl (λ acc q, acc +:+ "&" +:+ q) p ps
  end.

(** [v.Encode()]: [key=value] pairs, keys sorted, values in their order. *)
Definition Encode (v : Values) : string :=
  join_amp
    (flat_map (λ k, map (λ x, QueryEscape k +:+ "=" +:+ QueryEscape x)
                        (default [] (v !! k)))
              (sorted_keys v)).

(** [url.Userinfo] *)
Record Userinfo := mkUserinfo {
  Username : string;
  Password : string;
  PasswordSet : bool;
}.

(** [url.URL] *)
Record URL := mkURL {
  Scheme : string;
  Opaque : string;
  User : option Userinfo;
  Host : string;
  Path : string;
  RawPath : string;
  OmitHost : bool;
  ForceQuery : bool;
  RawQuery : string;
  Fragment : string;
  RawFragment : string;
}.

(** [url.Parse(rawURL)], where [None] is the error, and [u.String()]. *)
Class Lib := mkLib {
  Parse : string → option URL;
  String_ : URL → string;
}.

(** [u.Query()] *)
Definition Query (u : URL) : Values := ParseQuery (RawQuery u).

(** [u.RawQuery = q] *)
Definition withRawQuery (u : URL) (q : string) : URL :=
  {| Scheme := Scheme u; Opaque := Opaque u; User := User u; Host := Host u;
     Path := Path u; RawPath := RawPath u; OmitHost := OmitHost u;
     ForceQuery := ForceQuery u; RawQuery := q;
     Fragment := Fragment u; RawFragment := RawFragment u |}.

End URL.

(** ** Package [auth] ([WardenClient], in [cmd/api/main.go]) *)

Module Auth.

Record OrganizationContext := mkOrganizationContext {
  OrganizationID : string;
  OrganizationSlug : string;
  AccountID : string;
  Role : string;
  Permissions : list string;
}.

(** What [ctx.Value(OrganizationContextKey)] holds: nothing, or a
    [*OrganizationContext], which may be the nil pointer ([None]). *)
Inductive CtxValue :=
| NoValue
| OrgPtr (p : option OrganizationContext).

(** The [wardenv1] messages are generated code outside the sources; an
    entry of [GetAccountOrganizations] is taken with its organization and
    its membership present. *)
Record OrganizationWithMembership := mkOrgEntry {
  OrgId : string;
  OrgSlug : string;
  MembershipRole : string;
  MembershipPermissions : list string;
}.

Inductive result (A : Type) :=
| Ok (a : A)
| Err (e : string).
Arguments Ok {A} a.
Arguments Err {A} e.

(** The two RPCs of the identity service the client calls. *)
Record WardenClient := mkWardenClient {
  ValidateApiKey : string → result string;   (* the account id *)
  GetAccountOrganizations : string → result (list OrganizationWithMembership);
}.

(** [validateAPIKey]: the context and the error it returns. *)
Definition validateAPIKey (w : WardenClient) (apiKey : string)
  : option OrganizationContext * option string :=
  match ValidateApiKey w apiKey with
  | Err e => (None, Some e)
  | Ok accountId =>
      match GetAccountOrganizations w accountId with
      | Err e => (None, Some e)
      | Ok organizations =>
          match organizations with
          | [] => (None, None)      (* [return nil, err], where [err] is nil *)
          | org :: _ =>
              (Some {| OrganizationID := OrgId org;
                       OrganizationSlug := OrgSlug org;
                       AccountID := accountId;
                       Role := MembershipRole org;
                       Permissions := MembershipPermissions org |}, None)
          end
      end
  end.

(** What the middleware does with a request: [http.Error], after
    [slog.Error] has written the error of the identity service if there is
    one ([logged]), or [next.ServeHTTP] with a value in the context. *)
Inductive MiddlewareResult :=
| Rejected (status : Z) (message : string) (logged : option string)
| Forwarded (v : CtxValue).

(** [AuthenticationMiddleware], on the [Authorization] header of the request. *)
Definition AuthenticationMiddleware (w : WardenClient) (authHeader : string)
  : MiddlewareResult :=
  if String.eqb authHeader "" then Rejected 401 "Missing Authorization header" None
  else if negb (GoStrings.HasPrefix authHeader "Bearer ")
  then Rejected 401 "Invalid Authorization header format" None
  else
    let apiKey := GoStrings.TrimPrefix authHeader "Bearer " in
    if negb (GoStrings.HasPrefix apiKey "wdn_")
    then Rejected 401 "Invalid API key format" None
    else
      match validateAPIKey w apiKey with
      | (_, Some err) => Rejected 401 "Invalid API key" (Some err)
      | (orgCtx, None) => Forwarded (OrgPtr orgCtx)
      end.

(** [GetOrganizationContext]: the type assertion succeeds on any
    [*OrganizationContext], the nil pointer included. *)
Definition GetOrganizationContext (v : CtxValue) : option OrganizationContext * bool :=
  match v with
  | NoValue => (None, false)
  | OrgPtr p => (p, true)
  end.

End Auth.

(** ** Package [net/http]: what the handlers read and write *)

Module HTTP.

(** A request body as a reader: the chunks it delivers, ending in EOF or in
    a read error. *)
Inductive Reader :=
| EOF
| Chunk (data : string) (rest : Reader)
| ReadError.

(** [io.ReadAll]: the bytes read and whether an error ended the reading. *)
Fixpoint ReadAll (r : Reader) : string * bool :=
  match r with
  | EOF => (EmptyString, false)
  | ReadError => (EmptyString, true)
  | Chunk data rest => let '(b, err) := ReadAll rest in (data +:+ b, err)
  end.

(** The chunks a reader delivers, and whether it ends in an error. *)
Fixpoint delivered (r : Reader) : list string :=
  match r with
  | Chunk data rest => data :: delivered rest
  | _ => []
  end.

Fixpoint failed (r : Reader) : bool :=
  match r with
  | EOF => false
  | ReadError => true
  | Chunk _ rest => failed rest
  end.

Record Request := mkRequest {
  Method : string;
  URLString : string;                   (* [r.URL.String()] *)
  Path : string;                        (* [r.URL.Path] *)
  Query : URL.Values;                   (* [r.URL.Query()] *)
  Header : gmap string (list string);   (* keys in canonical form *)
  Body : option Reader;
  RemoteAddr : string;
  CampaignParam : string;               (* [chi.URLParam(r, "campaign_id")] *)
  Context : Auth.CtxValue;
}.

Definition withContext (r : Request) (v : Auth.CtxValue) : Request :=
  {| Method := Method r; URLString := URLString r; Path := Path r;
     Query := Query r; Header := Header r; Body := Body r;
     RemoteAddr := RemoteAddr r; CampaignParam := CampaignParam r;
     Context := v |}.

(** [validHeaderFieldByte]: the token bytes of RFC 7230. *)
Definition validHeaderFieldByte (c : ascii) : bool :=
  let n := nat_of_ascii c in
  (((97 <=? n) && (n <=? 122)) || ((65 <=? n) && (n <=? 90)) || ((48 <=? n) && (n <=? 57))
   || existsb (Nat.eqb n) [33; 35; 36; 37; 38; 39; 42; 43; 45; 46; 94; 95; 96; 124; 126])%nat.

Fixpoint validHeaderField (s : string) : bool :=
  match s with
  | EmptyString => true
  | String c s' => validHeaderFieldByte c && validHeaderField s'
  end.

(** The loop of [canonicalMIMEHeaderKey]: the first letter and every letter
    after a [-] in upper case, the others in lower case. *)
Fixpoint canonicalCase (upper : bool) (s : string) : string :=
  match s with
  | EmptyString => EmptyString
  | String c s' =>
      let n := nat_of_ascii c in
      let c' :=
        if upper && ((97 <=? n) && (n <=? 122))%nat then ascii_of_nat (n - 32)
        else if negb upper && ((65 <=? n) && (n <=? 90))%nat then ascii_of_nat (n + 32)
        else c in
      String c' (canonicalCase (Ascii.eqb c' "-") s')
  end.

(** [textproto.CanonicalMIMEHeaderKey(s)]: a key with a byte that is not a
    token byte is returned as it is. *)
Definition CanonicalMIMEHeaderKey (s : string) : string :=
  if validHeaderField s then canonicalCase true s else s.

(** [h.Get(key)]: the first value under the canonical form of [key]. *)
Definition HeaderGet (h : gmap string (list string)) (key : string) : string :=
  URL.Get h (CanonicalMIMEHeaderKey key).

Record Response := mkResponse {
  Status : Z;
  RespHeader : list (string * string);
  RespBody : string;
}.

(** [http.Error(w, msg, code)]: the body is [fmt.Fprintln(w, msg)]. *)
Definition Error (msg : string) (code : Z) : Response :=
  {| Status := code;
     RespHeader := [("Content-Type", "text/plain; charset=utf-8");
                    ("X-Content-Type-Options", "nosniff")];
     RespBody := msg +:+ String "010" EmptyString |}.

(** [http.Redirect(w, r, url, code)] for an absolute [url]; the short HTML
    body sent on GET is left out. *)
Definition Redirect (url : string) (code : Z) : Response :=
  {| Status := code; RespHeader := [("Location", url)]; RespBody := EmptyString |}.

Definition Location (r : Response) : option string :=
  snd <$> List.find (λ kv, String.eqb (fst kv) "Location") (RespHeader r).

End HTTP.

(** ** The routing engine ([RoutingEngine], second part of [handler.go]) *)

Module Routing.

Record Rule := mkRule {
  Field : string;
  Operator : string;
  Values : list string;
  Priority : Z;             (* Go [int] *)
}.

Record Campaign := mkCampaign {
  OrganizationID : string;
  CampaignID : string;
  Name : string;
  Status : string;
  Rules : list Rule;
  DestinationURL : string;
  AppendParams : bool;
}.

(** [campaigns]: [org_id/campaign_id -> Campaign]. *)
Record RoutingEngine := mkRoutingEngine {
  campaigns : gmap string Campaign;
}.

(** Two's-complement wrap-around of a 64-bit [int]. *)
Definition wrap64 (z : Z) : Z := (z + 2 ^ 63) mod 2 ^ 64 - 2 ^ 63.

(** [fmt.Sprintf("%s/%s", organizationID, campaignID)] *)
Definition campaignKey (organizationID campaignID : string) : string :=
  organizationID +:+ "/" +:+ campaignID.

(** [ruleMatches] *)
Definition ruleMatches `{!GoStrings.Unicode} (rule : Rule) (params : gmap string string)
  : bool :=
  match params !! Field rule with
  | None => false
  | Some paramValue =>
      if String.eqb (Operator rule) "equals"
      then existsb (λ value, String.eqb paramValue value) (Values rule)
      else if String.eqb (Operator rule) "contains"
      then existsb (λ value, GoStrings.Contains (GoStrings.ToLower paramValue)
                                               (GoStrings.ToLower value)) (Values rule)
      else if String.eqb (Operator rule) "in"
      then existsb (λ value, String.eqb paramValue value) (Values rule)
      else if String.eqb (Operator rule) "prefix"
      then existsb (λ value, GoStrings.HasPrefix paramValue value) (Values rule)
      else false
  end.

(** [calculateMatchScore] *)
Definition calculateMatchScore `{!GoStrings.Unicode} (campaign : Campaign)
    (params : gmap string string) : Z :=
  foldl (λ score rule,
           if ruleMatches rule params then wrap64 (score + Priority rule) else score)
        0 (Rules campaign).

(** The flat map [findBestMatch] builds: the first value of every
    parameter that has one.  Each key is written once, so the order in
    which the parameters are visited does not show. *)
Definition flattenParams (params : URL.Values) : gmap string string :=
  omap head params.

(** One round of the loop over [re.campaigns] in [findBestMatch]. *)
Definition bestMatchStep `{!GoStrings.Unicode} (organizationID : string)
    (flatParams : gmap string string)
    (best : option Campaign * Z) (entry : string * Campaign) : option Campaign * Z :=
  let '(key, campaign) := entry in
  if negb (GoStrings.HasPrefix key (organizationID +:+ "/")) then best
  else if negb (String.eqb (Status campaign) "active") then best
  else
    let score := calculateMatchScore campaign flatParams in
    if snd best <? score then (Some campaign, score) else best.

(** [findBestMatch]; [order] lists the entries of [re.campaigns] in the
    order in which [range] visits them. *)
Definition findBestMatch `{!GoStrings.Unicode} (order : list (string * Campaign))
    (organizationID : string) (params : URL.Values) : option Campaign :=
  fst (foldl (bestMatchStep organizationID (flattenParams params)) (None, 0) order).

(** The loops of [buildDestinationURL]: [query.Add(key, value)] for every
    value of every parameter. *)
Definition addParams (order : list (string * list string)) (query : URL.Values)
  : URL.Values :=
  foldl (λ q entry, foldl (λ q' value, URL.Add (fst entry) value q') q (snd entry))
        query order.

(** [buildDestinationURL]; the parameters are visited in the order of
    [map_to_list] (any other order gives the same query, see
    [addParams_order]).  What it logs is [invalidDestination]. *)
Definition buildDestinationURL `{!URL.Lib} (campaign : Campaign) (params : URL.Values)
  : string :=
  let baseURL := DestinationURL campaign in
  if negb (AppendParams campaign) || Nat.eqb (size params) 0 then baseURL
  else
    match URL.Parse baseURL with
    | None => baseURL
    | Some parsedURL =>
        let query := addParams (map_to_list params) (URL.Query parsedURL) in
        URL.String_ (URL.withRawQuery parsedURL (URL.Encode query))
    end.

(** What [buildDestinationURL] logs: a warning with the destination, when
    it goes on to parse it and [url.Parse] refuses it. *)
Definition invalidDestination `{!URL.Lib} (campaign : Campaign) (params : URL.Values)
  : option string :=
  let baseURL := DestinationURL campaign in
  if negb (AppendParams campaign) || Nat.eqb (size params) 0 then None
  else
    match URL.Parse baseURL with
    | None => Some baseURL
    | Some _ => None
    end.

(** [getCampaign] *)
Definition getCampaign (re : RoutingEngine) (key : string) : option Campaign :=
  campaigns re !! key.

Definition activeCampaign (re : RoutingEngine) (key : string) : option Campaign :=
  match getCampaign re key with
  | Some campaign => if String.eqb (Status campaign) "active" then Some campaign else None
  | None => None
  end.

Definition ultimateFallback : string := "https://example.com/".

(** [GetDestination] *)
Definition GetDestination `{!GoStrings.Unicode} `{!URL.Lib}
    (re : RoutingEngine) (order : list (string * Campaign))
    (organizationID campaignID : string) (params : URL.Values) : string :=
  match (if String.eqb campaignID "" then None
         else activeCampaign re (campaignKey organizationID campaignID)) with
  | Some campaign => buildDestinationURL campaign params
  | None =>
      match findBestMatch order organizationID params with
      | Some campaign => buildDestinationURL campaign params
      | None =>
          match getCampaign re (campaignKey organizationID "default") with
          | Some defaultCampaign => buildDestinationURL defaultCampaign params
          | None => ultimateFallback
          end
      end
  end.

(** The campaign [GetDestination] took the destination from, and by which
    of its steps. *)
Inductive Decision :=
| Explicit (c : Campaign)
| BestMatch (c : Campaign)
| Default (c : Campaign)
| Fallback.

Definition decision `{!GoStrings.Unicode}
    (re : RoutingEngine) (order : list (string * Campaign))
    (organizationID campaignID : string) (params : URL.Values) : Decision :=
  match (if String.eqb campaignID "" then None
         else activeCampaign re (campaignKey organizationID campaignID)) with
  | Some campaign => Explicit campaign
  | None =>
      match findBestMatch order organizationID params with
      | Some campaign => BestMatch campaign
      | None =>
          match getCampaign re (campaignKey organizationID "default") with
          | Some defaultCampaign => Default defaultCampaign
          | None => Fallback
          end
      end
  end.

Definition selected (d : Decision) : option Campaign :=
  match d with
  | Explicit c | BestMatch c | Default c => Some c
  | Fallback => None
  end.

(** What [GetDestination] logs: the warning of [buildDestinationURL] for
    the campaign it takes the destination from. *)
Definition destinationWarning `{!GoStrings.Unicode} `{!URL.Lib}
    (re : RoutingEngine) (order : list (string * Campaign))
    (organizationID campaignID : string) (params : URL.Values) : option string :=
  match selected (decision re order organizationID campaignID params) with
  | Some campaign => invalidDestination campaign params
  | None => None
  end.

(** An order in which [range re.campaigns] may visit the snapshot. *)
Definition rangeOrder (re : RoutingEngine) (order : list (string * Campaign)) : Prop :=
  order ≡ₚ map_to_list (campaigns re).

(** [loadCampaigns] after a query that succeeded: a row that did not scan,
    or whose rules did not parse, is [None] and is skipped; the map built
    from the others replaces the snapshot. *)
Definition loadCampaigns (rows : list (option Campaign)) : RoutingEngine :=
  {| campaigns :=
       foldl (λ m row, match row with
                       | Some c => <[campaignKey (OrganizationID c) (CampaignID c) := c]> m
                       | None => m
                       end) ∅ rows |}.

(** The update of the local snapshot in [CreateCampaign] and [UpdateCampaign]. *)
Definition putCampaign (re : RoutingEngine) (c : Campaign) : RoutingEngine :=
  {| campaigns := <[campaignKey (OrganizationID c) (CampaignID c) := c]> (campaigns re) |}.

(** The update of the local snapshot in [DeleteCampaign]. *)
Definition removeCampaign (re : RoutingEngine) (organizationID campaignID : string)
  : RoutingEngine :=
  {| campaigns := delete (campaignKey organizationID campaignID) (campaigns re) |}.

End Routing.

(** ** The ingestion handler ([Handler], first part of [handler.go]) *)

Module Ingestion.

Record RawRequest := mkRawRequest {
  Method : string;
  URL_ : string;
  Path : string;
  Headers : gmap string string;
  Body : string;                 (* [json.RawMessage]; nil is the empty string *)
  IP : string;
  Params : URL.Values;
}.

(** [Event]; [Enriched] and [FraudScore] keep their zero value in every
    handler and are left out. *)
Record Event := mkEvent {
  EventID : string;
  Timestamp : Z;
  OrganizationID : string;
  ClickID : string;
  CampaignID : string;
  Raw : RawRequest;
  FraudFlags : list string;
}.

(** A [pubsub.Message]; [Data] stands for the JSON of the event it holds. *)
Record Message := mkMessage {
  Data : Event;
  Attributes : list (string * string);
}.

(** A line of the log; of its attributes, an [error] whose text is made by
    the library is not kept. *)
Record LogLine := mkLogLine {
  Level : string;
  Msg : string;
  Attrs : list (string * string);
}.

(** Everything outside the process that the handlers touch: the keys of
    the Redis store with the time (ns) at which each expires, the messages
    the Pub/Sub topic has accepted, and the log. *)
Record World := mkWorld {
  redis : gmap string Z;
  topic : list Message;
  logs : list LogLine;
}.

(** What one request takes from its environment. *)
Record Env := mkEnv {
  now : Z;                     (* [time.Now().UnixNano()] *)
  eventUUID : string;          (* [uuid.New()] for the event id *)
  clickUUID : string;          (* [uuid.New()] in [extractClickID] *)
  redisUp : bool;              (* [SetNX] answers, without error, in its 10 ms *)
  jsonValid : string → bool;   (* whether [json.Marshal] accepts the raw body *)
  publishOk : bool;            (* [result.Get] returns no error *)
  marshalFirst : bool;         (* the goroutine started in [HandleTraffic] runs
                                  [json.Marshal] before the handler reaches the
                                  dedup check *)
  callsFirst : bool;           (* the calls in the composite literal of the
                                  event run before [orgCtx.OrganizationID] is
                                  loaded; Go leaves this order open *)
}.

Definition logLine (l : LogLine) (w : World) : World :=
  {| redis := redis w; topic := topic w; logs := (logs w ++ [l])%list |}.

Definition setFraudFlags (e : Event) (flags : list string) : Event :=
  {| EventID := EventID e; Timestamp := Timestamp e;
     OrganizationID := OrganizationID e; ClickID := ClickID e;
     CampaignID := CampaignID e; Raw := Raw e; FraudFlags := flags |}.

Definition setCampaignID (e : Event) (campaignID : string) : Event :=
  {| EventID := EventID e; Timestamp := Timestamp e;
     OrganizationID := OrganizationID e; ClickID := ClickID e;
     CampaignID := campaignID; Raw := Raw e; FraudFlags := FraudFlags e |}.

Definition dedupTTL : Z := 5 * 1000000000.

(** [isDuplicate] *)
Definition isDuplicate (env : Env) (organizationID clickID : string) (w : World)
  : bool * World :=
  if String.eqb clickID "" then (false, w)
  else
    let key := "click:" +:+ organizationID +:+ ":" +:+ clickID in
    if negb (redisUp env)
    then (false, logLine {| Level := "WARN"; Msg := "redis dedup check failed";
                            Attrs := [("organization_id", organizationID)] |} w)
    else
      (* [SetNX(key, 1, 5s)] *)
      match redis w !! key with
      | Some expiry =>
          if now env <? expiry then (true, w)
          else (false, {| redis := <[key := now env + dedupTTL]> (redis w);
                          topic := topic w; logs := logs w |})
      | None => (false, {| redis := <[key := now env + dedupTTL]> (redis w);
                           topic := topic w; logs := logs w |})
      end.

(** [json.Marshal(event)] fails on a raw body that is not JSON. *)
Definition marshalFails (env : Env) (e : Event) : bool :=
  negb (String.eqb (Body (Raw e)) "") && negb (jsonValid env (Body (Raw e))).

(** Marshal, publish and wait for the result: the body shared by
    [publishEvent] and by the goroutine of [HandleTraffic], which differ in
    the attributes of the message. *)
Definition publish (env : Env) (attrs : list (string * string)) (e : Event) (w : World)
  : World :=
  if marshalFails env e
  then logLine {| Level := "ERROR"; Msg := "failed to marshal event";
                  Attrs := [("organization_id", OrganizationID e)] |} w
  else if publishOk env
  then {| redis := redis w;
          topic := (topic w ++ [{| Data := e; Attributes := attrs |}])%list;
          logs := logs w |}
  else logLine {| Level := "ERROR"; Msg := "failed to publish event";
                  Attrs := [("event_id", EventID e);
                            ("organization_id", OrganizationID e)] |} w.

(** [publishEvent] *)
Definition publishEvent (env : Env) (e : Event) (w : World) : World :=
  publish env [("event_id", EventID e); ("click_id", ClickID e);
               ("organization_id", OrganizationID e)] e w.

(** [extractClickID] *)
Definition extractClickID (env : Env) (r : HTTP.Request) : string :=
  match List.find (λ param, negb (String.eqb (URL.Get (HTTP.Query r) param) ""))
                  ["click_id"; "clickid"; "cid"; "transaction_id"; "tid"] with
  | Some param => URL.Get (HTTP.Query r) param
  | None => clickUUID env
  end.

(** [getRealIP] *)
Definition getRealIP `{!GoStrings.Unicode} (r : HTTP.Request) : string :=
  let xff := HTTP.HeaderGet (HTTP.Header r) "X-Forwarded-For" in
  if negb (String.eqb xff "") then
    match GoStrings.Index xff "," with
    | Some idx => GoStrings.TrimSpace (String.substring 0 idx xff)
    | None => xff
    end
  else
    let xri := HTTP.HeaderGet (HTTP.Header r) "X-Real-IP" in
    if negb (String.eqb xri "") then xri
    else
      match GoStrings.LastIndex (HTTP.RemoteAddr r) ":" with
      | Some idx => String.substring 0 idx (HTTP.RemoteAddr r)
      | None => HTTP.RemoteAddr r
      end.

(** [flattenHeaders]; canonical keys stay distinct when lower-cased, so
    every key of the result is written once. *)
Definition flattenHeaders `{!GoStrings.Unicode} (headers : gmap string (list string))
  : gmap string string :=
  map_fold (λ key values flat,
              match values with
              | v :: _ => <[GoStrings.ToLower key := v]> flat
              | [] => flat
              end) ∅ headers.

(** [readBody]: the whole body, or nil when there is none or reading fails. *)
Definition readBody (r : HTTP.Request) (w : World) : string * World :=
  match HTTP.Body r with
  | None => (EmptyString, w)
  | Some reader =>
      let '(body, err) := HTTP.ReadAll reader in
      if err
      then (EmptyString,
            logLine {| Level := "WARN"; Msg := "failed to read request body"; Attrs := [] |} w)
      else (body, w)
  end.

Definition pixel : list nat :=
  [71; 73; 70; 56; 57; 97; 1; 0;
   1; 0; 128; 0; 0; 0; 0; 0;
   0; 0; 0; 33; 249; 4; 1; 0;
   0; 0; 0; 44; 0; 0; 0; 0;
   1; 0; 1; 0; 0; 2; 2; 4;
   1; 0; 59]%nat.

(** [servePixel] *)
Definition servePixel : HTTP.Response :=
  {| HTTP.Status := 200;
     HTTP.RespHeader := [("Content-Type", "image/gif");
                         ("Cache-Control", "no-cache, no-store, must-revalidate");
                         ("Pragma", "no-cache");
                         ("Expires", "0")];
     HTTP.RespBody := string_of_list_ascii (map ascii_of_nat pixel) |}.

(** How a handler ends: with a response, or in the panic of a nil-pointer
    dereference. *)
Inductive Outcome :=
| Responded (r : HTTP.Response)
| Panicked.

(** [h.metrics.RecordRedirect] of [SimpleMetrics]; the duration is not kept. *)
Definition RecordRedirect (organizationID campaignID : string) (w : World) : World :=
  logLine {| Level := "INFO"; Msg := "redirect completed";
             Attrs := [("organization_id", organizationID);
                       ("campaign_id", campaignID)] |} w.

(** The warning of [buildDestinationURL], if any, in the log. *)
Definition warnDestination (warning : option string) (w : World) : World :=
  match warning with
  | Some url => logLine {| Level := "WARN"; Msg := "invalid destination URL";
                           Attrs := [("url", url)] |} w
  | None => w
  end.

Arguments warnDestination : simpl never.

(** [HandleTraffic].  The goroutine that publishes holds a pointer to the
    event the handler goes on to modify; it sees the event as it is when it
    runs [json.Marshal], before or after the dedup check ([marshalFirst]).
    It then waits for the answer of the topic while the handler goes on, so
    what it does to the world is entered after the handler's own log line
    (the line of a marshalling error, which it writes without waiting, is
    entered there as well).
    With the nil context the load of [orgCtx.OrganizationID] panics; the
    calls in the same composite literal, [readBody] among them, have run by
    then or have not ([callsFirst]). *)
Definition HandleTraffic `{!GoStrings.Unicode} `{!URL.Lib} (re : Routing.RoutingEngine)
    (order : list (string * Routing.Campaign))
    (env : Env) (r : HTTP.Request) (w : World) : Outcome * World :=
  match Auth.GetOrganizationContext (HTTP.Context r) with
  | (_, false) => (Responded (HTTP.Error "Organization context not found" 500), w)
  | (None, true) => (Panicked, if callsFirst env then snd (readBody r w) else w)
  | (Some orgCtx, true) =>
      let clickID := extractClickID env r in
      let headers := flattenHeaders (HTTP.Header r) in
      let '(body, w1) := readBody r w in
      let event0 :=
        {| EventID := eventUUID env;
           Timestamp := now env;
           OrganizationID := Auth.OrganizationID orgCtx;
           ClickID := clickID;
           CampaignID := EmptyString;
           Raw := {| Method := HTTP.Method r;
                     URL_ := HTTP.URLString r;
                     Path := HTTP.Path r;
                     Headers := headers;
                     Body := body;
                     IP := getRealIP r;
                     Params := HTTP.Query r |};
           FraudFlags := [] |} in
      let event1 :=
        if negb (String.eqb (HTTP.CampaignParam r) "")
        then setCampaignID event0
               (Auth.OrganizationID orgCtx +:+ "/" +:+ HTTP.CampaignParam r)
        else event0 in
      let '(duplicate, w2) := isDuplicate env (OrganizationID event1) (ClickID event1) w1 in
      let event2 :=
        if duplicate
        then setFraudFlags event1 (FraudFlags event1 ++ ["duplicate_click"])%list
        else event1 in
      let destination :=
        Routing.GetDestination re order (OrganizationID event2) (CampaignID event2)
                               (Params (Raw event2)) in
      let warning :=
        Routing.destinationWarning re order (OrganizationID event2) (CampaignID event2)
                                   (Params (Raw event2)) in
      let w3 := RecordRedirect (OrganizationID event2) (CampaignID event2)
                               (warnDestination warning w2) in
      let marshalled := if marshalFirst env then event1 else event2 in
      let w4 := publish env [("event_id", EventID event1);
                             ("click_id", ClickID event1);
                             ("campaign_id", CampaignID event1);
                             ("organization_id", OrganizationID event1)]
                        marshalled w3 in
      (Responded (HTTP.Redirect destination 302), w4)
  end.

(** [HandlePixel]; none of the calls in its composite literal touches the
    world. *)
Definition HandlePixel `{!GoStrings.Unicode} (env : Env) (r : HTTP.Request) (w : World)
  : Outcome * World :=
  match Auth.GetOrganizationContext (HTTP.Context r) with
  | (_, false) => (Responded servePixel, w)
  | (None, true) => (Panicked, w)
  | (Some orgCtx, true) =>
      let event :=
        {| EventID := eventUUID env;
           Timestamp := now env;
           OrganizationID := Auth.OrganizationID orgCtx;
           ClickID := extractClickID env r;
           CampaignID := EmptyString;
           Raw := {| Method := "GET";
                     URL_ := HTTP.URLString r;
                     Path := HTTP.Path r;
                     Headers := flattenHeaders (HTTP.Header r);
                     Body := EmptyString;
                     IP := getRealIP r;
                     Params := HTTP.Query r |};
           FraudFlags := [] |} in
      (Responded servePixel, publishEvent env event w)
  end.

(** [HandlePostback]; the click id is checked before the context is read. *)
Definition HandlePostback `{!GoStrings.Unicode} (env : Env) (r : HTTP.Request) (w : World)
  : Outcome * World :=
  match Auth.GetOrganizationContext (HTTP.Context r) with
  | (_, false) => (Responded (HTTP.Error "Organization context not found" 401), w)
  | (orgPtr, true) =>
      let clickID := URL.Get (HTTP.Query r) "click_id" in
      if String.eqb clickID ""
      then (Responded (HTTP.Error "Missing click_id parameter" 400), w)
      else
        match orgPtr with
        | None => (Panicked, if callsFirst env then snd (readBody r w) else w)
        | Some orgCtx =>
            let headers := flattenHeaders (HTTP.Header r) in
            let '(body, w1) := readBody r w in
            let event :=
              {| EventID := eventUUID env;
                 Timestamp := now env;
                 OrganizationID := Auth.OrganizationID orgCtx;
                 ClickID := clickID;
                 CampaignID := EmptyString;
                 Raw := {| Method := HTTP.Method r;
                           URL_ := HTTP.URLString r;
                           Path := HTTP.Path r;
                           Headers := headers;
                           Body := body;
                           IP := getRealIP r;
                           Params := HTTP.Query r |};
                 FraudFlags := [] |} in
            (Responded {| HTTP.Status := 200; HTTP.RespHeader := []; HTTP.RespBody := "OK" |},
             publishEvent env event w1)
        end
  end.

End Ingestion.

(** The group of routes behind [AuthenticationMiddleware] in [main]. *)
Definition authenticated (wc : Auth.WardenClient)
    (handler : HTTP.Request → Ingestion.World → Ingestion.Outcome * Ingestion.World)
    (r : HTTP.Request) (w : Ingestion.World) : Ingestion.Outcome * Ingestion.World :=
  match Auth.AuthenticationMiddleware wc (HTTP.HeaderGet (HTTP.Header r) "Authorization") with
  | Auth.Rejected status message logged =>
      (Ingestion.Responded (HTTP.Error message status),
       match logged with
       | Some err =>
           Ingestion.logLine {| Ingestion.Level := "ERROR";
                                Ingestion.Msg := "API key validation failed";
                                Ingestion.Attrs := [("error", err)] |} w
       | None => w
       end)
  | Auth.Forwarded v => handler (HTTP.withContext r v) w
  end.

(** ** The permission and role middleware of package [auth] *)

Module AuthGuards.

(** [RequirePermission(permission)] around the next handler; [next] gives
    what the next handler does with the request. *)
Definition RequirePermission (permission : string)
    (next : HTTP.Request → Ingestion.World → Ingestion.Outcome * Ingestion.World)
    (r : HTTP.Request) (w : Ingestion.World) : Ingestion.Outcome * Ingestion.World :=
  match Auth.GetOrganizationContext (HTTP.Context r) with
  | (_, false) => (Ingestion.Responded (HTTP.Error "Organization context not found" 500), w)
  | (None, true) => (Ingestion.Panicked, w)
  | (Some orgCtx, true) =>
      if existsb (λ perm, String.eqb perm permission) (Auth.Permissions orgCtx)
      then next r w
      else (Ingestion.Responded (HTTP.Error "Insufficient permissions" 403), w)
  end.

(** [RequireRole(roles...)]; the context is read in the loop over [roles],
    so with the nil context the first round panics and no round does not. *)
Definition RequireRole (roles : list string)
    (next : HTTP.Request → Ingestion.World → Ingestion.Outcome * Ingestion.World)
    (r : HTTP.Request) (w : Ingestion.World) : Ingestion.Outcome * Ingestion.World :=
  match Auth.GetOrganizationContext (HTTP.Context r) with
  | (_, false) => (Ingestion.Responded (HTTP.Error "Organization context not found" 500), w)
  | (None, true) =>
      match roles with
      | [] => (Ingestion.Responded (HTTP.Error "Insufficient role" 403), w)
      | _ :: _ => (Ingestion.Panicked, w)
      end
  | (Some orgCtx, true) =>
      if existsb (λ role, String.eqb (Auth.Role orgCtx) role) roles
      then next r w
      else (Ingestion.Responded (HTTP.Error "Insufficient role" 403), w)
  end.

End AuthGuards.

(** ** The campaign store operations of [RoutingEngine] *)

Module Admin.

(** [NewRoutingEngine] before the first load: [make(map[string]*Campaign)]. *)
Definition emptyEngine : Routing.RoutingEngine := {| Routing.campaigns := ∅ |}.

(** [loadCampaigns]: [None] is a query that failed, which leaves the
    snapshot as it is and returns the error. *)
Definition loadCampaigns (re : Routing.RoutingEngine)
    (queried : option (list (option Routing.Campaign))) : Routing.RoutingEngine * bool :=
  match queried with
  | None => (re, false)
  | Some rows => (Routing.loadCampaigns rows, true)
  end.

(** [CreateCampaign]; [stored] tells whether the INSERT went through.  The
    engine after the call, and whether the call returned nil. *)
Definition CreateCampaign (re : Routing.RoutingEngine) (campaign : Routing.Campaign)
    (stored : bool) : Routing.RoutingEngine * bool :=
  if stored then (Routing.putCampaign re campaign, true) else (re, false).

(** [UpdateCampaign] *)
Definition UpdateCampaign (re : Routing.RoutingEngine) (campaign : Routing.Campaign)
    (stored : bool) : Routing.RoutingEngine * bool :=
  if stored then (Routing.putCampaign re campaign, true) else (re, false).

(** [DeleteCampaign] *)
Definition DeleteCampaign (re : Routing.RoutingEngine) (organizationID campaignID : string)
    (stored : bool) : Routing.RoutingEngine * bool :=
  if stored then (Routing.removeCampaign re organizationID campaignID, true) else (re, false).

(** [GetOrganizationCampaigns]; [order] lists the entries of the snapshot in
    the order in which [range] visits them. *)
Definition GetOrganizationCampaigns (order : list (string * Routing.Campaign))
    (organizationID : string) : list Routing.Campaign :=
  map snd (List.filter (λ entry, GoStrings.HasPrefix (fst entry) (organizationID +:+ "/"))
                       order).

(** The calls that change the snapshot, with what the store answered. *)
Inductive Op :=
| OpLoad (queried : option (list (option Routing.Campaign)))
| OpCreate (campaign : Routing.Campaign) (stored : bool)
| OpUpdate (campaign : Routing.Campaign) (stored : bool)
| OpDelete (organizationID campaignID : string) (stored : bool).

Definition apply (re : Routing.RoutingEngine) (op : Op) : Routing.RoutingEngine :=
  match op with
  | OpLoad queried => fst (loadCampaigns re queried)
  | OpCreate campaign stored => fst (CreateCampaign re campaign stored)
  | OpUpdate campaign stored => fst (UpdateCampaign re campaign stored)
  | OpDelete organizationID campaignID stored =>
      fst (DeleteCampaign re organizationID campaignID stored)
  end.

Definition run (ops : list Op) : Routing.RoutingEngine := foldl apply emptyEngine ops.

End Admin.

(** ** Package [config] *)

Module Config.

Record WardenConfig := mkWardenConfig {
  Address : string;
  TLS : bool;
  ServiceAPIKey : string;
  TimeoutSeconds : Z;
}.

Record ClickHouseConfig := mkClickHouseConfig {
  Host : string;
  ClickHousePort : Z;            (* [ClickHouse.Port] *)
  Database : string;
  Username : string;
  Password : string;
  MaxOpenConnections : Z;
  ConnMaxLifetime : Z;
}.

Record RedisConfig := mkRedisConfig {
  URL : string;
  PoolSize : Z;
  MinIdleConns : Z;
  KeyPrefix : string;
}.

Record PubSubConfig := mkPubSubConfig {
  PubSubProjectID : string;      (* [PubSub.ProjectID] *)
  TopicID : string;
  SubscriptionID : string;
  MaxOutstandingMessages : Z;
  NumGoroutines : Z;
}.

Record GCSConfig := mkGCSConfig {
  GCSProjectID : string;         (* [GCS.ProjectID] *)
  BucketName : string;
  ArchivePrefix : string;
}.

Record Config := mkConfig {
  Port : Z;
  Environment : string;
  LogLevel : string;
  Warden : WardenConfig;
  ClickHouse : ClickHouseConfig;
  Redis : RedisConfig;
  PubSub : PubSubConfig;
  GCS : GCSConfig;
}.

(** The process environment; [os.Getenv] gives the empty string for a
    variable that is not set. *)
Definition Getenv (env : gmap string string) (key : string) : string :=
  default EmptyString (env !! key).

Definition digitVal (c : ascii) : option Z :=
  let n := nat_of_ascii c in
  if ((48 <=? n) && (n <=? 57))%nat then Some (Z.of_nat (n - 48)) else None.

Fixpoint digitsVal (acc : Z) (s : string) : option Z :=
  match s with
  | EmptyString => Some acc
  | String c s' =>
      match digitVal c with
      | Some d => digitsVal (10 * acc + d) s'
      | None => None
      end
  end.

(** [strconv.Atoi] for a 64-bit [int]: an optional sign, decimal digits, a
    value in range; [None] is the error. *)
Definition Atoi (s : string) : option Z :=
  let '(negative, digits) :=
    match s with
    | String c rest =>
        if Ascii.eqb c "-" then (true, rest)
        else if Ascii.eqb c "+" then (false, rest)
        else (false, s)
    | EmptyString => (false, s)
    end in
  if String.eqb digits "" then None
  else
    match digitsVal 0 digits with
    | None => None
    | Some v =>
        let z := if negative then - v else v in
        if (- 2 ^ 63 <=? z) && (z <=? 2 ^ 63 - 1) then Some z else None
    end.

(** [strconv.ParseBool] *)
Definition ParseBool (s : string) : option bool :=
  if existsb (String.eqb s) ["1"; "t"; "T"; "TRUE"; "true"; "True"] then Some true
  else if existsb (String.eqb s) ["0"; "f"; "F"; "FALSE"; "false"; "False"] then Some false
  else None.

(** [getEnvString] *)
Definition getEnvString (env : gmap string string) (key defaultValue : string) : string :=
  if negb (String.eqb (Getenv env key) "") then Getenv env key else defaultValue.

(** [getEnvInt] *)
Definition getEnvInt (env : gmap string string) (key : string) (defaultValue : Z) : Z :=
  if negb (String.eqb (Getenv env key) "")
  then match Atoi (Getenv env key) with
       | Some intValue => intValue
       | None => defaultValue
       end
  else defaultValue.

(** [getEnvBool] *)
Definition getEnvBool (env : gmap string string) (key : string) (defaultValue : bool)
  : bool :=
  if negb (String.eqb (Getenv env key) "")
  then match ParseBool (Getenv env key) with
       | Some boolValue => boolValue
       | None => defaultValue
       end
  else defaultValue.

(** The errors of [Validate], in the order of its checks. *)
Inductive ValidationError :=
| InvalidPort (port : Z)
| WardenAddressRequired
| ClickHouseHostRequired
| ClickHouseDatabaseRequired
| RedisURLRequired
| PubSubProjectRequired
| GCSProjectRequired.

(** [Validate]; [None] is nil. *)
Definition Validate (c : Config) : option ValidationError :=
  if (Port c <? 1) || (65535 <? Port c) then Some (InvalidPort (Port c))
  else if String.eqb (Address (Warden c)) "" then Some WardenAddressRequired
  else if String.eqb (Host (ClickHouse c)) "" then Some ClickHouseHostRequired
  else if String.eqb (Database (ClickHouse c)) "" then Some ClickHouseDatabaseRequired
  else if String.eqb (URL (Redis c)) "" then Some RedisURLRequired
  else if String.eqb (Environment c) "production" then
    if String.eqb (PubSubProjectID (PubSub c)) "" then Some PubSubProjectRequired
    else if String.eqb (GCSProjectID (GCS c)) "" then Some GCSProjectRequired
    else None
  else None.

(** The configuration [Load] reads from the environment, before it is
    validated. *)
Definition fromEnv (env : gmap string string) : Config :=
  {| Port := getEnvInt env "TRELLIS_PORT" 8080;
     Environment := getEnvString env "TRELLIS_ENV" "development";
     LogLevel := getEnvString env "TRELLIS_LOG_LEVEL" "info";
     Warden :=
       {| Address := getEnvString env "WARDEN_ADDRESS" "localhost:21382";
          TLS := getEnvBool env "WARDEN_TLS" false;
          ServiceAPIKey := getEnvString env "WARDEN_SERVICE_API_KEY" "";
          TimeoutSeconds := getEnvInt env "WARDEN_TIMEOUT_SECONDS" 30 |};
     ClickHouse :=
       {| Host := getEnvString env "CLICKHOUSE_HOST" "localhost";
          ClickHousePort := getEnvInt env "CLICKHOUSE_PORT" 8123;
          Database := getEnvString env "CLICKHOUSE_DATABASE" "trellis";
          Username := getEnvString env "CLICKHOUSE_USERNAME" "default";
          Password := getEnvString env "CLICKHOUSE_PASSWORD" "";
          MaxOpenConnections := getEnvInt env "CLICKHOUSE_MAX_OPEN_CONNS" 10;
          ConnMaxLifetime := getEnvInt env "CLICKHOUSE_CONN_MAX_LIFETIME" 60 |};
     Redis :=
       {| URL := getEnvString env "REDIS_URL" "redis://localhost:6379/0";
          PoolSize := getEnvInt env "REDIS_POOL_SIZE" 10;
          MinIdleConns := getEnvInt env "REDIS_MIN_IDLE_CONNS" 2;
          KeyPrefix := getEnvString env "REDIS_KEY_PREFIX" "trellis" |};
     PubSub :=
       {| PubSubProjectID := getEnvString env "PUBSUB_PROJECT_ID" "";
          TopicID := getEnvString env "PUBSUB_TOPIC_ID" "trellis-events";
          SubscriptionID := getEnvString env "PUBSUB_SUBSCRIPTION_ID" "trellis-processor";
          MaxOutstandingMessages := getEnvInt env "PUBSUB_MAX_OUTSTANDING" 1000;
          NumGoroutines := getEnvInt env "PUBSUB_NUM_GOROUTINES" 10 |};
     GCS :=
       {| GCSProjectID := getEnvString env "GCS_PROJECT_ID" "";
          BucketName := getEnvString env "GCS_BUCKET_NAME" "";
          ArchivePrefix := getEnvString env "GCS_ARCHIVE_PREFIX" "events" |} |}.

(** [Load]: the configuration, or the validation error it wraps. *)
Definition Load (env : gmap string string) : Config + ValidationError :=
  match Validate (fromEnv env) with
  | Some err => inr err
  | None => inl (fromEnv env)
  end.

(** [IsProduction] *)
Definition IsProduction `{!GoStrings.Unicode} (c : Config) : bool :=
  String.eqb (GoStrings.ToLower (Environment c)) "production".

(** [IsDevelopment] *)
Definition IsDevelopment `{!GoStrings.Unicode} (c : Config) : bool :=
  String.eqb (GoStrings.ToLower (Environment c)) "development".

End Config.

(** ** Predicates used to state the properties *)

(** The entries of the snapshot that the loop of [findBestMatch] does not
    skip for [organizationID]: key prefix [organizationID/], status active. *)
Definition eligible (organizationID : string) (entry : string * Routing.Campaign) : bool :=
  GoStrings.HasPrefix (fst entry) (organizationID +:+ "/")
  && String.eqb (Routing.Status (snd entry)) "active".

(** The score of a campaign for the parameters of a request. *)
Definition scoreOf `{!GoStrings.Unicode} (params : URL.Values) (c : Routing.Campaign) : Z :=
  Routing.calculateMatchScore c (Routing.flattenParams params).

(** The values a [url.Values] holds under a key ([v[key]], nil when absent). *)
Definition valuesOf (v : URL.Values) (key : string) : list string :=
  default [] (v !! key).

(** The keys of the snapshot are built from the campaigns they hold. *)
Definition keyedByOwner (re : Routing.RoutingEngine) : Prop :=
  ∀ key c, Routing.campaigns re !! key = Some c →
           key = Routing.campaignKey (Routing.OrganizationID c) (Routing.CampaignID c).

(** No byte of the string is [/]. *)
Fixpoint noSlash (s : string) : bool :=
  match s with
  | EmptyString => true
  | String c s' => negb (Ascii.eqb c "/") && noSlash s'
  end.

(** Between two worlds the topic gained one message, the event of this request. *)
Definition captured (env : Ingestion.Env) (w w' : Ingestion.World) : Prop :=
  ∃ m, Ingestion.topic w' = Ingestion.topic w ++ [m] ∧
       Ingestion.EventID (Ingestion.Data m) = Ingestion.eventUUID env.

(** The log holds an error line. *)
Definition errorLogged (w : Ingestion.World) : Prop :=
  ∃ l, l ∈ Ingestion.logs w ∧ Ingestion.Level l = "ERROR".

(** The outcome is a response of the given status. *)
Definition respondedWith (status : Z) (o : Ingestion.Outcome) : Prop :=
  ∃ resp, o = Ingestion.Responded resp ∧ HTTP.Status resp = status.

(** The sum of the priorities of the rules that match, in unbounded integers. *)
Fixpoint matchedSum `{!GoStrings.Unicode} (flat : gmap string string)
    (rules : list Routing.Rule) : Z :=
  match rules with
  | [] => 0
  | rule :: rules' =>
      (if Routing.ruleMatches rule flat then Routing.Priority rule else 0)
      + matchedSum flat rules'
  end.

Fixpoint prioritySum (rules : list Routing.Rule) : Z :=
  match rules with
  | [] => 0
  | rule :: rules' => Routing.Priority rule + prioritySum rules'
  end.

(** What the scan holds after visiting [seen]. *)
Definition scanInv `{!GoStrings.Unicode} (org : string) (flat : gmap string string)
    (seen : list (string * Routing.Campaign)) (st : option Routing.Campaign * Z) : Prop :=
  match fst st with
  | None =>
      snd st = 0 ∧
      ∀ e, e ∈ seen → eligible org e = true → Routing.calculateMatchScore (snd e) flat ≤ 0
  | Some c =>
      0 < snd st ∧ snd st = Routing.calculateMatchScore c flat ∧
      ∃ l1 k l2, seen = l1 ++ (k, c) :: l2 ∧ eligible org (k, c) = true ∧
        (∀ e, e ∈ l1 → eligible org e = true →
              Routing.calculateMatchScore (snd e) flat < Routing.calculateMatchScore c flat) ∧
        (∀ e, e ∈ l2 → eligible org e = true →
              Routing.calculateMatchScore (snd e) flat ≤ Routing.calculateMatchScore c flat)
  end.

(** The value of a parameter that rule evaluation sees: the first one. *)
Definition firstValue (params : URL.Values) (field : string) : option string :=
  params !! field ≫= head.

(** A rule with another operator, or another list of values. *)
Definition withOperator (rule : Routing.Rule) (operator : string) : Routing.Rule :=
  {| Routing.Field := Routing.Field rule; Routing.Operator := operator;
     Routing.Values := Routing.Values rule; Routing.Priority := Routing.Priority rule |}.

Definition withValues (rule : Routing.Rule) (values : list string) : Routing.Rule :=
  {| Routing.Field := Routing.Field rule; Routing.Operator := Routing.Operator rule;
     Routing.Values := values; Routing.Priority := Routing.Priority rule |}.

(** No byte of the string is the given one. *)
Fixpoint noByte (b : ascii) (s : string) : bool :=
  match s with
  | EmptyString => true
  | String c s' => negb (Ascii.eqb c b) && noByte b s'
  end.

(** The Redis key of [isDuplicate]. *)
Definition dedupKey (organizationID clickID : string) : string :=
  "click:" +:+ organizationID +:+ ":" +:+ clickID.

(** The value of an attribute of a message. *)
Definition attribute (m : Ingestion.Message) (key : string) : option string :=
  snd <$> List.find (λ kv, String.eqb (fst kv) key) (Ingestion.Attributes m).

(** Between two worlds the topic gained at most one message, and if one,
    then the event of this request, under the tenant of its context, with
    the ids of the event and the tenant in its attributes as well. *)
Definition appendsOwnEvent (env : Ingestion.Env) (r : HTTP.Request)
    (w w' : Ingestion.World) : Prop :=
  ∃ l, Ingestion.topic w' = Ingestion.topic w ++ l ∧ (length l ≤ 1)%nat ∧
       ∀ m, m ∈ l →
            Ingestion.EventID (Ingestion.Data m) = Ingestion.eventUUID env ∧
            attribute m "event_id" = Some (Ingestion.eventUUID env) ∧
            attribute m "click_id" = Some (Ingestion.ClickID (Ingestion.Data m)) ∧
            ∃ orgCtx, HTTP.Context r = Auth.OrgPtr (Some orgCtx) ∧
                      Ingestion.OrganizationID (Ingestion.Data m) = Auth.OrganizationID orgCtx ∧
                      attribute m "organization_id" = Some (Auth.OrganizationID orgCtx).

(** The raw body a handler captures from the request: what [readBody]
    returns. *)
Definition rawBody (r : HTTP.Request) : string :=
  match HTTP.Body r with
  | None => EmptyString
  | Some reader => let '(body, err) := HTTP.ReadAll reader in if err then EmptyString else body
  end.

(** [json.Marshal] accepts the event of the request: the raw body is
    empty, and left out, or it is JSON. *)
Definition bodyMarshals (env : Ingestion.Env) (r : HTTP.Request) : Prop :=
  rawBody r = "" ∨ Ingestion.jsonValid env (rawBody r) = true.

(** The warning [readBody] logs when reading the body fails. *)
Definition bodyWarning : Ingestion.LogLine :=
  {| Ingestion.Level := "WARN"; Ingestion.Msg := "failed to read request body";
     Ingestion.Attrs := [] |}.

(** The messages of the log lines. *)
Definition logged (w : Ingestion.World) : list string :=
  map Ingestion.Msg (Ingestion.logs w).

(** The selected campaign is an entry of the snapshot. *)
Definition inSnapshot (re : Routing.RoutingEngine) (c : Routing.Campaign) : Prop :=
  ∃ key, Routing.campaigns re !! key = Some c.

(** ** Shape of an encoded query ([Values.Encode]) *)

(** Every byte of the string satisfies [P]. *)
Fixpoint allBytes (P : ascii → bool) (s : string) : bool :=
  match s with
  | EmptyString => true
  | String c s' => P c && allBytes P s'
  end.

(** The bytes [QueryEscape] writes: the unreserved ones, [+] and [%]. *)
Definition escapedByte (c : ascii) : bool :=
  negb (URL.shouldEscape c) || Ascii.eqb c "+" || Ascii.eqb c "%".

(** One [key=value] pair as [Encode] writes it. *)
Definition encodePair (k x : string) : string :=
  URL.QueryEscape k +:+ "=" +:+ URL.QueryEscape x.

(** The pairs that follow the first one, each behind its [&]. *)
Fixpoint ampTail (ps : list string) : string :=
  match ps with
  | [] => ""
  | q :: ps' => "&" +:+ q +:+ ampTail ps'
  end.

(** The pairs [Encode] joins, in its order. *)
Definition encodedPairs (v : URL.Values) : list string :=
  flat_map (λ k, map (λ x, URL.QueryEscape k +:+ "=" +:+ URL.QueryEscape x)
                     (default [] (v !! k)))
           (URL.sorted_keys v).

(** The bytes of an encoded query. *)
Definition queryByte (c : ascii) : bool :=
  escapedByte c || Ascii.eqb c "=" || Ascii.eqb c "&".

(** ** Sample data: the scenarios of the specification *)

(** Stand-ins for the library on the sample data.  The properties are
    stated for every library and do not use them; the examples, which are
    closed terms, are evaluated with them. *)
Module SamplesLib.

(** The samples are ASCII, so what the tables of [unicode] say of the
    other runes is not consulted. *)
#[global] Instance unicode : GoStrings.Unicode :=
  {| GoStrings.lowerNonASCII := λ s, s;
     GoStrings.trimSpaceFunc := λ s, s;
     GoStrings.trimRightSpaceFunc := λ s, s |}.

Definition lowerLetter (c : ascii) : bool :=
  let n := nat_of_ascii c in ((97 <=? n) && (n <=? 122))%nat.

Definition hostByte (c : ascii) : bool :=
  let n := nat_of_ascii c in
  (((97 <=? n) && (n <=? 122)) || ((48 <=? n) && (n <=? 57)) || (n =? 45) || (n =? 46))%nat.

Definition pathByte (c : ascii) : bool :=
  negb (URL.shouldEscape c) || Ascii.eqb c "/".

(** [url.Parse] on the destinations of the samples: texts of the form
    [scheme://host/path?query] with a scheme of lower-case letters, a host
    of lower-case letters, digits, [.] and [-], a path of unreserved bytes
    and [/], and a query of the bytes of an encoded query.  For such a text
    [url.Parse] gives this URL; any other text the stand-in refuses. *)
Definition parsePlain (rawURL : string) : option URL.URL :=
  let '(rest, query, found) := GoStrings.Cut rawURL "?"%char in
  match GoStrings.Index rest "://" with
  | None => None
  | Some i =>
      let scheme := String.substring 0 i rest in
      let '(host, path, slash) :=
        GoStrings.Cut (String.substring (i + 3) (String.length rest - (i + 3)) rest)
                      "/"%char in
      if negb (String.eqb scheme "") && allBytes lowerLetter scheme
         && negb (String.eqb host "") && allBytes hostByte host
         && allBytes pathByte path && allBytes queryByte query
      then Some {| URL.Scheme := scheme; URL.Opaque := ""; URL.User := None;
                   URL.Host := host;
                   URL.Path := if slash then String "/" path else "";
                   URL.RawPath := ""; URL.OmitHost := false;
                   URL.ForceQuery := found && String.eqb query "";
                   URL.RawQuery := query;
                   URL.Fragment := ""; URL.RawFragment := "" |}
      else None
  end.

(** [u.String()] for a URL as [parsePlain] gives it, whatever its raw
    query. *)
Definition stringPlain (u : URL.URL) : string :=
  URL.Scheme u +:+ "://" +:+ URL.Host u +:+ URL.Path u
  +:+ (if URL.ForceQuery u || negb (String.eqb (URL.RawQuery u) "")
       then "?" +:+ URL.RawQuery u else "").

#[global] Instance url : URL.Lib :=
  {| URL.Parse := parsePlain; URL.String_ := stringPlain |}.

(** [json.Valid] on the bodies of the samples: a body of decimal digits is
    JSON, a number, exactly when it has no leading zero; the other sample
    bodies are not JSON. *)
Definition jsonValid (body : string) : bool :=
  match body, Config.digitsVal 0 body with
  | String c rest, Some _ => negb (Ascii.eqb c "0") || String.eqb rest ""
  | _, _ => false
  end.

End SamplesLib.

Module Samples.

Definition org_A : Auth.OrganizationContext :=
  {| Auth.OrganizationID := "org_A"; Auth.OrganizationSlug := "a";
     Auth.AccountID := "acct_1"; Auth.Role := "member";
     Auth.Permissions := ["traffic:write"] |}.

Definition summer : Routing.Campaign :=
  {| Routing.OrganizationID := "org_A"; Routing.CampaignID := "summer";
     Routing.Name := "Summer"; Routing.Status := "active"; Routing.Rules := [];
     Routing.DestinationURL := "https://shop.example.com/s";
     Routing.AppendParams := true |}.

(** The snapshot of scenario S1, as [loadCampaigns] builds it. *)
Definition snapshotS1 : Routing.RoutingEngine := Routing.loadCampaigns [Some summer].

Definition env0 : Ingestion.Env :=
  {| Ingestion.now := 1000000000000;
     Ingestion.eventUUID := "evt-1";
     Ingestion.clickUUID := "clk-1";
     Ingestion.redisUp := true;
     Ingestion.jsonValid := SamplesLib.jsonValid;
     Ingestion.publishOk := true;
     Ingestion.marshalFirst := true;
     Ingestion.callsFirst := true |}.

Definition world0 : Ingestion.World :=
  {| Ingestion.redis := ∅; Ingestion.topic := []; Ingestion.logs := [] |}.

(** [GET /in/summer?click_id=abc&src=fb], authenticated for [org_A]. *)
Definition requestS1 : HTTP.Request :=
  {| HTTP.Method := "GET";
     HTTP.URLString := "/in/summer?click_id=abc&src=fb";
     HTTP.Path := "/in/summer";
     HTTP.Query := URL.ParseQuery "click_id=abc&src=fb";
     HTTP.Header := {[ "Authorization" := ["Bearer wdn_a"] ]};
     HTTP.Body := Some HTTP.EOF;
     HTTP.RemoteAddr := "203.0.113.9:4711";
     HTTP.CampaignParam := "summer";
     HTTP.Context := Auth.OrgPtr (Some org_A) |}.

End Samples.

(** Two campaigns of one tenant that score the same for [src=fb]. *)
Module SamplesTie.

Definition rule_fb : Routing.Rule :=
  {| Routing.Field := "src"; Routing.Operator := "equals";
     Routing.Values := ["fb"]; Routing.Priority := 5 |}.

Definition alpha : Routing.Campaign :=
  {| Routing.OrganizationID := "org_A"; Routing.CampaignID := "alpha";
     Routing.Name := "Alpha"; Routing.Status := "active"; Routing.Rules := [rule_fb];
     Routing.DestinationURL := "https://a.example.com/";
     Routing.AppendParams := false |}.

Definition beta : Routing.Campaign :=
  {| Routing.OrganizationID := "org_A"; Routing.CampaignID := "beta";
     Routing.Name := "Beta"; Routing.Status := "active"; Routing.Rules := [rule_fb];
     Routing.DestinationURL := "https://b.example.com/";
     Routing.AppendParams := false |}.

Definition snapshot : Routing.RoutingEngine := Routing.loadCampaigns [Some alpha; Some beta].

Definition orderAB : list (string * Routing.Campaign) :=
  [("org_A/alpha", alpha); ("org_A/beta", beta)].

Definition orderBA : list (string * Routing.Campaign) :=
  [("org_A/beta", beta); ("org_A/alpha", alpha)].

Definition params : URL.Values := URL.ParseQuery "src=fb".

End SamplesTie.

(** [org_A], whose one campaign has no rule and so scores nothing, asks for
    [/in?click_id=x]. *)
Module SamplesNoMatch.

Definition snapshot : Routing.RoutingEngine := Routing.loadCampaigns [Some Samples.summer].

Definition order : list (string * Routing.Campaign) := [("org_A/summer", Samples.summer)].

Definition request : HTTP.Request :=
  {| HTTP.Method := "GET";
     HTTP.URLString := "/in?click_id=x";
     HTTP.Path := "/in";
     HTTP.Query := URL.ParseQuery "click_id=x";
     HTTP.Header := ∅;
     HTTP.Body := Some HTTP.EOF;
     HTTP.RemoteAddr := "203.0.113.9:4711";
     HTTP.CampaignParam := "";
     HTTP.Context := Auth.OrgPtr (Some Samples.org_A) |}.

End SamplesNoMatch.

(** The Pub/Sub topic refuses every message. *)
Module SamplesSinkDown.

Definition env : Ingestion.Env :=
  {| Ingestion.now := 1000000000000;
     Ingestion.eventUUID := "evt-1";
     Ingestion.clickUUID := "clk-1";
     Ingestion.redisUp := true;
     Ingestion.jsonValid := SamplesLib.jsonValid;
     Ingestion.publishOk := false;
     Ingestion.marshalFirst := true;
     Ingestion.callsFirst := true |}.

End SamplesSinkDown.

(** Scenarios S2 and S3: [org_A] has the active campaign [na-launch] with
    one rule on [country]; the same click arrives twice, one second apart. *)
Module SamplesDuplicate.

Definition na_launch : Routing.Campaign :=
  {| Routing.OrganizationID := "org_A"; Routing.CampaignID := "na-launch";
     Routing.Name := "NA launch"; Routing.Status := "active";
     Routing.Rules := [{| Routing.Field := "country"; Routing.Operator := "in";
                          Routing.Values := ["US"; "CA"]; Routing.Priority := 90 |}];
     Routing.DestinationURL := "https://na.example.com/x";
     Routing.AppendParams := false |}.

Definition snapshot : Routing.RoutingEngine := Routing.loadCampaigns [Some na_launch].

Definition order : list (string * Routing.Campaign) := [("org_A/na-launch", na_launch)].

Definition request : HTTP.Request :=
  {| HTTP.Method := "GET";
     HTTP.URLString := "/in?click_id=dup1&country=US";
     HTTP.Path := "/in";
     HTTP.Query := URL.ParseQuery "click_id=dup1&country=US";
     HTTP.Header := {[ "Authorization" := ["Bearer wdn_a"] ]};
     HTTP.Body := Some HTTP.EOF;
     HTTP.RemoteAddr := "203.0.113.9:4711";
     HTTP.CampaignParam := "";
     HTTP.Context := Auth.OrgPtr (Some Samples.org_A) |}.

(** The second request, one second after the first; its goroutine marshals
    the event before the handler has the answer of Redis. *)
Definition env1 : Ingestion.Env :=
  {| Ingestion.now := 1001000000000;
     Ingestion.eventUUID := "evt-2";
     Ingestion.clickUUID := "clk-2";
     Ingestion.redisUp := true;
     Ingestion.jsonValid := SamplesLib.jsonValid;
     Ingestion.publishOk := true;
     Ingestion.marshalFirst := true;
     Ingestion.callsFirst := true |}.

Definition afterFirst : Ingestion.Outcome * Ingestion.World :=
  Ingestion.HandleTraffic snapshot order Samples.env0 request Samples.world0.

Definition afterSecond : Ingestion.Outcome * Ingestion.World :=
  Ingestion.HandleTraffic snapshot order env1 request (snd afterFirst).

End SamplesDuplicate.

(** Two tenants, [acme] and [acme/eu]; the one campaign of the snapshot
    belongs to [acme/eu].  The request comes from [acme]. *)
Module SamplesTenants.

Definition promo : Routing.Campaign :=
  {| Routing.OrganizationID := "acme/eu"; Routing.CampaignID := "promo";
     Routing.Name := "Promo"; Routing.Status := "active";
     Routing.Rules := [{| Routing.Field := "src"; Routing.Operator := "equals";
                          Routing.Values := ["fb"]; Routing.Priority := 10 |}];
     Routing.DestinationURL := "https://eu.example.net/";
     Routing.AppendParams := false |}.

Definition snapshot : Routing.RoutingEngine := Routing.loadCampaigns [Some promo].

Definition order : list (string * Routing.Campaign) := [("acme/eu/promo", promo)].

Definition acme : Auth.OrganizationContext :=
  {| Auth.OrganizationID := "acme"; Auth.OrganizationSlug := "acme";
     Auth.AccountID := "acct_7"; Auth.Role := "member";
     Auth.Permissions := ["traffic:write"] |}.

Definition request : HTTP.Request :=
  {| HTTP.Method := "GET";
     HTTP.URLString := "/in?src=fb";
     HTTP.Path := "/in";
     HTTP.Query := URL.ParseQuery "src=fb";
     HTTP.Header := ∅;
     HTTP.Body := Some HTTP.EOF;
     HTTP.RemoteAddr := "203.0.113.9:4711";
     HTTP.CampaignParam := "";
     HTTP.Context := Auth.OrgPtr (Some acme) |}.

End SamplesTenants.

(** A destination that has a [src] of its own, and an inbound [src]. *)
Module SamplesAppend.

Definition campaign : Routing.Campaign :=
  {| Routing.OrganizationID := "org_A"; Routing.CampaignID := "summer";
     Routing.Name := "Summer"; Routing.Status := "active"; Routing.Rules := [];
     Routing.DestinationURL := "https://shop.example.com/s?src=own";
     Routing.AppendParams := true |}.

Definition params : URL.Values := URL.ParseQuery "click_id=abc&src=fb".

Definition parsed : URL.URL :=
  {| URL.Scheme := "https"; URL.Opaque := ""; URL.User := None;
     URL.Host := "shop.example.com"; URL.Path := "/s"; URL.RawPath := "";
     URL.OmitHost := false; URL.ForceQuery := false; URL.RawQuery := "src=own";
     URL.Fragment := ""; URL.RawFragment := "" |}.

End SamplesAppend.

(** The identity service of the examples. *)
Module SamplesAuth.

Definition acme : Auth.OrganizationWithMembership :=
  {| Auth.OrgId := "org_A"; Auth.OrgSlug := "acme";
     Auth.MembershipRole := "admin"; Auth.MembershipPermissions := ["traffic:write"] |}.

Definition other : Auth.OrganizationWithMembership :=
  {| Auth.OrgId := "org_B"; Auth.OrgSlug := "other";
     Auth.MembershipRole := "viewer"; Auth.MembershipPermissions := [] |}.

(** An identity service that knows two keys: one of an account in two
    organizations, one of an account in none. *)
Definition warden : Auth.WardenClient :=
  {| Auth.ValidateApiKey :=
       λ k, if String.eqb k "wdn_live_1" then Auth.Ok "acct_1"
            else if String.eqb k "wdn_live_2" then Auth.Ok "acct_2"
            else Auth.Err "unknown key";
     Auth.GetAccountOrganizations :=
       λ a, if String.eqb a "acct_1" then Auth.Ok [acme; other]
            else if String.eqb a "acct_2" then Auth.Ok []
            else Auth.Err "no account" |}.

End SamplesAuth.

(** A request that reaches the handlers without a tenant context. *)
Module SamplesNoContext.

(** The request of S1 reaching a handler with nothing under
    [OrganizationContextKey]. *)
Definition request : HTTP.Request := HTTP.withContext Samples.requestS1 Auth.NoValue.

Definition order : list (string * Routing.Campaign) :=
  map_to_list (Routing.campaigns Samples.snapshotS1).

End SamplesNoContext.

(** A postback with a body. *)
Module SamplesBody.

(** A postback whose body, the ten bytes of a JSON number, arrives in two
    chunks. *)
Definition reader : HTTP.Reader := HTTP.Chunk "12345" (HTTP.Chunk "67890" HTTP.EOF).

Definition request : HTTP.Request :=
  {| HTTP.Method := "POST";
     HTTP.URLString := "/postback?click_id=abc";
     HTTP.Path := "/postback";
     HTTP.Query := URL.ParseQuery "click_id=abc";
     HTTP.Header := ∅;
     HTTP.Body := Some reader;
     HTTP.RemoteAddr := "203.0.113.9:4711";
     HTTP.CampaignParam := "";
     HTTP.Context := Auth.OrgPtr (Some Samples.org_A) |}.

End SamplesBody.

(** Environments for [config.Load]. *)
Module SamplesConfig.

(** Production spelled with a capital, no project ids. *)
Definition capitalised : gmap string string := {[ "TRELLIS_ENV" := "Production" ]}.

(** A port that is not a number. *)
Definition badPort : gmap string string :=
  {[ "TRELLIS_PORT" := "80a"; "WARDEN_ADDRESS" := "warden:21382" ]}.

(** Production with both project ids. *)
Definition production : gmap string string :=
  {[ "TRELLIS_ENV" := "production"; "PUBSUB_PROJECT_ID" := "trellis-prod";
     "GCS_PROJECT_ID" := "trellis-prod" ]}.

End SamplesConfig.

(** Requests for the middleware examples. *)
Module SamplesGuards.

(** The request of S1 with a header that is not a bearer token. *)
Definition basicAuth : HTTP.Request :=
  {| HTTP.Method := "GET";
     HTTP.URLString := "/in/summer?click_id=abc&src=fb";
     HTTP.Path := "/in/summer";
     HTTP.Query := URL.ParseQuery "click_id=abc&src=fb";
     HTTP.Header := {[ "Authorization" := ["Basic dXNlcjpwdw=="] ]};
     HTTP.Body := Some HTTP.EOF;
     HTTP.RemoteAddr := "203.0.113.9:4711";
     HTTP.CampaignParam := "summer";
     HTTP.Context := Auth.NoValue |}.

(** The request of S1 with a key the identity service does not know. *)
Definition unknownKey : HTTP.Request :=
  {| HTTP.Method := "GET";
     HTTP.URLString := "/in/summer?click_id=abc&src=fb";
     HTTP.Path := "/in/summer";
     HTTP.Query := URL.ParseQuery "click_id=abc&src=fb";
     HTTP.Header := {[ "Authorization" := ["Bearer wdn_nobody"] ]};
     HTTP.Body := Some HTTP.EOF;
     HTTP.RemoteAddr := "203.0.113.9:4711";
     HTTP.CampaignParam := "summer";
     HTTP.Context := Auth.NoValue |}.

(** A postback, with click id, under the key of the account that is in no
    organization. *)
Definition noOrganization : HTTP.Request :=
  {| HTTP.Method := "POST";
     HTTP.URLString := "/postback?click_id=abc";
     HTTP.Path := "/postback";
     HTTP.Query := URL.ParseQuery "click_id=abc";
     HTTP.Header := {[ "Authorization" := ["Bearer wdn_live_2"] ]};
     HTTP.Body := Some HTTP.EOF;
     HTTP.RemoteAddr := "203.0.113.9:4711";
     HTTP.CampaignParam := "";
     HTTP.Context := Auth.NoValue |}.

(** The same request on a connection that breaks before the body is read. *)
Definition noOrganizationNoBody : HTTP.Request :=
  {| HTTP.Method := "POST";
     HTTP.URLString := "/postback?click_id=abc";
     HTTP.Path := "/postback";
     HTTP.Query := URL.ParseQuery "click_id=abc";
     HTTP.Header := {[ "Authorization" := ["Bearer wdn_live_2"] ]};
     HTTP.Body := Some HTTP.ReadError;
     HTTP.RemoteAddr := "203.0.113.9:4711";
     HTTP.CampaignParam := "";
     HTTP.Context := Auth.NoValue |}.

(** What stands for the handler behind a guard: it answers 200. *)
Definition ok (r : HTTP.Request) (w : Ingestion.World) : Ingestion.Outcome * Ingestion.World :=
  (Ingestion.Responded {| HTTP.Status := 200; HTTP.RespHeader := []; HTTP.RespBody := "OK" |}, w).

End SamplesGuards.

(** Rules and parameters for the rule examples. *)
Module SamplesRules.

Definition browser : Routing.Rule :=
  {| Routing.Field := "ua"; Routing.Operator := "contains";
     Routing.Values := ["Chrome"; "Firefox"]; Routing.Priority := 7 |}.

Definition regex : Routing.Rule :=
  {| Routing.Field := "ua"; Routing.Operator := "regex";
     Routing.Values := [".*"]; Routing.Priority := 7 |}.

Definition country : Routing.Rule :=
  {| Routing.Field := "country"; Routing.Operator := "in";
     Routing.Values := ["US"; "CA"]; Routing.Priority := 90 |}.

Definition flat : gmap string string := {[ "ua" := "Mozilla CHROME/120"; "country" := "CA" ]}.

Definition campaign : Routing.Campaign :=
  {| Routing.OrganizationID := "org_A"; Routing.CampaignID := "mixed";
     Routing.Name := "Mixed"; Routing.Status := "active";
     Routing.Rules := [browser; regex; country];
     Routing.DestinationURL := "https://m.example.com/";
     Routing.AppendParams := false |}.

End SamplesRules.

(** A paused campaign under the id [default]. *)
Module SamplesDefault.

Definition paused : Routing.Campaign :=
  {| Routing.OrganizationID := "org_A"; Routing.CampaignID := "default";
     Routing.Name := "Old default"; Routing.Status := "paused"; Routing.Rules := [];
     Routing.DestinationURL := "https://old.example.com/";
     Routing.AppendParams := false |}.

Definition order : list (string * Routing.Campaign) :=
  [("org_A/default", paused); ("org_A/summer", Samples.summer)].

(** What the store returns for a refresh: two good rows and one that did
    not scan. *)
Definition rows : list (option Routing.Campaign) :=
  [Some Samples.summer; None; Some SamplesDuplicate.na_launch].

Definition loadedOrder : list (string * Routing.Campaign) :=
  [("org_A/na-launch", SamplesDuplicate.na_launch); ("org_A/summer", Samples.summer)].

End SamplesDefault.

(** Environments and requests for the dedup and click id examples. *)
Module SamplesDedup.

(** Four seconds after [Samples.env0], inside the window of five. *)
Definition inside : Ingestion.Env :=
  {| Ingestion.now := 1004000000000;
     Ingestion.eventUUID := "evt-3";
     Ingestion.clickUUID := "clk-3";
     Ingestion.redisUp := true;
     Ingestion.jsonValid := SamplesLib.jsonValid;
     Ingestion.publishOk := true;
     Ingestion.marshalFirst := false;
     Ingestion.callsFirst := true |}.

(** Redis does not answer. *)
Definition redisDown : Ingestion.Env :=
  {| Ingestion.now := 1004000000000;
     Ingestion.eventUUID := "evt-4";
     Ingestion.clickUUID := "clk-4";
     Ingestion.redisUp := false;
     Ingestion.jsonValid := SamplesLib.jsonValid;
     Ingestion.publishOk := true;
     Ingestion.marshalFirst := false;
     Ingestion.callsFirst := true |}.

(** A conversion reported with the click id under the alias [clickid]. *)
Definition aliasPostback : HTTP.Request :=
  {| HTTP.Method := "POST";
     HTTP.URLString := "/postback?clickid=abc";
     HTTP.Path := "/postback";
     HTTP.Query := URL.ParseQuery "clickid=abc";
     HTTP.Header := ∅;
     HTTP.Body := Some HTTP.EOF;
     HTTP.RemoteAddr := "203.0.113.9:4711";
     HTTP.CampaignParam := "";
     HTTP.Context := Auth.OrgPtr (Some Samples.org_A) |}.

(** A click reported under the last alias, [tid]. *)
Definition tidOnly : HTTP.Request :=
  {| HTTP.Method := "GET";
     HTTP.URLString := "/in?tid=t-9&src=fb";
     HTTP.Path := "/in";
     HTTP.Query := URL.ParseQuery "tid=t-9&src=fb";
     HTTP.Header := ∅;
     HTTP.Body := None;
     HTTP.RemoteAddr := "203.0.113.9:4711";
     HTTP.CampaignParam := "";
     HTTP.Context := Auth.OrgPtr (Some Samples.org_A) |}.

End SamplesDedup.

(** Requests for the client address and body examples. *)
Module SamplesAddress.

(** Behind two proxies. *)
Definition proxied : HTTP.Request :=
  {| HTTP.Method := "GET";
     HTTP.URLString := "/in";
     HTTP.Path := "/in";
     HTTP.Query := ∅;
     HTTP.Header := {[ "X-Forwarded-For" := ["198.51.100.42, 10.0.0.1"] ]};
     HTTP.Body := None;
     HTTP.RemoteAddr := "10.0.0.7:4711";
     HTTP.CampaignParam := "";
     HTTP.Context := Auth.OrgPtr (Some Samples.org_A) |}.

(** Behind a proxy that sets [X-Real-IP]; the key of the header map is in
    canonical form, as the server stores it. *)
Definition realIP : HTTP.Request :=
  {| HTTP.Method := "GET";
     HTTP.URLString := "/in";
     HTTP.Path := "/in";
     HTTP.Query := ∅;
     HTTP.Header := {[ "X-Real-Ip" := ["198.51.100.7"] ]};
     HTTP.Body := None;
     HTTP.RemoteAddr := "10.0.0.7:4711";
     HTTP.CampaignParam := "";
     HTTP.Context := Auth.OrgPtr (Some Samples.org_A) |}.

(** A direct connection over IPv6. *)
Definition direct : HTTP.Request :=
  {| HTTP.Method := "GET";
     HTTP.URLString := "/in";
     HTTP.Path := "/in";
     HTTP.Query := ∅;
     HTTP.Header := {[ "User-Agent" := ["curl/8"]; "Accept" := [] ]};
     HTTP.Body := None;
     HTTP.RemoteAddr := "[2001:db8::1]:52000";
     HTTP.CampaignParam := "";
     HTTP.Context := Auth.OrgPtr (Some Samples.org_A) |}.



End SamplesAddress.

(** * Properties *)

(** ** Byte strings *)

Lemma substring_whole (s : string) : String.substring 0 (String.length s) s = s.
Proof. induction s as [|c s IH]; simpl; [done | by rewrite IH]. Qed.

Lemma append_cons (a : ascii) (s t : string) : String a s +:+ t = String a (s +:+ t).
Proof. reflexivity. Qed.

Lemma length_app_string (s t : string) :
  String.length (s +:+ t) = (String.length s + String.length t)%nat.
Proof.
  induction s as [|c s IH]; [done |].
  rewrite append_cons. simpl. by rewrite IH.
Qed.

Lemma prefix_append (p s : string) : String.prefix p (p +:+ s) = true.
Proof.
  induction p as [|a p IH]; [by destruct s |].
  rewrite append_cons. simpl. destruct (ascii_dec a a); [done | congruence].
Qed.

Lemma substring_append (p s : string) :
  String.substring (String.length p) (String.length s) (p +:+ s) = s.
Proof.
  induction p as [|a p IH]; [apply substring_whole |].
  rewrite append_cons. simpl. exact IH.
Qed.

Lemma TrimPrefix_append (p s : string) : GoStrings.TrimPrefix (p +:+ s) p = s.
Proof.
  unfold GoStrings.TrimPrefix, GoStrings.HasPrefix.
  rewrite prefix_append, length_app_string.
  replace (String.length p + String.length s - String.length p)%nat
    with (String.length s) by lia.
  apply substring_append.
Qed.

(** ** Lists *)

Lemma elem_of_middle {A : Type} (x : A) (l1 l2 : list A) : x ∈ l1 ++ x :: l2.
Proof. apply elem_of_app. right. apply elem_of_cons. by left. Qed.

(** ** Authentication *)

(** C10: for a well-formed bearer key that the identity service accepts,
    the context the middleware installs is built from the first organization
    of the account, whatever follows it in the list; with an empty list
    [validateAPIKey] returns a nil context and a nil error, and the
    middleware forwards the request with the nil context. *)
Theorem C10_first_organization_or_nil
    (wc : Auth.WardenClient) (apiKey accountId : string)
    (orgs : list Auth.OrganizationWithMembership) :
  GoStrings.HasPrefix apiKey "wdn_" = true →
  Auth.ValidateApiKey wc apiKey = Auth.Ok accountId →
  Auth.GetAccountOrganizations wc accountId = Auth.Ok orgs →
  match orgs with
  | org :: _ =>
      Auth.AuthenticationMiddleware wc ("Bearer " +:+ apiKey) =
      Auth.Forwarded (Auth.OrgPtr (Some
        {| Auth.OrganizationID := Auth.OrgId org;
           Auth.OrganizationSlug := Auth.OrgSlug org;
           Auth.AccountID := accountId;
           Auth.Role := Auth.MembershipRole org;
           Auth.Permissions := Auth.MembershipPermissions org |}))
  | [] =>
      Auth.validateAPIKey wc apiKey = (None, None) ∧
      Auth.AuthenticationMiddleware wc ("Bearer " +:+ apiKey) =
      Auth.Forwarded (Auth.OrgPtr None)
  end.
Proof.
  intros Hkey Hacct Horgs.
  assert (Hmw : Auth.AuthenticationMiddleware wc ("Bearer " +:+ apiKey) =
                match Auth.validateAPIKey wc apiKey with
                | (_, Some err) => Auth.Rejected 401 "Invalid API key" (Some err)
                | (orgCtx, None) => Auth.Forwarded (Auth.OrgPtr orgCtx)
                end).
  { unfold Auth.AuthenticationMiddleware.
    rewrite TrimPrefix_append, Hkey.
    unfold GoStrings.HasPrefix. rewrite prefix_append. reflexivity. }
  assert (Hval : Auth.validateAPIKey wc apiKey =
                 match orgs with
                 | [] => (None, None)
                 | org :: _ =>
                     (Some {| Auth.OrganizationID := Auth.OrgId org;
                              Auth.OrganizationSlug := Auth.OrgSlug org;
                              Auth.AccountID := accountId;
                              Auth.Role := Auth.MembershipRole org;
                              Auth.Permissions := Auth.MembershipPermissions org |}, None)
                 end).
  { unfold Auth.validateAPIKey. by rewrite Hacct, Horgs. }
  rewrite Hmw, Hval. destruct orgs as [|org rest]; [split |]; reflexivity.
Qed.

Lemma C10_first_organization_or_nil_witness :
  Auth.AuthenticationMiddleware SamplesAuth.warden "Bearer wdn_live_1" =
    Auth.Forwarded (Auth.OrgPtr (Some
      {| Auth.OrganizationID := "org_A"; Auth.OrganizationSlug := "acme";
         Auth.AccountID := "acct_1"; Auth.Role := "admin";
         Auth.Permissions := ["traffic:write"] |})) ∧
  (Auth.validateAPIKey SamplesAuth.warden "wdn_live_2" = (None, None) ∧
   Auth.AuthenticationMiddleware SamplesAuth.warden "Bearer wdn_live_2" =
     Auth.Forwarded (Auth.OrgPtr None)).
Proof.
  split.
  - exact (C10_first_organization_or_nil SamplesAuth.warden "wdn_live_1" "acct_1"
             [SamplesAuth.acme; SamplesAuth.other] eq_refl eq_refl eq_refl).
  - exact (C10_first_organization_or_nil SamplesAuth.warden "wdn_live_2" "acct_2"
             [] eq_refl eq_refl eq_refl).
Defined.

(** Every way in which the middleware turns a request down answers 401; the
    handler is not called, and the world gains the error line of a failed
    validation or nothing. *)
Lemma authenticated_rejects (wc : Auth.WardenClient)
    (handler : HTTP.Request → Ingestion.World → Ingestion.Outcome * Ingestion.World)
    (r : HTTP.Request) (w : Ingestion.World) (status : Z) (message : string)
    (logged : option string) :
  Auth.AuthenticationMiddleware wc (HTTP.HeaderGet (HTTP.Header r) "Authorization")
    = Auth.Rejected status message logged →
  status = 401 ∧
  fst (authenticated wc handler r w) = Ingestion.Responded (HTTP.Error message 401) ∧
  Ingestion.topic (snd (authenticated wc handler r w)) = Ingestion.topic w ∧
  Ingestion.redis (snd (authenticated wc handler r w)) = Ingestion.redis w ∧
  (logged = None → snd (authenticated wc handler r w) = w).
Proof.
  intros Hrej. unfold authenticated. rewrite Hrej.
  assert (status = 401).
  { unfold Auth.AuthenticationMiddleware in Hrej.
    repeat match type of Hrej with
           | (if ?b then _ else _) = _ => destruct b
           | match ?p with _ => _ end = _ => destruct p as [? [?|]]
           end; congruence. }
  subst status. destruct logged as [err|]; simpl; split_and!; try done.
Qed.

(** A key the identity service accepts for an account without organization
    reaches [HandleTraffic] with the nil context, which the handler
    dereferences. *)
Lemma authenticated_nil_context_panics {uni : GoStrings.Unicode} {lib : URL.Lib}
    (wc : Auth.WardenClient)
    (re : Routing.RoutingEngine) (order : list (string * Routing.Campaign))
    (env : Ingestion.Env) (r : HTTP.Request) (w : Ingestion.World)
    (apiKey accountId : string) :
  HTTP.HeaderGet (HTTP.Header r) "Authorization" = "Bearer " +:+ apiKey →
  GoStrings.HasPrefix apiKey "wdn_" = true →
  Auth.ValidateApiKey wc apiKey = Auth.Ok accountId →
  Auth.GetAccountOrganizations wc accountId = Auth.Ok [] →
  fst (authenticated wc (Ingestion.HandleTraffic re order env) r w) = Ingestion.Panicked.
Proof.
  intros Hhdr Hkey Hacct Horgs. unfold authenticated. rewrite Hhdr.
  unfold Auth.AuthenticationMiddleware.
  rewrite TrimPrefix_append, Hkey.
  unfold GoStrings.HasPrefix. rewrite prefix_append.
  unfold Auth.validateAPIKey. rewrite Hacct, Horgs. reflexivity.
Qed.

(** ** Handlers without a tenant context *)

(** C7, as the code has it: without a value under the context key,
    [HandleTraffic] answers 500, [HandlePixel] answers 200 with the pixel and
    [HandlePostback] answers 401; each returns at once and leaves the world
    as it was, so no event is built for any tenant. *)
Theorem C7_absent_context_by_handler {uni : GoStrings.Unicode} {lib : URL.Lib}
    (re : Routing.RoutingEngine) (order : list (string * Routing.Campaign))
    (env : Ingestion.Env) (r : HTTP.Request) (w : Ingestion.World) :
  HTTP.Context r = Auth.NoValue →
  Ingestion.HandleTraffic re order env r w =
    (Ingestion.Responded (HTTP.Error "Organization context not found" 500), w) ∧
  Ingestion.HandlePixel env r w = (Ingestion.Responded Ingestion.servePixel, w) ∧
  Ingestion.HandlePostback env r w =
    (Ingestion.Responded (HTTP.Error "Organization context not found" 401), w).
Proof.
  intros Hctx.
  unfold Ingestion.HandleTraffic, Ingestion.HandlePixel, Ingestion.HandlePostback.
  rewrite Hctx. simpl. auto.
Qed.

Lemma C7_absent_context_by_handler_witness :
  Ingestion.HandleTraffic Samples.snapshotS1 SamplesNoContext.order Samples.env0
      SamplesNoContext.request Samples.world0 =
    (Ingestion.Responded (HTTP.Error "Organization context not found" 500), Samples.world0) ∧
  Ingestion.HandlePixel Samples.env0 SamplesNoContext.request Samples.world0 =
    (Ingestion.Responded Ingestion.servePixel, Samples.world0) ∧
  Ingestion.HandlePostback Samples.env0 SamplesNoContext.request Samples.world0 =
    (Ingestion.Responded (HTTP.Error "Organization context not found" 401), Samples.world0).
Proof.
  exact (C7_absent_context_by_handler Samples.snapshotS1 SamplesNoContext.order
           Samples.env0 SamplesNoContext.request Samples.world0 eq_refl).
Defined.

(** C7 as stated fails: with no tenant context in the request, [/in] is
    answered 500 and [/pixel.gif] 200, not 401. *)
Lemma C7_counterexample :
  HTTP.Context SamplesNoContext.request = Auth.NoValue ∧
  fst (Ingestion.HandleTraffic Samples.snapshotS1 SamplesNoContext.order Samples.env0
         SamplesNoContext.request Samples.world0) =
    Ingestion.Responded (HTTP.Error "Organization context not found" 500) ∧
  fst (Ingestion.HandlePixel Samples.env0 SamplesNoContext.request Samples.world0) =
    Ingestion.Responded Ingestion.servePixel ∧
  HTTP.Status (HTTP.Error "Organization context not found" 500) ≠ 401 ∧
  HTTP.Status Ingestion.servePixel ≠ 401.
Proof. repeat split; try reflexivity; vm_compute; discriminate. Qed.

(** ** Body capture *)

Lemma ReadAll_delivered (rd : HTTP.Reader) :
  HTTP.failed rd = false →
  HTTP.ReadAll rd = (String.concat "" (HTTP.delivered rd), false).
Proof.
  induction rd as [|data rest IH|]; simpl; intros Hok; [done | | done].
  rewrite (IH Hok). destruct (HTTP.delivered rest) as [|d ds] eqn:Hd; simpl.
  - f_equal. induction data as [|c data IHd]; [done |].
    rewrite append_cons. by rewrite IHd.
  - reflexivity.
Qed.


Lemma ReadAll_failed (rd : HTTP.Reader) :
  HTTP.failed rd = true → snd (HTTP.ReadAll rd) = true.
Proof.
  induction rd as [|data rest IH|]; simpl; intros Hf; [done | | done].
  specialize (IH Hf). by destruct (HTTP.ReadAll rest) as [b err].
Qed.




(** ** The best-match scan *)

Lemma bestMatchStep_eligible {uni : GoStrings.Unicode}
    (org : string) (flat : gmap string string)
    (best : option Routing.Campaign * Z) (entry : string * Routing.Campaign) :
  Routing.bestMatchStep org flat best entry =
  if eligible org entry
  then if snd best <? Routing.calculateMatchScore (snd entry) flat
       then (Some (snd entry), Routing.calculateMatchScore (snd entry) flat)
       else best
  else best.
Proof.
  destruct entry as [key c]. unfold Routing.bestMatchStep, eligible. simpl.
  destruct (GoStrings.HasPrefix key (org +:+ "/")); simpl; [| done].
  destruct (String.eqb (Routing.Status c) "active"); done.
Qed.

Lemma scan_invariant {uni : GoStrings.Unicode}
    (org : string) (flat : gmap string string)
    (seen : list (string * Routing.Campaign)) :
  scanInv org flat seen (foldl (Routing.bestMatchStep org flat) (None, 0) seen).
Proof.
  induction seen as [|e seen IH] using rev_ind.
  - simpl. split; [done |]. intros e He. by apply elem_of_nil in He.
  - rewrite foldl_snoc, bestMatchStep_eligible.
    set (st := foldl (Routing.bestMatchStep org flat) (None, 0) seen) in *.
    destruct (eligible org e) eqn:Hel.
    + destruct (snd st <? Routing.calculateMatchScore (snd e) flat) eqn:Hlt.
      * apply Z.ltb_lt in Hlt. unfold scanInv in *. simpl.
        destruct e as [k c]. simpl in *.
        destruct (fst st) as [c0|].
        -- destruct IH as (Hpos & Hsc & l1 & k0 & l2 & -> & Hel0 & Hb & Ha).
           split; [lia |]. split; [done |].
           exists (l1 ++ (k0, c0) :: l2), k, []. split_and!; [done | done | | ].
           ++ intros e' He' Hel'. apply elem_of_app in He' as [He'|He'].
              { specialize (Hb e' He' Hel'). lia. }
              apply elem_of_cons in He' as [->|He'].
              { simpl. lia. }
              specialize (Ha e' He' Hel'). lia.
           ++ intros e' He'. by apply elem_of_nil in He'.
        -- destruct IH as (Hz & Hall).
           split; [lia |]. split; [done |].
           exists seen, k, []. split_and!; [done | done | | ].
           ++ intros e' He' Hel'. specialize (Hall e' He' Hel'). lia.
           ++ intros e' He'. by apply elem_of_nil in He'.
      * apply Z.ltb_ge in Hlt. unfold scanInv in *.
        destruct (fst st) as [c0|].
        -- destruct IH as (Hpos & Hsc & l1 & k0 & l2 & -> & Hel0 & Hb & Ha).
           split; [done |]. split; [done |].
           exists l1, k0, (l2 ++ [e]). split_and!; [by rewrite <- app_assoc | done | done | ].
           intros e' He' Hel'. apply elem_of_app in He' as [He'|He'].
           { by apply Ha. }
           apply list_elem_of_singleton in He' as ->. lia.
        -- destruct IH as (Hz & Hall). split; [done |].
           intros e' He' Hel'. apply elem_of_app in He' as [He'|He'].
           { by apply Hall. }
           apply list_elem_of_singleton in He' as ->. lia.
    + unfold scanInv in *. destruct (fst st) as [c0|].
      * destruct IH as (Hpos & Hsc & l1 & k0 & l2 & -> & Hel0 & Hb & Ha).
        split; [done |]. split; [done |].
        exists l1, k0, (l2 ++ [e]). split_and!; [by rewrite <- app_assoc | done | done | ].
        intros e' He' Hel'. apply elem_of_app in He' as [He'|He'].
        { by apply Ha. }
        apply list_elem_of_singleton in He' as ->. congruence.
      * destruct IH as (Hz & Hall). split; [done |].
        intros e' He' Hel'. apply elem_of_app in He' as [He'|He'].
        { by apply Hall. }
        apply list_elem_of_singleton in He' as ->. congruence.
Qed.

Lemma findBestMatch_characterised {uni : GoStrings.Unicode}
    (order : list (string * Routing.Campaign)) (org : string) (params : URL.Values) :
  match Routing.findBestMatch order org params with
  | None => ∀ e, e ∈ order → eligible org e = true → scoreOf params (snd e) ≤ 0
  | Some c =>
      0 < scoreOf params c ∧
      ∃ l1 k l2, order = l1 ++ (k, c) :: l2 ∧ eligible org (k, c) = true ∧
        (∀ e, e ∈ l1 → eligible org e = true → scoreOf params (snd e) < scoreOf params c) ∧
        (∀ e, e ∈ l2 → eligible org e = true → scoreOf params (snd e) ≤ scoreOf params c)
  end.
Proof.
  unfold Routing.findBestMatch, scoreOf.
  pose proof (scan_invariant org (Routing.flattenParams params) order) as Hinv.
  unfold scanInv in Hinv.
  destruct (fst (foldl _ _ order)) as [c|].
  - destruct Hinv as (Hpos & Hsc & Hrest). split; [lia | exact Hrest].
  - destruct Hinv as (_ & Hall). exact Hall.
Qed.

Lemma findBestMatch_none {uni : GoStrings.Unicode}
    (order : list (string * Routing.Campaign)) (org : string)
    (params : URL.Values) :
  (∀ e, e ∈ order → eligible org e = true → scoreOf params (snd e) ≤ 0) →
  Routing.findBestMatch order org params = None.
Proof.
  intros Hall. pose proof (findBestMatch_characterised order org params) as H.
  destruct (Routing.findBestMatch order org params) as [c|]; [| done].
  destruct H as (Hpos & l1 & k & l2 & -> & Hel & _).
  specialize (Hall (k, c)). simpl in Hall.
  assert (scoreOf params c ≤ 0); [| lia].
  apply Hall; [| done]. apply elem_of_middle.
Qed.

Lemma wrap64_small (z : Z) : - 2 ^ 63 ≤ z < 2 ^ 63 → Routing.wrap64 z = z.
Proof.
  intros Hz. unfold Routing.wrap64.
  rewrite Z.mod_small; lia.
Qed.

Lemma prioritySum_nonneg (rules : list Routing.Rule) :
  Forall (λ rule, 0 ≤ Routing.Priority rule) rules → 0 ≤ prioritySum rules.
Proof. induction 1; simpl; lia. Qed.

Lemma matchedSum_bounds {uni : GoStrings.Unicode}
    (flat : gmap string string) (rules : list Routing.Rule) :
  Forall (λ rule, 0 ≤ Routing.Priority rule) rules →
  0 ≤ matchedSum flat rules ≤ prioritySum rules.
Proof.
  induction 1 as [|rule rules Hp _ IH]; simpl; [lia |].
  destruct (Routing.ruleMatches rule flat); lia.
Qed.

(** Where the priorities are non-negative and their sum fits an [int], the
    score is the sum of the priorities of the rules that match. *)
Lemma calculateMatchScore_sum {uni : GoStrings.Unicode}
    (c : Routing.Campaign) (flat : gmap string string) :
  Forall (λ rule, 0 ≤ Routing.Priority rule) (Routing.Rules c) →
  prioritySum (Routing.Rules c) < 2 ^ 63 →
  Routing.calculateMatchScore c flat = matchedSum flat (Routing.Rules c).
Proof.
  unfold Routing.calculateMatchScore.
  assert (Hgen : ∀ rules acc,
            Forall (λ rule, 0 ≤ Routing.Priority rule) rules →
            0 ≤ acc → acc + prioritySum rules < 2 ^ 63 →
            foldl (λ score rule,
                     if Routing.ruleMatches rule flat
                     then Routing.wrap64 (score + Routing.Priority rule) else score)
                  acc rules = acc + matchedSum flat rules).
  { induction rules as [|rule rules IH]; intros acc Hall Hacc Hsum; simpl in *; [lia |].
    inversion Hall as [|? ? Hp Hrest]; subst.
    pose proof (prioritySum_nonneg rules Hrest) as Hnn.
    destruct (Routing.ruleMatches rule flat).
    - rewrite wrap64_small by lia. rewrite IH by (try done; lia). lia.
    - rewrite IH by (try done; lia). lia. }
  intros Hall Hsum. rewrite Hgen by (try done; lia). lia.
Qed.

(** Visited first, an eligible campaign that scores above zero and that no
    other eligible campaign outscores is the one the scan returns. *)
Lemma findBestMatch_head {uni : GoStrings.Unicode} (k : string) (c : Routing.Campaign)
    (rest : list (string * Routing.Campaign)) (org : string) (params : URL.Values) :
  eligible org (k, c) = true →
  0 < scoreOf params c →
  (∀ e, e ∈ rest → eligible org e = true → scoreOf params (snd e) ≤ scoreOf params c) →
  Routing.findBestMatch ((k, c) :: rest) org params = Some c.
Proof.
  intros Hel Hpos Hrest.
  pose proof (findBestMatch_characterised ((k, c) :: rest) org params) as Hbest.
  destruct (Routing.findBestMatch ((k, c) :: rest) org params) as [c'|].
  - destruct Hbest as (_ & l1 & k' & l2 & Hsplit & Hel' & Hbefore & _).
    destruct l1 as [|e1 l1].
    + simpl in Hsplit. by injection Hsplit as _ <- _.
    + simpl in Hsplit. injection Hsplit as <- Hsplit.
      assert (Hlt : scoreOf params c < scoreOf params c').
      { apply (Hbefore (k, c)); [apply list_elem_of_here | done]. }
      assert (Hle : scoreOf params c' ≤ scoreOf params c).
      { apply (Hrest (k', c')); [| done]. rewrite Hsplit. apply elem_of_middle. }
      lia.
  - specialize (Hbest (k, c) (list_elem_of_here _ _) Hel). simpl in Hbest. lia.
Qed.

(** C6, as the code has it: [findBestMatch] returns nothing when no
    eligible campaign scores above zero, in whatever order the map is
    visited; otherwise it returns an eligible campaign of the highest score,
    and among the campaigns of that score the one the loop visited first.
    The campaign ids are not compared.  The winner is the same for every
    visiting order when no other eligible entry reaches its score, and only
    then: every eligible entry that reaches the highest score is the one
    returned in some visiting order. *)
Theorem C6_highest_score_first_visited {uni : GoStrings.Unicode}
    (order : list (string * Routing.Campaign)) (org : string) (params : URL.Values) :
  match Routing.findBestMatch order org params with
  | None =>
      (∀ e, e ∈ order → eligible org e = true → scoreOf params (snd e) ≤ 0) ∧
      (∀ order', order' ≡ₚ order → Routing.findBestMatch order' org params = None)
  | Some c =>
      0 < scoreOf params c ∧
      (∃ l1 k l2, order = l1 ++ (k, c) :: l2 ∧ eligible org (k, c) = true ∧
        (∀ e, e ∈ l1 → eligible org e = true → scoreOf params (snd e) < scoreOf params c) ∧
        (∀ e, e ∈ l2 → eligible org e = true → scoreOf params (snd e) ≤ scoreOf params c)) ∧
      (∀ order', order' ≡ₚ order →
         (∀ e, e ∈ order → eligible org e = true →
               scoreOf params (snd e) = scoreOf params c → snd e = c) →
         Routing.findBestMatch order' org params = Some c) ∧
      (∀ k' c', (k', c') ∈ order → eligible org (k', c') = true →
         scoreOf params c' = scoreOf params c →
         ∃ order', order' ≡ₚ order ∧ Routing.findBestMatch order' org params = Some c')
  end.
Proof.
  pose proof (findBestMatch_characterised order org params) as Hhere.
  destruct (Routing.findBestMatch order org params) as [c|].
  - destruct Hhere as (Hpos & l1 & k & l2 & Hsplit & Hel & Hbefore & Hafter).
    assert (Hin : (k, c) ∈ order).
    { rewrite Hsplit. apply elem_of_middle. }
    assert (Hmax : ∀ e, e ∈ order → eligible org e = true →
                        scoreOf params (snd e) ≤ scoreOf params c).
    { intros e He Hele. rewrite Hsplit in He.
      apply elem_of_app in He as [He|He].
      - specialize (Hbefore e He Hele). lia.
      - apply elem_of_cons in He as [->|He]; [simpl; lia | by apply Hafter]. }
    split; [exact Hpos |]. split; [by exists l1, k, l2 |]. split.
    + intros order' Hperm Hunique.
      pose proof (findBestMatch_characterised order' org params) as Hthere.
      destruct (Routing.findBestMatch order' org params) as [c'|].
      * destruct Hthere as (_ & l1' & k' & l2' & Hsplit' & Hel' & Hbefore' & Hafter').
        assert (Hin' : (k', c') ∈ order).
        { rewrite <- Hperm, Hsplit'. apply elem_of_middle. }
        assert (Hle : scoreOf params c ≤ scoreOf params c').
        { rewrite <- Hperm, Hsplit' in Hin.
          apply elem_of_app in Hin as [Hin|Hin].
          - specialize (Hbefore' _ Hin Hel). simpl in Hbefore'. lia.
          - apply elem_of_cons in Hin as [[= _ ->]|Hin]; [lia |].
            apply (Hafter' _ Hin Hel). }
        pose proof (Hmax _ Hin' Hel') as Hge. simpl in Hge.
        f_equal. apply (Hunique (k', c') Hin' Hel'). simpl. lia.
      * rewrite <- Hperm in Hin. specialize (Hthere _ Hin Hel). simpl in Hthere. lia.
    + intros k' c' Hin' Hel' Htie.
      apply elem_of_Permutation in Hin' as [rest Hperm].
      exists ((k', c') :: rest). split; [done |].
      apply findBestMatch_head; [done | lia |].
      intros e He Hele. rewrite Htie. apply Hmax; [| done].
      rewrite Hperm. by apply list_elem_of_further.
  - split; [exact Hhere |]. intros order' Hperm.
    pose proof (findBestMatch_characterised order' org params) as Hthere.
    destruct (Routing.findBestMatch order' org params) as [c'|]; [| done].
    destruct Hthere as (Hpos & l1' & k' & l2' & Hsplit' & Hel' & _).
    assert (Hin' : (k', c') ∈ order).
    { rewrite <- Hperm, Hsplit'. apply elem_of_middle. }
    specialize (Hhere _ Hin' Hel'). simpl in Hhere. lia.
Qed.

(** C6 as stated fails: two campaigns of [org_A] score 5 each for
    [src=fb]; both lists are orders in which [range] may visit the snapshot,
    and the destination differs with the order.  Visited second, [alpha],
    the smaller id, loses to [beta]. *)
Lemma C6_counterexample :
  Routing.rangeOrder SamplesTie.snapshot SamplesTie.orderAB ∧
  Routing.rangeOrder SamplesTie.snapshot SamplesTie.orderBA ∧
  scoreOf SamplesTie.params SamplesTie.alpha = 5 ∧
  scoreOf SamplesTie.params SamplesTie.beta = 5 ∧
  String.ltb "alpha" "beta" = true ∧
  Routing.GetDestination SamplesTie.snapshot SamplesTie.orderAB "org_A" "" SamplesTie.params
    = "https://a.example.com/" ∧
  Routing.GetDestination SamplesTie.snapshot SamplesTie.orderBA "org_A" "" SamplesTie.params
    = "https://b.example.com/" ∧
  Routing.findBestMatch SamplesTie.orderBA "org_A" SamplesTie.params = Some SamplesTie.beta.
Proof.
  assert (H : map_to_list (Routing.campaigns SamplesTie.snapshot) = SamplesTie.orderAB)
    by (vm_compute; reflexivity).
  split_and!; try (vm_compute; reflexivity).
  unfold Routing.rangeOrder. rewrite H. apply perm_swap.
Qed.

(** ** No destination *)

Lemma HandleTraffic_redirects {uni : GoStrings.Unicode} {lib : URL.Lib}
    (re : Routing.RoutingEngine)
    (order : list (string * Routing.Campaign)) (env : Ingestion.Env)
    (r : HTTP.Request) (w : Ingestion.World) (orgCtx : Auth.OrganizationContext) :
  HTTP.Context r = Auth.OrgPtr (Some orgCtx) →
  fst (Ingestion.HandleTraffic re order env r w) =
  Ingestion.Responded
    (HTTP.Redirect
       (Routing.GetDestination re order (Auth.OrganizationID orgCtx)
          (if negb (String.eqb (HTTP.CampaignParam r) "")
           then Auth.OrganizationID orgCtx +:+ "/" +:+ HTTP.CampaignParam r
           else "")
          (HTTP.Query r)) 302).
Proof.
  intros Hctx. unfold Ingestion.HandleTraffic. rewrite Hctx. simpl.
  destruct (Ingestion.readBody r w) as [body w1].
  destruct (String.eqb (HTTP.CampaignParam r) ""); simpl;
    destruct (Ingestion.isDuplicate env _ _ w1) as [[|] w2]; reflexivity.
Qed.

(** [HandleTraffic] ends in 500, in 302 or in the panic; it has no 404. *)
Lemma HandleTraffic_outcomes {uni : GoStrings.Unicode} {lib : URL.Lib}
    (re : Routing.RoutingEngine)
    (order : list (string * Routing.Campaign)) (env : Ingestion.Env)
    (r : HTTP.Request) (w : Ingestion.World) :
  fst (Ingestion.HandleTraffic re order env r w) = Ingestion.Panicked ∨
  respondedWith 500 (fst (Ingestion.HandleTraffic re order env r w)) ∨
  respondedWith 302 (fst (Ingestion.HandleTraffic re order env r w)).
Proof.
  destruct (HTTP.Context r) as [|[orgCtx|]] eqn:Hctx.
  - right. left. unfold Ingestion.HandleTraffic. rewrite Hctx. simpl.
    eexists. split; reflexivity.
  - right. right. rewrite (HandleTraffic_redirects re order env r w orgCtx Hctx).
    eexists. split; reflexivity.
  - left. unfold Ingestion.HandleTraffic. by rewrite Hctx.
Qed.

(** C3, as the code has it: on [/in], when no eligible campaign scores
    above zero and the snapshot has nothing under the tenant's [default]
    key, the router returns the fixed URL [https://example.com/] and the
    request is answered 302 to it. *)
Theorem C3_no_match_redirects_to_fixed_url {uni : GoStrings.Unicode} {lib : URL.Lib}
    (re : Routing.RoutingEngine) (order : list (string * Routing.Campaign))
    (env : Ingestion.Env) (r : HTTP.Request) (w : Ingestion.World)
    (orgCtx : Auth.OrganizationContext) :
  HTTP.Context r = Auth.OrgPtr (Some orgCtx) →
  HTTP.CampaignParam r = "" →
  (∀ e, e ∈ order → eligible (Auth.OrganizationID orgCtx) e = true →
        scoreOf (HTTP.Query r) (snd e) ≤ 0) →
  Routing.getCampaign re (Routing.campaignKey (Auth.OrganizationID orgCtx) "default") = None →
  Routing.GetDestination re order (Auth.OrganizationID orgCtx) "" (HTTP.Query r)
    = "https://example.com/" ∧
  fst (Ingestion.HandleTraffic re order env r w)
    = Ingestion.Responded (HTTP.Redirect "https://example.com/" 302).
Proof.
  intros Hctx Hparam Hscores Hdefault.
  assert (Hdest : Routing.GetDestination re order (Auth.OrganizationID orgCtx) ""
                    (HTTP.Query r) = "https://example.com/").
  { unfold Routing.GetDestination. simpl.
    rewrite (findBestMatch_none order _ _ Hscores), Hdefault. reflexivity. }
  split; [exact Hdest |].
  rewrite (HandleTraffic_redirects re order env r w orgCtx Hctx), Hparam. simpl.
  by rewrite Hdest.
Qed.

Lemma C3_no_match_redirects_to_fixed_url_witness :
  Routing.GetDestination SamplesNoMatch.snapshot SamplesNoMatch.order "org_A" ""
      (HTTP.Query SamplesNoMatch.request) = "https://example.com/" ∧
  fst (Ingestion.HandleTraffic SamplesNoMatch.snapshot SamplesNoMatch.order Samples.env0
         SamplesNoMatch.request Samples.world0)
    = Ingestion.Responded (HTTP.Redirect "https://example.com/" 302).
Proof.
  apply (C3_no_match_redirects_to_fixed_url SamplesNoMatch.snapshot SamplesNoMatch.order
           Samples.env0 SamplesNoMatch.request Samples.world0 Samples.org_A).
  - reflexivity.
  - reflexivity.
  - intros e He. apply list_elem_of_singleton in He as ->. vm_compute. discriminate.
  - vm_compute. reflexivity.
Defined.

(** C3 as stated fails: [org_A] has no campaign that scores, no [default]
    and no fallback of its own, and is answered 302 with a destination the
    router produced, not 404. *)
Lemma C3_counterexample :
  Routing.rangeOrder SamplesNoMatch.snapshot SamplesNoMatch.order ∧
  scoreOf (HTTP.Query SamplesNoMatch.request) Samples.summer = 0 ∧
  Routing.getCampaign SamplesNoMatch.snapshot (Routing.campaignKey "org_A" "default") = None ∧
  Routing.GetDestination SamplesNoMatch.snapshot SamplesNoMatch.order "org_A" ""
      (HTTP.Query SamplesNoMatch.request) = "https://example.com/" ∧
  fst (Ingestion.HandleTraffic SamplesNoMatch.snapshot SamplesNoMatch.order Samples.env0
         SamplesNoMatch.request Samples.world0)
    = Ingestion.Responded
        {| HTTP.Status := 302;
           HTTP.RespHeader := [("Location", "https://example.com/")];
           HTTP.RespBody := "" |}.
Proof. split_and!; vm_compute; reflexivity. Qed.

(** ** What becomes of the event *)

Lemma publish_refused (env : Ingestion.Env) (attrs : list (string * string))
    (e : Ingestion.Event) (w : Ingestion.World) :
  Ingestion.publishOk env = false →
  Ingestion.topic (Ingestion.publish env attrs e w) = Ingestion.topic w ∧
  Ingestion.redis (Ingestion.publish env attrs e w) = Ingestion.redis w ∧
  errorLogged (Ingestion.publish env attrs e w).
Proof.
  intros Hno. unfold Ingestion.publish, errorLogged. rewrite Hno.
  destruct (Ingestion.marshalFails env e); simpl; split_and!; try done;
    eexists; (split; [apply elem_of_app; right; apply list_elem_of_singleton; reflexivity
                     | reflexivity]).
Qed.

Lemma publish_accepted (env : Ingestion.Env) (attrs : list (string * string))
    (e : Ingestion.Event) (w : Ingestion.World) :
  Ingestion.publishOk env = true →
  Ingestion.marshalFails env e = false →
  Ingestion.topic (Ingestion.publish env attrs e w) =
  Ingestion.topic w ++ [{| Ingestion.Data := e; Ingestion.Attributes := attrs |}].
Proof.
  intros Hok Hjson. unfold Ingestion.publish. by rewrite Hjson, Hok.
Qed.

(** An event whose raw body is that of a request that marshals is accepted
    by [json.Marshal]. *)
Lemma marshalFails_body (env : Ingestion.Env) (e : Ingestion.Event) (r : HTTP.Request) :
  Ingestion.Body (Ingestion.Raw e) = rawBody r →
  bodyMarshals env r →
  Ingestion.marshalFails env e = false.
Proof.
  intros Hbody [Hempty|Hvalid]; unfold Ingestion.marshalFails; rewrite Hbody.
  - by rewrite Hempty.
  - rewrite Hvalid. apply andb_false_r.
Qed.

Lemma readBody_fst (r : HTTP.Request) (w : Ingestion.World) :
  fst (Ingestion.readBody r w) = rawBody r.
Proof.
  unfold Ingestion.readBody, rawBody. destruct (HTTP.Body r) as [rd|]; [| done].
  by destruct (HTTP.ReadAll rd) as [b [|]].
Qed.

Lemma readBody_redis (r : HTTP.Request) (w : Ingestion.World) :
  Ingestion.redis (snd (Ingestion.readBody r w)) = Ingestion.redis w.
Proof.
  unfold Ingestion.readBody. destruct (HTTP.Body r) as [rd|]; [| done].
  by destruct (HTTP.ReadAll rd) as [b [|]].
Qed.

Lemma readBody_topic (r : HTTP.Request) (w : Ingestion.World) :
  Ingestion.topic (snd (Ingestion.readBody r w)) = Ingestion.topic w.
Proof.
  unfold Ingestion.readBody. destruct (HTTP.Body r) as [rd|]; [| done].
  destruct (HTTP.ReadAll rd) as [b [|]]; done.
Qed.

Lemma isDuplicate_topic (env : Ingestion.Env) (org click : string) (w : Ingestion.World) :
  Ingestion.topic (snd (Ingestion.isDuplicate env org click w)) = Ingestion.topic w.
Proof.
  unfold Ingestion.isDuplicate.
  destruct (String.eqb click ""); [done |].
  destruct (Ingestion.redisUp env); simpl; [| done].
  destruct (Ingestion.redis w !! _) as [expiry|]; [| done].
  destruct (Ingestion.now env <? expiry); done.
Qed.

Lemma warnDestination_topic (warning : option string) (w : Ingestion.World) :
  Ingestion.topic (Ingestion.warnDestination warning w) = Ingestion.topic w.
Proof. by destruct warning. Qed.

Lemma warnDestination_redis (warning : option string) (w : Ingestion.World) :
  Ingestion.redis (Ingestion.warnDestination warning w) = Ingestion.redis w.
Proof. by destruct warning. Qed.

(** The world [HandleTraffic] leaves: the redirect is logged, and the event,
    as the goroutine saw it, goes to [publish] with its own ids as
    attributes. *)
Lemma HandleTraffic_world {uni : GoStrings.Unicode} {lib : URL.Lib}
    (re : Routing.RoutingEngine)
    (order : list (string * Routing.Campaign)) (env : Ingestion.Env)
    (r : HTTP.Request) (w : Ingestion.World) (orgCtx : Auth.OrganizationContext) :
  HTTP.Context r = Auth.OrgPtr (Some orgCtx) →
  ∃ e w2 org cid,
    snd (Ingestion.HandleTraffic re order env r w) =
      Ingestion.publish env [("event_id", Ingestion.EventID e);
                             ("click_id", Ingestion.ClickID e);
                             ("campaign_id", Ingestion.CampaignID e);
                             ("organization_id", Ingestion.OrganizationID e)]
                        e (Ingestion.RecordRedirect org cid w2) ∧
    Ingestion.topic w2 = Ingestion.topic w ∧
    Ingestion.EventID e = Ingestion.eventUUID env ∧
    Ingestion.OrganizationID e = Auth.OrganizationID orgCtx ∧
    Ingestion.Body (Ingestion.Raw e) = rawBody r.
Proof.
  intros Hctx. unfold Ingestion.HandleTraffic. rewrite Hctx. simpl.
  pose proof (readBody_topic r w) as Hrb. pose proof (readBody_fst r w) as Hfst.
  destruct (Ingestion.readBody r w) as [body w1]. simpl in Hrb, Hfst.
  match goal with
  | |- context [Ingestion.isDuplicate env ?o ?c w1] =>
      pose proof (isDuplicate_topic env o c w1) as Hdup;
      destruct (Ingestion.isDuplicate env o c w1) as [dup w2]
  end.
  simpl in Hdup. simpl.
  destruct (Ingestion.marshalFirst env), dup,
    (negb (String.eqb (HTTP.CampaignParam r) ""));
    match goal with
    | |- context [Ingestion.publish env _ ?e (Ingestion.RecordRedirect ?o ?c ?w')] =>
        exists e, w', o, c
    end; (split; [reflexivity |]; split_and!;
          [rewrite warnDestination_topic; congruence | done | done | done]).
Qed.

Lemma HandlePostback_world {uni : GoStrings.Unicode}
    (env : Ingestion.Env) (r : HTTP.Request) (w : Ingestion.World)
    (orgCtx : Auth.OrganizationContext) :
  HTTP.Context r = Auth.OrgPtr (Some orgCtx) →
  URL.Get (HTTP.Query r) "click_id" ≠ "" →
  respondedWith 200 (fst (Ingestion.HandlePostback env r w)) ∧
  ∃ e w1,
    snd (Ingestion.HandlePostback env r w) = Ingestion.publishEvent env e w1 ∧
    Ingestion.topic w1 = Ingestion.topic w ∧
    Ingestion.EventID e = Ingestion.eventUUID env ∧
    Ingestion.OrganizationID e = Auth.OrganizationID orgCtx ∧
    Ingestion.Body (Ingestion.Raw e) = rawBody r.
Proof.
  intros Hctx Hclick. unfold Ingestion.HandlePostback. rewrite Hctx. simpl.
  destruct (String.eqb_spec (URL.Get (HTTP.Query r) "click_id") "") as [Heq|_]; [done |].
  pose proof (readBody_topic r w) as Hrb. pose proof (readBody_fst r w) as Hfst.
  destruct (Ingestion.readBody r w) as [body w1]. simpl in *.
  split; [eexists; split; reflexivity |].
  do 2 eexists. split; [reflexivity |]. split_and!; done.
Qed.

Lemma HandlePostback_topic_refused {uni : GoStrings.Unicode}
    (env : Ingestion.Env) (r : HTTP.Request) (w : Ingestion.World) :
  Ingestion.publishOk env = false →
  Ingestion.topic (snd (Ingestion.HandlePostback env r w)) = Ingestion.topic w.
Proof.
  intros Hno. unfold Ingestion.HandlePostback.
  destruct (Auth.GetOrganizationContext (HTTP.Context r)) as [p [|]]; [| done].
  destruct (String.eqb (URL.Get (HTTP.Query r) "click_id") ""); [done |].
  pose proof (readBody_topic r w) as Hrb.
  destruct p as [orgCtx|]; [| by destruct (Ingestion.callsFirst env)].
  destruct (Ingestion.readBody r w) as [body w1]. simpl in *.
  unfold Ingestion.publishEvent.
  by rewrite (proj1 (publish_refused env _ _ w1 Hno)).
Qed.

(** C2, as the code has it: a request that carries a tenant context is
    answered 302 ([/in]) or 200 (pixel, postback with a click id) whatever
    becomes of its event.  When the body marshals and the topic accepts the
    message, the event is appended to the topic; when the publish fails the
    topic is left as it was and an error is logged: the event is kept
    nowhere. *)
Theorem C2_event_kept_only_when_published {uni : GoStrings.Unicode} {lib : URL.Lib}
    (re : Routing.RoutingEngine) (order : list (string * Routing.Campaign))
    (env : Ingestion.Env) (r : HTTP.Request) (w : Ingestion.World)
    (orgCtx : Auth.OrganizationContext) :
  HTTP.Context r = Auth.OrgPtr (Some orgCtx) →
  (respondedWith 302 (fst (Ingestion.HandleTraffic re order env r w)) ∧
   respondedWith 200 (fst (Ingestion.HandlePixel env r w)) ∧
   (URL.Get (HTTP.Query r) "click_id" ≠ "" →
    respondedWith 200 (fst (Ingestion.HandlePostback env r w)))) ∧
  (Ingestion.publishOk env = false →
   (Ingestion.topic (snd (Ingestion.HandleTraffic re order env r w)) = Ingestion.topic w ∧
    errorLogged (snd (Ingestion.HandleTraffic re order env r w))) ∧
   (Ingestion.topic (snd (Ingestion.HandlePixel env r w)) = Ingestion.topic w ∧
    errorLogged (snd (Ingestion.HandlePixel env r w))) ∧
   (Ingestion.topic (snd (Ingestion.HandlePostback env r w)) = Ingestion.topic w ∧
    (URL.Get (HTTP.Query r) "click_id" ≠ "" →
     errorLogged (snd (Ingestion.HandlePostback env r w))))) ∧
  (Ingestion.publishOk env = true →
   (bodyMarshals env r →
    captured env w (snd (Ingestion.HandleTraffic re order env r w))) ∧
   captured env w (snd (Ingestion.HandlePixel env r w)) ∧
   (URL.Get (HTTP.Query r) "click_id" ≠ "" → bodyMarshals env r →
    captured env w (snd (Ingestion.HandlePostback env r w)))).
Proof.
  intros Hctx.
  destruct (HandleTraffic_world re order env r w orgCtx Hctx)
    as (e & w2 & org & cid & Htw & Htop2 & Hid & _ & Hbody).
  assert (Hpx : ∃ ex, Ingestion.HandlePixel env r w =
                      (Ingestion.Responded Ingestion.servePixel,
                       Ingestion.publishEvent env ex w) ∧
                      Ingestion.EventID ex = Ingestion.eventUUID env ∧
                      Ingestion.marshalFails env ex = false).
  { unfold Ingestion.HandlePixel. rewrite Hctx. simpl. eexists. split_and!; reflexivity. }
  destruct Hpx as (ex & Hpx & Hidx & Hmx).
  split_and!.
  - rewrite (HandleTraffic_redirects re order env r w orgCtx Hctx).
    eexists. split; reflexivity.
  - rewrite Hpx. eexists. split; reflexivity.
  - intros Hclick. apply (HandlePostback_world env r w orgCtx Hctx Hclick).
  - intros Hno. split_and!.
    + rewrite Htw. rewrite (proj1 (publish_refused env _ e _ Hno)). done.
    + rewrite Htw. apply (publish_refused env _ e _ Hno).
    + rewrite Hpx. simpl. unfold Ingestion.publishEvent.
      apply (publish_refused env _ ex w Hno).
    + rewrite Hpx. simpl. unfold Ingestion.publishEvent.
      apply (publish_refused env _ ex w Hno).
    + by apply HandlePostback_topic_refused.
    + intros Hclick.
      destruct (HandlePostback_world env r w orgCtx Hctx Hclick)
        as (_ & ep & wp & Hpw & _).
      rewrite Hpw. unfold Ingestion.publishEvent.
      apply (publish_refused env _ ep wp Hno).
  - intros Hok. split_and!.
    + intros Hjson. rewrite Htw. eexists.
      rewrite (publish_accepted env _ e _ Hok (marshalFails_body env e r Hbody Hjson)).
      simpl. rewrite Htop2. split; [reflexivity | done].
    + rewrite Hpx. eexists. simpl. unfold Ingestion.publishEvent.
      rewrite (publish_accepted env _ ex w Hok Hmx). split; [reflexivity | done].
    + intros Hclick Hjson.
      destruct (HandlePostback_world env r w orgCtx Hctx Hclick)
        as (_ & ep & wp & Hpw & Htopp & Hidp & _ & Hbodyp).
      rewrite Hpw. eexists. unfold Ingestion.publishEvent.
      rewrite (publish_accepted env _ ep wp Hok (marshalFails_body env ep r Hbodyp Hjson)).
      rewrite Htopp. split; [reflexivity | done].
Qed.

Lemma C2_event_kept_only_when_published_witness :
  respondedWith 302
    (fst (Ingestion.HandleTraffic SamplesDuplicate.snapshot SamplesDuplicate.order
            SamplesSinkDown.env SamplesDuplicate.request Samples.world0)) ∧
  Ingestion.topic
    (snd (Ingestion.HandleTraffic SamplesDuplicate.snapshot SamplesDuplicate.order
            SamplesSinkDown.env SamplesDuplicate.request Samples.world0)) = [] ∧
  errorLogged
    (snd (Ingestion.HandleTraffic SamplesDuplicate.snapshot SamplesDuplicate.order
            SamplesSinkDown.env SamplesDuplicate.request Samples.world0)) ∧
  captured Samples.env0 Samples.world0
    (snd (Ingestion.HandleTraffic SamplesDuplicate.snapshot SamplesDuplicate.order
            Samples.env0 SamplesDuplicate.request Samples.world0)).
Proof.
  pose proof (C2_event_kept_only_when_published SamplesDuplicate.snapshot
                SamplesDuplicate.order SamplesSinkDown.env SamplesDuplicate.request
                Samples.world0 Samples.org_A eq_refl) as ((H302 & _) & Hrefused & _).
  pose proof (C2_event_kept_only_when_published SamplesDuplicate.snapshot
                SamplesDuplicate.order Samples.env0 SamplesDuplicate.request
                Samples.world0 Samples.org_A eq_refl) as (_ & _ & Hkept).
  destruct (Hrefused eq_refl) as ((Htopic & Hlog) & _).
  split_and!; [exact H302 | exact Htopic | exact Hlog |].
  apply (proj1 (Hkept eq_refl)). left. reflexivity.
Defined.

(** C2 as stated fails: with the topic refusing the message, the request
    is answered 302 while its event reaches no store: the topic stays empty,
    Redis holds the dedup key alone, and the log holds the line of the
    redirect and the error of the publish. *)
Lemma C2_counterexample :
  Ingestion.publishOk SamplesSinkDown.env = false ∧
  fst (Ingestion.HandleTraffic SamplesDuplicate.snapshot SamplesDuplicate.order
         SamplesSinkDown.env SamplesDuplicate.request Samples.world0)
    = Ingestion.Responded (HTTP.Redirect "https://na.example.com/x" 302) ∧
  Ingestion.topic
    (snd (Ingestion.HandleTraffic SamplesDuplicate.snapshot SamplesDuplicate.order
            SamplesSinkDown.env SamplesDuplicate.request Samples.world0)) = [] ∧
  map fst (map_to_list (Ingestion.redis
    (snd (Ingestion.HandleTraffic SamplesDuplicate.snapshot SamplesDuplicate.order
            SamplesSinkDown.env SamplesDuplicate.request Samples.world0))))
    = ["click:org_A:dup1"] ∧
  logged
    (snd (Ingestion.HandleTraffic SamplesDuplicate.snapshot SamplesDuplicate.order
            SamplesSinkDown.env SamplesDuplicate.request Samples.world0))
    = ["redirect completed"; "failed to publish event"].
Proof. split_and!; vm_compute; reflexivity. Qed.

(** ** The duplicate flag and the publishing goroutine *)

(** The flags of the event [HandleTraffic] publishes: those the event has
    when the goroutine marshals it. *)
Lemma HandleTraffic_published_flags {uni : GoStrings.Unicode} {lib : URL.Lib}
    (re : Routing.RoutingEngine)
    (order : list (string * Routing.Campaign)) (env : Ingestion.Env)
    (r : HTTP.Request) (w : Ingestion.World) (orgCtx : Auth.OrganizationContext) :
  HTTP.Context r = Auth.OrgPtr (Some orgCtx) →
  Ingestion.publishOk env = true →
  bodyMarshals env r →
  ∃ m, Ingestion.topic (snd (Ingestion.HandleTraffic re order env r w))
         = Ingestion.topic w ++ [m] ∧
       Ingestion.FraudFlags (Ingestion.Data m) =
         if Ingestion.marshalFirst env then []
         else if fst (Ingestion.isDuplicate env (Auth.OrganizationID orgCtx)
                        (Ingestion.extractClickID env r) (snd (Ingestion.readBody r w)))
              then ["duplicate_click"] else [].
Proof.
  intros Hctx Hok Hjson. unfold Ingestion.HandleTraffic. rewrite Hctx. simpl.
  pose proof (readBody_topic r w) as Hrb. pose proof (readBody_fst r w) as Hfst.
  destruct (Ingestion.readBody r w) as [body w1]. simpl in Hrb, Hfst. simpl.
  assert (Hdup : ∀ cid,
    Ingestion.isDuplicate env
      (Ingestion.OrganizationID
         (if negb (String.eqb (HTTP.CampaignParam r) "")
          then Ingestion.setCampaignID cid (Auth.OrganizationID orgCtx +:+ "/" +:+ HTTP.CampaignParam r)
          else cid))
      (Ingestion.ClickID
         (if negb (String.eqb (HTTP.CampaignParam r) "")
          then Ingestion.setCampaignID cid (Auth.OrganizationID orgCtx +:+ "/" +:+ HTTP.CampaignParam r)
          else cid)) w1
    = Ingestion.isDuplicate env (Ingestion.OrganizationID cid) (Ingestion.ClickID cid) w1).
  { intros cid. by destruct (negb (String.eqb (HTTP.CampaignParam r) "")). }
  rewrite Hdup. simpl.
  pose proof (isDuplicate_topic env (Auth.OrganizationID orgCtx)
                (Ingestion.extractClickID env r) w1) as Hdt.
  destruct (Ingestion.isDuplicate env (Auth.OrganizationID orgCtx)
              (Ingestion.extractClickID env r) w1) as [dup w2].
  simpl in Hdt. simpl.
  rewrite publish_accepted; [| done |].
  - simpl. rewrite warnDestination_topic, Hdt, Hrb. eexists. split; [reflexivity |]. simpl.
    destruct (Ingestion.marshalFirst env), dup,
      (negb (String.eqb (HTTP.CampaignParam r) "")); reflexivity.
  - apply (marshalFails_body env _ r); [| done]. rewrite <- Hfst.
    destruct (Ingestion.marshalFirst env), dup,
      (negb (String.eqb (HTTP.CampaignParam r) "")); reflexivity.
Qed.

(** C4, where the code departs from it: the two requests of S3 are both
    answered 302 to the same destination and the dedup check of the second
    reports the key present, but the goroutine started before that check has
    marshalled the event already, and both published events are without
    fraud flag. *)
Theorem C4_second_event_published_without_flag :
  fst SamplesDuplicate.afterFirst
    = Ingestion.Responded (HTTP.Redirect "https://na.example.com/x" 302) ∧
  fst SamplesDuplicate.afterSecond
    = Ingestion.Responded (HTTP.Redirect "https://na.example.com/x" 302) ∧
  fst (Ingestion.isDuplicate SamplesDuplicate.env1 "org_A" "dup1"
         (snd SamplesDuplicate.afterFirst)) = true ∧
  map (λ m, (Ingestion.EventID (Ingestion.Data m), Ingestion.FraudFlags (Ingestion.Data m)))
      (Ingestion.topic (snd SamplesDuplicate.afterSecond))
    = [("evt-1", []); ("evt-2", [])].
Proof. split_and!; vm_compute; reflexivity. Qed.

(** ** The campaign named in the path *)

(** The router takes an explicit campaign that is active, without scoring. *)
Lemma GetDestination_explicit {uni : GoStrings.Unicode} {lib : URL.Lib}
    (re : Routing.RoutingEngine)
    (order : list (string * Routing.Campaign)) (org cid : string) (params : URL.Values)
    (c : Routing.Campaign) :
  cid ≠ "" →
  Routing.campaigns re !! Routing.campaignKey org cid = Some c →
  Routing.Status c = "active" →
  Routing.GetDestination re order org cid params = Routing.buildDestinationURL c params.
Proof.
  intros Hcid Hget Hact. unfold Routing.GetDestination, Routing.activeCampaign,
    Routing.getCampaign.
  destruct (String.eqb_spec cid "") as [?|_]; [done |].
  rewrite Hget, Hact. reflexivity.
Qed.

(** The handler hands the router the path parameter with the tenant id in
    front, and the router puts the tenant id in front once more. *)
Lemma HandleTraffic_explicit_key {uni : GoStrings.Unicode} {lib : URL.Lib}
    (re : Routing.RoutingEngine)
    (order : list (string * Routing.Campaign)) (env : Ingestion.Env)
    (r : HTTP.Request) (w : Ingestion.World) (orgCtx : Auth.OrganizationContext) :
  HTTP.Context r = Auth.OrgPtr (Some orgCtx) →
  HTTP.CampaignParam r ≠ "" →
  fst (Ingestion.HandleTraffic re order env r w) =
  Ingestion.Responded
    (HTTP.Redirect
       (Routing.GetDestination re order (Auth.OrganizationID orgCtx)
          (Routing.campaignKey (Auth.OrganizationID orgCtx) (HTTP.CampaignParam r))
          (HTTP.Query r)) 302).
Proof.
  intros Hctx Hparam. rewrite (HandleTraffic_redirects re order env r w orgCtx Hctx).
  destruct (String.eqb_spec (HTTP.CampaignParam r) "") as [?|_]; [done |]. reflexivity.
Qed.

(** C1, where the code departs from it: in S1 the snapshot holds the
    active campaign [summer] of [org_A], and the router, asked for [summer],
    gives its destination with the parameters appended; the handler asks the
    router for [org_A/summer], the lookup under [org_A/org_A/summer] finds
    nothing, and the request is answered 302 to the fixed fallback. *)
Theorem C1_explicit_campaign_not_selected :
  Routing.activeCampaign Samples.snapshotS1 (Routing.campaignKey "org_A" "summer")
    = Some Samples.summer ∧
  Routing.GetDestination Samples.snapshotS1 SamplesNoMatch.order "org_A" "summer"
      (HTTP.Query Samples.requestS1)
    = "https://shop.example.com/s?click_id=abc&src=fb" ∧
  Routing.activeCampaign Samples.snapshotS1
      (Routing.campaignKey "org_A" (Routing.campaignKey "org_A" "summer")) = None ∧
  fst (Ingestion.HandleTraffic Samples.snapshotS1 SamplesNoMatch.order Samples.env0
         Samples.requestS1 Samples.world0)
    = Ingestion.Responded (HTTP.Redirect "https://example.com/" 302).
Proof. split_and!; vm_compute; reflexivity. Qed.

(** ** Tenants and keys *)

Lemma append_assoc (a b c : string) : (a +:+ b) +:+ c = a +:+ b +:+ c.
Proof.
  induction a as [|x a IH]; [done |]. rewrite !append_cons. by rewrite IH.
Qed.

Lemma GetDestination_decision {uni : GoStrings.Unicode} {lib : URL.Lib}
    (re : Routing.RoutingEngine)
    (order : list (string * Routing.Campaign)) (org cid : string) (params : URL.Values) :
  Routing.GetDestination re order org cid params =
  match Routing.selected (Routing.decision re order org cid params) with
  | Some c => Routing.buildDestinationURL c params
  | None => Routing.ultimateFallback
  end.
Proof.
  unfold Routing.GetDestination, Routing.decision.
  destruct (if String.eqb cid "" then None else _) as [c|]; [done |].
  destruct (Routing.findBestMatch order org params) as [c|]; [done |].
  destruct (Routing.getCampaign re _) as [c|]; done.
Qed.

(** A key that starts with [a/] was built for tenant [a], as long as
    neither tenant id holds a [/]. *)
Lemma prefix_owner (a b x : string) :
  noSlash a = true → noSlash b = true →
  GoStrings.HasPrefix (b +:+ "/" +:+ x) (a +:+ "/") = true → a = b.
Proof.
  unfold GoStrings.HasPrefix. revert b.
  induction a as [|ca a IH]; intros [|cb b] Ha Hb Hp.
  - reflexivity.
  - rewrite append_cons in Hp. change ("" +:+ "/") with (String "/" "") in Hp.
    cbn [String.prefix noSlash] in Hp, Hb.
    destruct (ascii_dec "/" cb) as [<-|]; [| done].
    by rewrite Ascii.eqb_refl in Hb.
  - rewrite append_cons in Hp. change ("" +:+ "/" +:+ x) with (String "/" x) in Hp.
    cbn [String.prefix noSlash] in Hp, Ha.
    destruct (ascii_dec ca "/") as [->|]; [| done].
    by rewrite Ascii.eqb_refl in Ha.
  - rewrite !append_cons in Hp. cbn [String.prefix noSlash] in Hp, Ha, Hb.
    destruct (ascii_dec ca cb) as [->|]; [| done].
    apply andb_prop in Ha as [_ Ha]. apply andb_prop in Hb as [_ Hb].
    f_equal. by apply IH.
Qed.

Lemma campaignKey_prefix (org cid : string) :
  GoStrings.HasPrefix (Routing.campaignKey org cid) (org +:+ "/") = true.
Proof.
  unfold GoStrings.HasPrefix, Routing.campaignKey.
  rewrite <- append_assoc. apply prefix_append.
Qed.

(** Tenant isolation of the routing decision, for a snapshot keyed by
    owner in which no tenant id holds a [/], the asking tenant's included. *)
Section SameTenant.

Variable re : Routing.RoutingEngine.
Variable order : list (string * Routing.Campaign).
Variable org : string.

Hypothesis Hkeyed : keyedByOwner re.
Hypothesis Horder : Routing.rangeOrder re order.
Hypothesis Horg : noSlash org = true.
Hypothesis Hids : ∀ key c, Routing.campaigns re !! key = Some c →
                           noSlash (Routing.OrganizationID c) = true.

Lemma prefixed_key_same_tenant (key : string) (c : Routing.Campaign) :
  Routing.campaigns re !! key = Some c →
  GoStrings.HasPrefix key (org +:+ "/") = true →
  Routing.OrganizationID c = org.
Proof.
  intros Hget Hpre. symmetry.
  apply (prefix_owner org (Routing.OrganizationID c) (Routing.CampaignID c));
    [done | by eapply Hids |].
  pose proof (Hkeyed _ _ Hget) as Hkey. unfold Routing.campaignKey in Hkey.
  by rewrite <- Hkey.
Qed.

Lemma getCampaign_same_tenant (cid : string) (c : Routing.Campaign) :
  Routing.getCampaign re (Routing.campaignKey org cid) = Some c →
  Routing.OrganizationID c = org.
Proof.
  intros Hget. eapply prefixed_key_same_tenant; [exact Hget |].
  apply campaignKey_prefix.
Qed.

Lemma findBestMatch_same_tenant {uni : GoStrings.Unicode}
    (params : URL.Values) (b : Routing.Campaign) :
  Routing.findBestMatch order org params = Some b →
  Routing.OrganizationID b = org.
Proof.
  intros Hfind.
  pose proof (findBestMatch_characterised order org params) as Hbest.
  rewrite Hfind in Hbest. destruct Hbest as (_ & l1 & k & l2 & Hsplit & Hel & _).
  assert (Hin : (k, b) ∈ order) by (rewrite Hsplit; apply elem_of_middle).
  rewrite Horder in Hin. apply elem_of_map_to_list in Hin.
  unfold eligible in Hel. apply andb_prop in Hel as [Hpre _].
  by eapply prefixed_key_same_tenant.
Qed.

(** The explicit lookup, the scan and the default lookup only select
    campaigns of the asking tenant. *)
Lemma decision_same_tenant {uni : GoStrings.Unicode}
    (cid : string) (params : URL.Values) (c : Routing.Campaign) :
  Routing.selected (Routing.decision re order org cid params) = Some c →
  Routing.OrganizationID c = org.
Proof.
  assert (Hrest : ∀ d,
    Routing.selected
      match Routing.findBestMatch order org params with
      | Some campaign => Routing.BestMatch campaign
      | None =>
          match Routing.getCampaign re (Routing.campaignKey org "default") with
          | Some defaultCampaign => Routing.Default defaultCampaign
          | None => Routing.Fallback
          end
      end = Some d → Routing.OrganizationID d = org).
  { intros d.
    destruct (Routing.findBestMatch order org params) as [b|] eqn:Hfind.
    - simpl. intros [= <-]. by eapply findBestMatch_same_tenant.
    - destruct (Routing.getCampaign re (Routing.campaignKey org "default")) as [x|] eqn:Hd;
        simpl; [| done].
      intros [= <-]. by eapply getCampaign_same_tenant. }
  unfold Routing.decision, Routing.activeCampaign.
  destruct (String.eqb cid ""); [apply Hrest |].
  destruct (Routing.getCampaign re (Routing.campaignKey org cid)) as [x|] eqn:Hx;
    [| apply Hrest].
  destruct (String.eqb (Routing.Status x) "active"); [| apply Hrest].
  simpl. intros [= <-]. by eapply getCampaign_same_tenant.
Qed.

End SameTenant.

(** [loadCampaigns] builds every key from the campaign it stores, and the
    updates of the snapshot keep it so. *)
Lemma loadCampaigns_keyedByOwner (rows : list (option Routing.Campaign)) :
  keyedByOwner (Routing.loadCampaigns rows).
Proof.
  unfold keyedByOwner, Routing.loadCampaigns. simpl.
  induction rows as [|row rows IH] using rev_ind; intros key c.
  - simpl. by rewrite lookup_empty.
  - rewrite foldl_snoc. destruct row as [c0|]; [| apply IH].
    rewrite lookup_insert. case_decide as Hk.
    + intros [= <-]. by rewrite <- Hk.
    + apply IH.
Qed.

Lemma putCampaign_keyedByOwner (re : Routing.RoutingEngine) (c : Routing.Campaign) :
  keyedByOwner re → keyedByOwner (Routing.putCampaign re c).
Proof.
  unfold keyedByOwner, Routing.putCampaign. simpl. intros Hre key c'.
  rewrite lookup_insert. case_decide as Hk.
  - intros [= <-]. by rewrite <- Hk.
  - apply Hre.
Qed.

Lemma removeCampaign_keyedByOwner (re : Routing.RoutingEngine) (org cid : string) :
  keyedByOwner re → keyedByOwner (Routing.removeCampaign re org cid).
Proof.
  unfold keyedByOwner, Routing.removeCampaign. simpl. intros Hre key c'.
  rewrite lookup_delete. case_decide; [done | apply Hre].
Qed.

(** C5, where the code departs from it (tenant ids that hold a [/]): the
    snapshot's one campaign belongs to tenant [acme/eu]; its key
    [acme/eu/promo] starts with [acme/], so for a request of tenant [acme]
    the scan selects it, and so does the explicit lookup of [eu/promo]; the
    request is redirected to the other tenant's destination. *)
Theorem C5_campaign_of_other_tenant_selected :
  keyedByOwner SamplesTenants.snapshot ∧
  Routing.rangeOrder SamplesTenants.snapshot SamplesTenants.order ∧
  Routing.OrganizationID SamplesTenants.promo = "acme/eu" ∧
  Routing.decision SamplesTenants.snapshot SamplesTenants.order "acme" ""
      (HTTP.Query SamplesTenants.request) = Routing.BestMatch SamplesTenants.promo ∧
  Routing.decision SamplesTenants.snapshot SamplesTenants.order "acme" "eu/promo"
      (HTTP.Query SamplesTenants.request) = Routing.Explicit SamplesTenants.promo ∧
  fst (Ingestion.HandleTraffic SamplesTenants.snapshot SamplesTenants.order Samples.env0
         SamplesTenants.request Samples.world0)
    = Ingestion.Responded (HTTP.Redirect "https://eu.example.net/" 302).
Proof.
  split; [apply loadCampaigns_keyedByOwner |].
  split_and!; vm_compute; reflexivity.
Qed.

(** ** Appending the inbound parameters *)

Lemma valuesOf_Add (k v : string) (q : URL.Values) (k' : string) :
  valuesOf (URL.Add k v q) k' =
  if decide (k = k') then valuesOf q k ++ [v] else valuesOf q k'.
Proof.
  unfold valuesOf, URL.Add. rewrite lookup_insert.
  case_decide; [subst |]; done.
Qed.

Lemma foldl_Add_lookup (k : string) (vs : list string) (q : URL.Values) (k' : string) :
  foldl (λ q' value, URL.Add k value q') q vs !! k' =
  if decide (k = k')
  then match vs with [] => q !! k | _ :: _ => Some (valuesOf q k ++ vs) end
  else q !! k'.
Proof.
  revert q. induction vs as [|v vs IH]; intros q; simpl.
  - case_decide; [subst |]; done.
  - rewrite IH. case_decide as Hk.
    + subst k'. destruct vs as [|v' vs].
      * unfold URL.Add. by rewrite lookup_insert_eq.
      * rewrite valuesOf_Add. rewrite decide_True by done.
        by rewrite <- app_assoc.
    + unfold URL.Add. by rewrite lookup_insert_ne.
Qed.

(** What [addParams] leaves under a key: the values that were there,
    followed by the inbound values of that key. *)
Lemma addParams_lookup (order : list (string * list string)) (q : URL.Values) (k : string) :
  NoDup order.*1 →
  Routing.addParams order q !! k =
  match (list_to_map order : URL.Values) !! k with
  | Some (v :: vs) => Some (valuesOf q k ++ v :: vs)
  | _ => q !! k
  end.
Proof.
  revert q. induction order as [|[k0 vs0] order IH]; intros q Hnd; simpl.
  - by rewrite lookup_empty.
  - inversion Hnd as [|? ? Hnotin Hnd']; subst.
    unfold Routing.addParams in *. simpl. rewrite (IH _ Hnd').
    rewrite lookup_insert. case_decide as Hk.
    + subst k0.
      rewrite (not_elem_of_list_to_map_1 (M := gmap string) order k Hnotin).
      rewrite foldl_Add_lookup. rewrite decide_True by done. by destruct vs0.
    + rewrite foldl_Add_lookup. rewrite decide_False by done.
      unfold valuesOf at 1. rewrite foldl_Add_lookup. rewrite decide_False by done.
      reflexivity.
Qed.

(** The query [buildDestinationURL] builds is the same in whatever order
    [range] visits the inbound parameters. *)
Lemma addParams_order (params : URL.Values) (order : list (string * list string))
    (q : URL.Values) :
  order ≡ₚ map_to_list params →
  Routing.addParams order q = Routing.addParams (map_to_list params) q.
Proof.
  intros Hperm. apply map_eq. intros k.
  assert (Hnd : NoDup (map_to_list params).*1) by apply NoDup_fst_map_to_list.
  assert (Hnd' : NoDup order.*1) by (by rewrite Hperm).
  rewrite !addParams_lookup by done.
  by rewrite (list_to_map_proper (M := gmap string) _ _ Hnd' Hperm).
Qed.

Lemma addParams_valuesOf (params q : URL.Values) (k : string) :
  valuesOf (Routing.addParams (map_to_list params) q) k = valuesOf q k ++ valuesOf params k.
Proof.
  unfold valuesOf at 1. rewrite addParams_lookup by apply NoDup_fst_map_to_list.
  rewrite list_to_map_to_list. unfold valuesOf at 3.
  destruct (params !! k) as [[|v vs]|]; simpl; unfold valuesOf; by rewrite ?app_nil_r.
Qed.

(** C9, as the code has it: for a campaign with [append_params], the
    destination is returned as it is when the inbound map is empty or the
    destination does not parse; otherwise the result is the destination with
    its query replaced by the encoding of the merged query, and under every
    key the merged query holds the destination's own values first and all
    inbound values after them, in whatever order the inbound parameters are
    visited.  Nothing of the destination is replaced. *)
Theorem C9_inbound_values_after_destination_values {lib : URL.Lib}
    (c : Routing.Campaign) (params : URL.Values) :
  Routing.AppendParams c = true →
  (params = ∅ → Routing.buildDestinationURL c params = Routing.DestinationURL c) ∧
  (URL.Parse (Routing.DestinationURL c) = None →
   Routing.buildDestinationURL c params = Routing.DestinationURL c) ∧
  (∀ u order,
     params ≠ ∅ →
     URL.Parse (Routing.DestinationURL c) = Some u →
     order ≡ₚ map_to_list params →
     Routing.buildDestinationURL c params =
       URL.String_ (URL.withRawQuery u (URL.Encode (Routing.addParams order (URL.Query u)))) ∧
     ∀ key, valuesOf (Routing.addParams order (URL.Query u)) key =
            valuesOf (URL.Query u) key ++ valuesOf params key).
Proof.
  intros Happend. unfold Routing.buildDestinationURL. rewrite Happend. simpl.
  split_and!.
  - intros ->. by rewrite map_size_empty.
  - intros ->. by destruct (Nat.eqb (size params) 0).
  - intros u order Hne Hparse Horder.
    rewrite (addParams_order params order _ Horder).
    split; [| intros key; apply addParams_valuesOf].
    rewrite Hparse. destruct (size params) eqn:Hsize; [| reflexivity].
    by apply map_size_empty_iff in Hsize.
Qed.

Lemma C9_inbound_values_after_destination_values_witness :
  Routing.buildDestinationURL SamplesAppend.campaign SamplesAppend.params =
    URL.String_ (URL.withRawQuery SamplesAppend.parsed
      (URL.Encode (Routing.addParams (map_to_list SamplesAppend.params)
                     (URL.Query SamplesAppend.parsed)))) ∧
  ∀ key, valuesOf (Routing.addParams (map_to_list SamplesAppend.params)
                     (URL.Query SamplesAppend.parsed)) key =
         valuesOf (URL.Query SamplesAppend.parsed) key ++ valuesOf SamplesAppend.params key.
Proof.
  apply (C9_inbound_values_after_destination_values SamplesAppend.campaign
           SamplesAppend.params eq_refl).
  - vm_compute. discriminate.
  - vm_compute. reflexivity.
  - reflexivity.
Defined.

(** C9 as stated fails: the destination has [src=own] and the request
    brings [src=fb]; the result keeps [own] and puts it first, so the inbound
    value neither replaces the destination's nor comes before it. *)
Lemma C9_counterexample :
  Routing.AppendParams SamplesAppend.campaign = true ∧
  valuesOf SamplesAppend.params "src" = ["fb"] ∧
  Routing.buildDestinationURL SamplesAppend.campaign SamplesAppend.params
    = "https://shop.example.com/s?click_id=abc&src=own&src=fb" ∧
  valuesOf (URL.ParseQuery "click_id=abc&src=own&src=fb") "src" = ["own"; "fb"] ∧
  URL.Get (URL.ParseQuery "click_id=abc&src=own&src=fb") "src" = "own".
Proof. split_and!; vm_compute; reflexivity. Qed.

(** ** Configuration *)

Lemma getEnvString_default (env : gmap string string) (key d : string) :
  d ≠ "" → Config.getEnvString env key d ≠ "".
Proof.
  intros Hd. unfold Config.getEnvString.
  destruct (String.eqb_spec (Config.Getenv env key) ""); done.
Qed.

Lemma getEnvString_raw (env : gmap string string) (key : string) :
  Config.getEnvString env key "" = Config.Getenv env key.
Proof.
  unfold Config.getEnvString.
  destruct (String.eqb_spec (Config.Getenv env key) ""); done.
Qed.

Lemma getEnvString_other (env : gmap string string) (key d v : string) :
  Config.getEnvString env key d = v → v ≠ d → Config.Getenv env key = v.
Proof.
  unfold Config.getEnvString.
  destruct (String.eqb_spec (Config.Getenv env key) ""); simpl; congruence.
Qed.

(** [Validate] on a configuration read from the environment: the four
    checks for a required value cannot fire. *)
Lemma Validate_fromEnv (env : gmap string string) :
  Config.Validate (Config.fromEnv env) =
  let port := Config.getEnvInt env "TRELLIS_PORT" 8080 in
  if (port <? 1) || (65535 <? port) then Some (Config.InvalidPort port)
  else if String.eqb (Config.Getenv env "TRELLIS_ENV") "production" then
    if String.eqb (Config.Getenv env "PUBSUB_PROJECT_ID") "" then Some Config.PubSubProjectRequired
    else if String.eqb (Config.Getenv env "GCS_PROJECT_ID") "" then Some Config.GCSProjectRequired
    else None
  else None.
Proof.
  unfold Config.Validate.
  set (c := Config.fromEnv env).
  change (Config.Port c) with (Config.getEnvInt env "TRELLIS_PORT" 8080).
  assert (Haddr : Config.Address (Config.Warden c) ≠ "")
    by (by apply getEnvString_default).
  assert (Hhost : Config.Host (Config.ClickHouse c) ≠ "")
    by (by apply getEnvString_default).
  assert (Hdb : Config.Database (Config.ClickHouse c) ≠ "")
    by (by apply getEnvString_default).
  assert (Hurl : Config.URL (Config.Redis c) ≠ "")
    by (by apply getEnvString_default).
  assert (Hpub : Config.PubSubProjectID (Config.PubSub c) = Config.Getenv env "PUBSUB_PROJECT_ID")
    by apply getEnvString_raw.
  assert (Hgcs : Config.GCSProjectID (Config.GCS c) = Config.Getenv env "GCS_PROJECT_ID")
    by apply getEnvString_raw.
  assert (Henv : String.eqb (Config.Environment c) "production"
                 = String.eqb (Config.Getenv env "TRELLIS_ENV") "production").
  { change (Config.Environment c) with (Config.getEnvString env "TRELLIS_ENV" "development").
    unfold Config.getEnvString.
    destruct (String.eqb_spec (Config.Getenv env "TRELLIS_ENV") "") as [->|]; done. }
  rewrite Hpub, Hgcs, Henv. cbv zeta.
  destruct ((_ <? 1) || (65535 <? _)); [done |].
  destruct (String.eqb_spec (Config.Address (Config.Warden c)) ""); [done |].
  destruct (String.eqb_spec (Config.Host (Config.ClickHouse c)) ""); [done |].
  destruct (String.eqb_spec (Config.Database (Config.ClickHouse c)) ""); [done |].
  destruct (String.eqb_spec (Config.URL (Config.Redis c)) ""); [done |].
  reflexivity.
Qed.

(** X1: [Load] can fail in three ways only: the port read from
    [TRELLIS_PORT] is outside 1..65535, or [TRELLIS_ENV] is exactly
    [production] and [PUBSUB_PROJECT_ID], or else [GCS_PROJECT_ID], is unset
    or empty.  The four "required" checks of [Validate] never fire, because an
    unset or empty variable gets a non-empty default. *)
Theorem X1_Load_failures (env : gmap string string) :
  match Config.Load env with
  | inl c =>
      c = Config.fromEnv env ∧ 1 ≤ Config.Port c ≤ 65535 ∧
      (Config.Getenv env "TRELLIS_ENV" = "production" →
       Config.Getenv env "PUBSUB_PROJECT_ID" ≠ "" ∧ Config.Getenv env "GCS_PROJECT_ID" ≠ "")
  | inr (Config.InvalidPort port) =>
      port = Config.getEnvInt env "TRELLIS_PORT" 8080 ∧ (port < 1 ∨ 65535 < port)
  | inr Config.PubSubProjectRequired =>
      Config.Getenv env "TRELLIS_ENV" = "production" ∧
      Config.Getenv env "PUBSUB_PROJECT_ID" = ""
  | inr Config.GCSProjectRequired =>
      Config.Getenv env "TRELLIS_ENV" = "production" ∧
      Config.Getenv env "GCS_PROJECT_ID" = ""
  | inr _ => False
  end.
Proof.
  unfold Config.Load. rewrite Validate_fromEnv. cbv zeta.
  change (Config.Port (Config.fromEnv env))
    with (Config.getEnvInt env "TRELLIS_PORT" 8080).
  destruct (Config.getEnvInt env "TRELLIS_PORT" 8080 <? 1) eqn:Hlo; simpl.
  { apply Z.ltb_lt in Hlo. split; [done | lia]. }
  destruct (65535 <? Config.getEnvInt env "TRELLIS_PORT" 8080) eqn:Hhi; simpl.
  { apply Z.ltb_lt in Hhi. split; [done | lia]. }
  apply Z.ltb_ge in Hlo. apply Z.ltb_ge in Hhi.
  destruct (String.eqb_spec (Config.Getenv env "TRELLIS_ENV") "production") as [Hprod|Hnot].
  - destruct (String.eqb_spec (Config.Getenv env "PUBSUB_PROJECT_ID") "") as [Hp|Hp];
      [done |].
    destruct (String.eqb_spec (Config.Getenv env "GCS_PROJECT_ID") "") as [Hg|Hg];
      [done |].
    split; [done |]. split; [exact (conj Hlo Hhi) | done].
  - split; [done |]. split; [exact (conj Hlo Hhi) | done].
Qed.

Lemma X1_Load_failures_witness :
  Config.Load SamplesConfig.production = inl (Config.fromEnv SamplesConfig.production) ∧
  Config.Getenv SamplesConfig.production "PUBSUB_PROJECT_ID" ≠ "" ∧
  Config.Getenv SamplesConfig.production "GCS_PROJECT_ID" ≠ "".
Proof.
  pose proof (X1_Load_failures SamplesConfig.production) as H.
  assert (Hload : Config.Load SamplesConfig.production
                  = inl (Config.fromEnv SamplesConfig.production))
    by (vm_compute; reflexivity).
  rewrite Hload in H. destruct H as (_ & _ & H).
  split; [exact Hload |]. apply H. vm_compute. reflexivity.
Defined.

Lemma Getenv_delete_ne (env : gmap string string) (k k' : string) :
  k ≠ k' → Config.Getenv (delete k env) k' = Config.Getenv env k'.
Proof. intros Hne. unfold Config.Getenv. by rewrite lookup_delete_ne. Qed.

(** X2: a [TRELLIS_PORT] that [strconv.Atoi] does not accept is not an
    error: [Load] answers as if the variable were not set, with port 8080 in
    the configuration it builds. *)
Theorem X2_unparsable_port_is_ignored (env : gmap string string) :
  Config.Atoi (Config.Getenv env "TRELLIS_PORT") = None →
  Config.Load env = Config.Load (delete "TRELLIS_PORT" env) ∧
  Config.Port (Config.fromEnv env) = 8080.
Proof.
  intros Hbad.
  assert (Hport : Config.getEnvInt env "TRELLIS_PORT" 8080 = 8080).
  { unfold Config.getEnvInt. rewrite Hbad. by destruct (negb _). }
  assert (Hport' : Config.getEnvInt (delete "TRELLIS_PORT" env) "TRELLIS_PORT" 8080 = 8080).
  { unfold Config.getEnvInt, Config.Getenv. by rewrite lookup_delete_eq. }
  assert (Heq : Config.fromEnv (delete "TRELLIS_PORT" env) = Config.fromEnv env).
  { unfold Config.fromEnv. rewrite Hport, Hport'.
    unfold Config.getEnvInt, Config.getEnvString, Config.getEnvBool.
    rewrite !Getenv_delete_ne by done. reflexivity. }
  split; [| exact Hport].
  unfold Config.Load. by rewrite Heq.
Qed.

Lemma X2_unparsable_port_is_ignored_witness :
  Config.Load SamplesConfig.badPort = Config.Load (delete "TRELLIS_PORT" SamplesConfig.badPort) ∧
  Config.Port (Config.fromEnv SamplesConfig.badPort) = 8080.
Proof.
  apply (X2_unparsable_port_is_ignored SamplesConfig.badPort).
  vm_compute. reflexivity.
Defined.

(** X3: [Validate] compares the environment name with [production] as it
    is written, [IsProduction] after lower-casing it.  With a port in range
    and a name other than the exact [production], [Load] succeeds whatever
    the project ids are, also when [IsProduction] holds of the result. *)
Theorem X3_production_check_is_case_sensitive {uni : GoStrings.Unicode} (env : gmap string string) :
  1 ≤ Config.getEnvInt env "TRELLIS_PORT" 8080 ≤ 65535 →
  Config.Getenv env "TRELLIS_ENV" ≠ "production" →
  Config.Load env = inl (Config.fromEnv env) ∧
  (GoStrings.ToLower (Config.Getenv env "TRELLIS_ENV") = "production" →
   Config.IsProduction (Config.fromEnv env) = true).
Proof.
  intros Hport Hname. split.
  - unfold Config.Load. rewrite Validate_fromEnv. cbv zeta.
    destruct (Z.ltb_spec (Config.getEnvInt env "TRELLIS_PORT" 8080) 1); [lia |].
    destruct (Z.ltb_spec 65535 (Config.getEnvInt env "TRELLIS_PORT" 8080)); [lia |].
    simpl.
    destruct (String.eqb_spec (Config.Getenv env "TRELLIS_ENV") "production"); done.
  - intros Hlower. unfold Config.IsProduction.
    change (Config.Environment (Config.fromEnv env))
      with (Config.getEnvString env "TRELLIS_ENV" "development").
    unfold Config.getEnvString.
    destruct (String.eqb_spec (Config.Getenv env "TRELLIS_ENV") "") as [Hempty|_].
    + rewrite Hempty in Hlower. discriminate Hlower.
    + simpl. rewrite Hlower. reflexivity.
Qed.

Lemma X3_production_check_is_case_sensitive_witness :
  Config.Load SamplesConfig.capitalised = inl (Config.fromEnv SamplesConfig.capitalised) ∧
  (GoStrings.ToLower (Config.Getenv SamplesConfig.capitalised "TRELLIS_ENV") = "production" →
   Config.IsProduction (Config.fromEnv SamplesConfig.capitalised) = true).
Proof.
  apply (X3_production_check_is_case_sensitive SamplesConfig.capitalised).
  - vm_compute. split; discriminate.
  - vm_compute. discriminate.
Defined.

(** ** The middleware chain *)

(** X4: a request whose [Authorization] header is missing, is not a
    [Bearer] header, or carries a key without the [wdn_] prefix is answered
    401 with a message that depends on the header alone: the answer is the
    same for every identity service, the handler is not run and the world is
    left as it was. *)
Theorem X4_malformed_credential_rejected_locally
    (handler : HTTP.Request → Ingestion.World → Ingestion.Outcome * Ingestion.World)
    (r : HTTP.Request) :
  HTTP.HeaderGet (HTTP.Header r) "Authorization" = "" ∨
  GoStrings.HasPrefix (HTTP.HeaderGet (HTTP.Header r) "Authorization") "Bearer " = false ∨
  GoStrings.HasPrefix
    (GoStrings.TrimPrefix (HTTP.HeaderGet (HTTP.Header r) "Authorization") "Bearer ")
    "wdn_" = false →
  ∃ message, ∀ wc w,
    authenticated wc handler r w = (Ingestion.Responded (HTTP.Error message 401), w).
Proof.
  intros Hbad. unfold authenticated, Auth.AuthenticationMiddleware.
  set (h := HTTP.HeaderGet (HTTP.Header r) "Authorization") in *.
  destruct (String.eqb_spec h "") as [Hempty|Hne].
  { eexists. intros wc w. reflexivity. }
  destruct (GoStrings.HasPrefix h "Bearer ") eqn:Hbearer; simpl.
  2: { eexists. intros wc w. reflexivity. }
  destruct (GoStrings.HasPrefix (GoStrings.TrimPrefix h "Bearer ") "wdn_") eqn:Hkey; simpl.
  2: { eexists. intros wc w. reflexivity. }
  destruct Hbad as [?|[?|?]]; congruence.
Qed.

Lemma X4_malformed_credential_rejected_locally_witness :
  ∃ message, ∀ wc w,
    authenticated wc (Ingestion.HandleTraffic Samples.snapshotS1 SamplesNoMatch.order
                        Samples.env0) SamplesGuards.basicAuth w
    = (Ingestion.Responded (HTTP.Error message 401), w).
Proof.
  apply (X4_malformed_credential_rejected_locally
           (Ingestion.HandleTraffic Samples.snapshotS1 SamplesNoMatch.order Samples.env0)
           SamplesGuards.basicAuth).
  right. left. vm_compute. reflexivity.
Defined.

(** X5: whenever the middleware turns a request down, the status is 401
    and the body is one of four fixed messages; the error text of the
    identity service is not passed on to the client.  The handler is not
    run and nothing is published or stored.  The log gains one line, the
    error of the identity service, when the key was refused by it, and
    nothing when the header was turned down for its form. *)
Theorem X5_rejections_are_401_with_fixed_messages
    (wc : Auth.WardenClient)
    (handler : HTTP.Request → Ingestion.World → Ingestion.Outcome * Ingestion.World)
    (r : HTTP.Request) (w : Ingestion.World) (status : Z) (message : string)
    (logged : option string) :
  Auth.AuthenticationMiddleware wc (HTTP.HeaderGet (HTTP.Header r) "Authorization")
    = Auth.Rejected status message logged →
  status = 401 ∧
  message ∈ ["Missing Authorization header"; "Invalid Authorization header format";
             "Invalid API key format"; "Invalid API key"] ∧
  fst (authenticated wc handler r w) = Ingestion.Responded (HTTP.Error message 401) ∧
  Ingestion.topic (snd (authenticated wc handler r w)) = Ingestion.topic w ∧
  Ingestion.redis (snd (authenticated wc handler r w)) = Ingestion.redis w ∧
  match logged with
  | None =>
      message ≠ "Invalid API key" ∧ snd (authenticated wc handler r w) = w
  | Some err =>
      message = "Invalid API key" ∧
      snd (authenticated wc handler r w) =
        Ingestion.logLine {| Ingestion.Level := "ERROR";
                             Ingestion.Msg := "API key validation failed";
                             Ingestion.Attrs := [("error", err)] |} w
  end.
Proof.
  intros Hrej. unfold authenticated. rewrite Hrej.
  unfold Auth.AuthenticationMiddleware in Hrej.
  destruct (String.eqb _ "").
  { injection Hrej as <- <- <-. split_and!; [done | set_solver | done..]. }
  destruct (negb (GoStrings.HasPrefix _ "Bearer ")).
  { injection Hrej as <- <- <-. split_and!; [done | set_solver | done..]. }
  destruct (negb (GoStrings.HasPrefix _ "wdn_")).
  { injection Hrej as <- <- <-. split_and!; [done | set_solver | done..]. }
  destruct (Auth.validateAPIKey wc _) as [orgCtx [err|]]; [| done].
  injection Hrej as <- <- <-. split_and!; [done | set_solver | done..].
Qed.

Lemma X5_rejections_are_401_with_fixed_messages_witness :
  (401 : Z) = 401 ∧
  "Invalid API key" ∈ ["Missing Authorization header"; "Invalid Authorization header format";
                       "Invalid API key format"; "Invalid API key"] ∧
  fst (authenticated SamplesAuth.warden
         (Ingestion.HandleTraffic Samples.snapshotS1 SamplesNoMatch.order Samples.env0)
         SamplesGuards.unknownKey Samples.world0)
    = Ingestion.Responded (HTTP.Error "Invalid API key" 401) ∧
  Ingestion.topic
    (snd (authenticated SamplesAuth.warden
            (Ingestion.HandleTraffic Samples.snapshotS1 SamplesNoMatch.order Samples.env0)
            SamplesGuards.unknownKey Samples.world0)) = Ingestion.topic Samples.world0 ∧
  Ingestion.redis
    (snd (authenticated SamplesAuth.warden
            (Ingestion.HandleTraffic Samples.snapshotS1 SamplesNoMatch.order Samples.env0)
            SamplesGuards.unknownKey Samples.world0)) = Ingestion.redis Samples.world0 ∧
  "Invalid API key" = "Invalid API key" ∧
  snd (authenticated SamplesAuth.warden
         (Ingestion.HandleTraffic Samples.snapshotS1 SamplesNoMatch.order Samples.env0)
         SamplesGuards.unknownKey Samples.world0)
    = Ingestion.logLine {| Ingestion.Level := "ERROR";
                           Ingestion.Msg := "API key validation failed";
                           Ingestion.Attrs := [("error", "unknown key")] |} Samples.world0.
Proof.
  apply (X5_rejections_are_401_with_fixed_messages SamplesAuth.warden
           (Ingestion.HandleTraffic Samples.snapshotS1 SamplesNoMatch.order Samples.env0)
           SamplesGuards.unknownKey Samples.world0 401 "Invalid API key"
           (Some "unknown key")).
  vm_compute. reflexivity.
Defined.

Lemma readBody_snd (r : HTTP.Request) (w : Ingestion.World) :
  snd (Ingestion.readBody r w) =
  match HTTP.Body r with
  | Some rd => if HTTP.failed rd then Ingestion.logLine bodyWarning w else w
  | None => w
  end.
Proof.
  unfold Ingestion.readBody. destruct (HTTP.Body r) as [rd|]; [| done].
  destruct (HTTP.failed rd) eqn:Hf.
  - pose proof (ReadAll_failed rd Hf) as Herr.
    destruct (HTTP.ReadAll rd) as [b err]. simpl in Herr. by rewrite Herr.
  - by rewrite (ReadAll_delivered rd Hf).
Qed.

(** X6: a key that the identity service accepts for an account without
    organization passes the middleware with a nil context.  [HandleTraffic]
    and [HandlePixel] then end in the panic of the nil dereference;
    [HandlePostback] answers 400 when [click_id] is missing and ends in the
    same panic when it is there.  Nothing is published or stored.  The
    pixel logs nothing; [/in] and the postback leave the world as it was
    unless reading the body fails, where the warning of [readBody] is
    logged if the compiler has placed the call before the dereference. *)
Theorem X6_account_without_organization_reaches_handlers
    {uni : GoStrings.Unicode} {lib : URL.Lib}
    (wc : Auth.WardenClient) (re : Routing.RoutingEngine)
    (order : list (string * Routing.Campaign)) (env : Ingestion.Env)
    (r : HTTP.Request) (w : Ingestion.World) (apiKey accountId : string) :
  HTTP.HeaderGet (HTTP.Header r) "Authorization" = "Bearer " +:+ apiKey →
  GoStrings.HasPrefix apiKey "wdn_" = true →
  Auth.ValidateApiKey wc apiKey = Auth.Ok accountId →
  Auth.GetAccountOrganizations wc accountId = Auth.Ok [] →
  fst (authenticated wc (Ingestion.HandleTraffic re order env) r w) = Ingestion.Panicked ∧
  authenticated wc (Ingestion.HandlePixel env) r w = (Ingestion.Panicked, w) ∧
  fst (authenticated wc (Ingestion.HandlePostback env) r w) =
    (if String.eqb (URL.Get (HTTP.Query r) "click_id") ""
     then Ingestion.Responded (HTTP.Error "Missing click_id parameter" 400)
     else Ingestion.Panicked) ∧
  (URL.Get (HTTP.Query r) "click_id" = "" →
   snd (authenticated wc (Ingestion.HandlePostback env) r w) = w) ∧
  (∀ handler,
     handler = Ingestion.HandleTraffic re order env ∨ handler = Ingestion.HandlePostback env →
     (snd (authenticated wc handler r w) = w ∨
      snd (authenticated wc handler r w) = Ingestion.logLine bodyWarning w) ∧
     (Ingestion.callsFirst env = false ∨ HTTP.Body r = None ∨
      (∃ rd, HTTP.Body r = Some rd ∧ HTTP.failed rd = false) →
      snd (authenticated wc handler r w) = w)) ∧
  (∀ rd, HTTP.Body r = Some rd → HTTP.failed rd = true →
         Ingestion.callsFirst env = true →
         snd (authenticated wc (Ingestion.HandleTraffic re order env) r w)
         = Ingestion.logLine bodyWarning w).
Proof.
  intros Hhdr Hkey Hacct Horgs.
  assert (Hmw : Auth.AuthenticationMiddleware wc
                  (HTTP.HeaderGet (HTTP.Header r) "Authorization")
                = Auth.Forwarded (Auth.OrgPtr None)).
  { rewrite Hhdr. unfold Auth.AuthenticationMiddleware.
    rewrite TrimPrefix_append, Hkey.
    unfold GoStrings.HasPrefix. rewrite prefix_append.
    unfold Auth.validateAPIKey. by rewrite Hacct, Horgs. }
  assert (Hnil : ∀ w0, (if Ingestion.callsFirst env
                        then snd (Ingestion.readBody (HTTP.withContext r (Auth.OrgPtr None)) w)
                        else w) = w0 ↔
                       (if Ingestion.callsFirst env
                        then match HTTP.Body r with
                             | Some rd => if HTTP.failed rd
                                          then Ingestion.logLine bodyWarning w else w
                             | None => w
                             end
                        else w) = w0).
  { intros w0. by rewrite readBody_snd. }
  unfold authenticated. rewrite Hmw.
  unfold Ingestion.HandleTraffic, Ingestion.HandlePixel, Ingestion.HandlePostback.
  cbn [HTTP.withContext HTTP.Context Auth.GetOrganizationContext HTTP.Query fst snd].
  split_and!.
  - reflexivity.
  - reflexivity.
  - by destruct (String.eqb (URL.Get (HTTP.Query r) "click_id") "").
  - intros ->. reflexivity.
  - intros handler Hhandler.
    assert (Hw : snd (handler (HTTP.withContext r (Auth.OrgPtr None)) w) = w ∨
                 snd (handler (HTTP.withContext r (Auth.OrgPtr None)) w)
                 = (if Ingestion.callsFirst env
                    then match HTTP.Body r with
                         | Some rd => if HTTP.failed rd
                                      then Ingestion.logLine bodyWarning w else w
                         | None => w
                         end
                    else w)).
    { destruct Hhandler as [-> | ->].
      - right. unfold Ingestion.HandleTraffic. cbn [HTTP.withContext HTTP.Context
          Auth.GetOrganizationContext snd]. by apply Hnil.
      - unfold Ingestion.HandlePostback. cbn [HTTP.withContext HTTP.Context
          Auth.GetOrganizationContext HTTP.Query snd].
        destruct (String.eqb (URL.Get (HTTP.Query r) "click_id") ""); [by left | right].
        cbn [snd]. by apply Hnil. }
    split.
    + destruct Hw as [Hw|Hw]; [by left |]. rewrite Hw.
      destruct (Ingestion.callsFirst env); [| by left].
      destruct (HTTP.Body r) as [rd|]; [| by left].
      destruct (HTTP.failed rd); [by right | by left].
    + intros Hclean. destruct Hw as [Hw|Hw]; [done |]. rewrite Hw.
      destruct Hclean as [->|[->|(rd & -> & ->)]]; [done | | ];
        by destruct (Ingestion.callsFirst env).
  - intros rd Hbody Hfail Hcalls. cbn [snd]. apply Hnil. by rewrite Hcalls, Hbody, Hfail.
Qed.

Lemma X6_account_without_organization_reaches_handlers_witness :
  fst (authenticated SamplesAuth.warden
         (Ingestion.HandleTraffic Samples.snapshotS1 SamplesNoMatch.order Samples.env0)
         SamplesGuards.noOrganization Samples.world0) = Ingestion.Panicked ∧
  authenticated SamplesAuth.warden (Ingestion.HandlePixel Samples.env0)
      SamplesGuards.noOrganization Samples.world0 = (Ingestion.Panicked, Samples.world0) ∧
  fst (authenticated SamplesAuth.warden (Ingestion.HandlePostback Samples.env0)
         SamplesGuards.noOrganization Samples.world0) = Ingestion.Panicked ∧
  snd (authenticated SamplesAuth.warden
         (Ingestion.HandleTraffic Samples.snapshotS1 SamplesNoMatch.order Samples.env0)
         SamplesGuards.noOrganizationNoBody Samples.world0)
    = Ingestion.logLine bodyWarning Samples.world0.
Proof.
  pose proof (X6_account_without_organization_reaches_handlers SamplesAuth.warden
                Samples.snapshotS1 SamplesNoMatch.order Samples.env0
                SamplesGuards.noOrganization Samples.world0 "wdn_live_2" "acct_2"
                eq_refl eq_refl eq_refl eq_refl) as (Htraffic & Hpixel & Hpostback & _).
  pose proof (X6_account_without_organization_reaches_handlers SamplesAuth.warden
                Samples.snapshotS1 SamplesNoMatch.order Samples.env0
                SamplesGuards.noOrganizationNoBody Samples.world0 "wdn_live_2" "acct_2"
                eq_refl eq_refl eq_refl eq_refl) as (_ & _ & _ & _ & _ & Hwarn).
  split_and!; [exact Htraffic | exact Hpixel | exact Hpostback |].
  apply (Hwarn HTTP.ReadError); reflexivity.
Defined.

Lemma existsb_eqb_elem_of (x : string) (l : list string) :
  existsb (λ y, String.eqb y x) l = true ↔ x ∈ l.
Proof.
  rewrite existsb_exists. split.
  - intros (y & Hin & Heq). apply String.eqb_eq in Heq as ->. by apply list_elem_of_In.
  - intros Hin. exists x. split; [by apply list_elem_of_In | apply String.eqb_refl].
Qed.

(** X7: behind a tenant context, [RequirePermission] runs the next handler
    exactly when the permission is in the context's list and [RequireRole]
    exactly when the context's role is one of the roles given; otherwise the
    answer is 403 and the next handler is not run.  With no role given,
    [RequireRole] lets nothing through. *)
Theorem X7_guards_pass_on_membership
    (next : HTTP.Request → Ingestion.World → Ingestion.Outcome * Ingestion.World)
    (r : HTTP.Request) (w : Ingestion.World) (orgCtx : Auth.OrganizationContext)
    (permission : string) (roles : list string) :
  HTTP.Context r = Auth.OrgPtr (Some orgCtx) →
  (permission ∈ Auth.Permissions orgCtx →
   AuthGuards.RequirePermission permission next r w = next r w) ∧
  (permission ∉ Auth.Permissions orgCtx →
   AuthGuards.RequirePermission permission next r w =
     (Ingestion.Responded (HTTP.Error "Insufficient permissions" 403), w)) ∧
  (Auth.Role orgCtx ∈ roles → AuthGuards.RequireRole roles next r w = next r w) ∧
  (Auth.Role orgCtx ∉ roles →
   AuthGuards.RequireRole roles next r w =
     (Ingestion.Responded (HTTP.Error "Insufficient role" 403), w)) ∧
  AuthGuards.RequireRole [] next r w =
    (Ingestion.Responded (HTTP.Error "Insufficient role" 403), w).
Proof.
  intros Hctx. unfold AuthGuards.RequirePermission, AuthGuards.RequireRole.
  rewrite Hctx. simpl.
  assert (Hrole : existsb (λ role, String.eqb (Auth.Role orgCtx) role) roles = true
                  ↔ Auth.Role orgCtx ∈ roles).
  { rewrite <- existsb_eqb_elem_of. rewrite !existsb_exists.
    split; intros (y & Hin & Heq); exists y; (split; [done |]);
      by rewrite String.eqb_sym. }
  split_and!.
  - intros Hin. apply existsb_eqb_elem_of in Hin. by rewrite Hin.
  - intros Hnot.
    destruct (existsb _ (Auth.Permissions orgCtx)) eqn:Hex; [| done].
    by apply existsb_eqb_elem_of in Hex.
  - intros Hin. apply Hrole in Hin. by rewrite Hin.
  - intros Hnot.
    assert (Hf : existsb (λ role, String.eqb (Auth.Role orgCtx) role) roles = false).
    { apply not_true_iff_false. intros Hex. by apply Hnot, Hrole. }
    by rewrite Hf.
  - reflexivity.
Qed.

Lemma X7_guards_pass_on_membership_witness :
  AuthGuards.RequirePermission "traffic:write" SamplesGuards.ok Samples.requestS1 Samples.world0
    = SamplesGuards.ok Samples.requestS1 Samples.world0 ∧
  AuthGuards.RequireRole ["admin"; "owner"] SamplesGuards.ok Samples.requestS1 Samples.world0
    = (Ingestion.Responded (HTTP.Error "Insufficient role" 403), Samples.world0).
Proof.
  pose proof (X7_guards_pass_on_membership SamplesGuards.ok Samples.requestS1 Samples.world0
                Samples.org_A "traffic:write" ["admin"; "owner"] eq_refl)
    as (Hperm & _ & _ & Hrole & _).
  split.
  - apply Hperm. apply list_elem_of_here.
  - apply Hrole. intros Hin.
    apply elem_of_cons in Hin as [Hin|Hin]; [discriminate Hin |].
    apply elem_of_cons in Hin as [Hin|Hin]; [discriminate Hin |].
    by apply elem_of_nil in Hin.
Defined.

(** ** Rules and scores *)

Lemma existsb_eqb_elem_of_l (x : string) (l : list string) :
  existsb (λ y, String.eqb x y) l = true ↔ x ∈ l.
Proof.
  rewrite <- existsb_eqb_elem_of. rewrite !existsb_exists.
  split; intros (y & Hin & Heq); exists y; (split; [done |]); by rewrite String.eqb_sym.
Qed.

(** X8: a rule matches nothing when the request has no parameter of its
    field, when its list of values is empty, or when its operator is none of
    [equals], [contains], [in], [prefix]. *)
Theorem X8_rule_never_matches {uni : GoStrings.Unicode}
    (rule : Routing.Rule) (params : gmap string string) :
  params !! Routing.Field rule = None ∨
  Routing.Values rule = [] ∨
  Routing.Operator rule ∉ ["equals"; "contains"; "in"; "prefix"] →
  Routing.ruleMatches rule params = false.
Proof.
  intros Hcase. unfold Routing.ruleMatches.
  destruct (params !! Routing.Field rule) as [v|] eqn:Hv; [| done].
  destruct Hcase as [?|[Hnil|Hop]]; [done | |].
  - rewrite Hnil. simpl. by repeat destruct (String.eqb _ _).
  - destruct (String.eqb_spec (Routing.Operator rule) "equals") as [Heq|_].
    { exfalso. apply Hop. rewrite Heq. set_solver. }
    destruct (String.eqb_spec (Routing.Operator rule) "contains") as [Heq|_].
    { exfalso. apply Hop. rewrite Heq. set_solver. }
    destruct (String.eqb_spec (Routing.Operator rule) "in") as [Heq|_].
    { exfalso. apply Hop. rewrite Heq. set_solver. }
    destruct (String.eqb_spec (Routing.Operator rule) "prefix") as [Heq|_]; [| done].
    exfalso. apply Hop. rewrite Heq. set_solver.
Qed.

Lemma X8_rule_never_matches_witness :
  Routing.ruleMatches SamplesRules.regex SamplesRules.flat = false.
Proof.
  apply (X8_rule_never_matches SamplesRules.regex SamplesRules.flat).
  right. right. intros Hin.
  repeat (apply elem_of_cons in Hin as [Hin|Hin]; [discriminate Hin |]).
  by apply elem_of_nil in Hin.
Defined.

(** X9: [equals] and [in] are the same test: with either operator a rule
    matches exactly when the first value of its field is one of the rule's
    values, byte for byte. *)
Theorem X9_equals_and_in_test_membership {uni : GoStrings.Unicode}
    (rule : Routing.Rule) (params : gmap string string) (v : string) :
  Routing.Operator rule = "equals" ∨ Routing.Operator rule = "in" →
  params !! Routing.Field rule = Some v →
  (Routing.ruleMatches rule params = true ↔ v ∈ Routing.Values rule) ∧
  Routing.ruleMatches (withOperator rule "equals") params =
  Routing.ruleMatches (withOperator rule "in") params.
Proof.
  intros Hop Hv. split.
  - unfold Routing.ruleMatches. rewrite Hv.
    destruct Hop as [->| ->]; simpl; apply existsb_eqb_elem_of_l.
  - unfold Routing.ruleMatches, withOperator. simpl. by rewrite Hv.
Qed.

Lemma X9_equals_and_in_test_membership_witness :
  (Routing.ruleMatches SamplesRules.country SamplesRules.flat = true
   ↔ "CA" ∈ Routing.Values SamplesRules.country) ∧
  Routing.ruleMatches (withOperator SamplesRules.country "equals") SamplesRules.flat =
  Routing.ruleMatches (withOperator SamplesRules.country "in") SamplesRules.flat.
Proof.
  apply (X9_equals_and_in_test_membership SamplesRules.country SamplesRules.flat "CA").
  - right. reflexivity.
  - vm_compute. reflexivity.
Defined.

Lemma lower_byte_idem (c : ascii) :
  GoStrings.lower_byte (GoStrings.lower_byte c) = GoStrings.lower_byte c ∧
  (nat_of_ascii (GoStrings.lower_byte c) <? 128)%nat = (nat_of_ascii c <? 128)%nat.
Proof.
  destruct c as [[] [] [] [] [] [] [] []]; vm_compute; split; reflexivity.
Qed.

Lemma lowerASCII_idem (s : string) :
  GoStrings.lowerASCII (GoStrings.lowerASCII s) = GoStrings.lowerASCII s.
Proof.
  induction s as [|c s IH]; simpl; [done |]. by rewrite (proj1 (lower_byte_idem c)), IH.
Qed.

Lemma isASCII_lowerASCII (s : string) :
  GoStrings.isASCII (GoStrings.lowerASCII s) = GoStrings.isASCII s.
Proof.
  induction s as [|c s IH]; [done |]. cbn [GoStrings.lowerASCII GoStrings.isASCII].
  by rewrite (proj2 (lower_byte_idem c)), IH.
Qed.

(** Lowering the ASCII letters first does not change what [strings.ToLower]
    returns. *)
Lemma ToLower_lowerASCII {uni : GoStrings.Unicode} (s : string) :
  GoStrings.ToLower (GoStrings.lowerASCII s) = GoStrings.ToLower s.
Proof.
  unfold GoStrings.ToLower. by rewrite isASCII_lowerASCII, lowerASCII_idem.
Qed.

Lemma Contains_empty (s : string) : GoStrings.Contains s "" = true.
Proof. unfold GoStrings.Contains. by destruct s. Qed.

(** X10: [contains] does not see the case of ASCII letters: lowering the
    ASCII letters of the value of the parameter, or of the values of the
    rule, changes nothing.  An empty string among the values of a [contains]
    or [prefix] rule makes the rule match every request that has the
    field. *)
Theorem X10_contains_ignores_case {uni : GoStrings.Unicode}
    (rule : Routing.Rule) (params : gmap string string) (v : string) :
  params !! Routing.Field rule = Some v →
  (Routing.Operator rule = "contains" →
   Routing.ruleMatches rule (<[Routing.Field rule := GoStrings.lowerASCII v]> params)
     = Routing.ruleMatches rule params ∧
   Routing.ruleMatches (withValues rule (map GoStrings.lowerASCII (Routing.Values rule))) params
     = Routing.ruleMatches rule params) ∧
  (Routing.Operator rule = "contains" ∨ Routing.Operator rule = "prefix" →
   "" ∈ Routing.Values rule → Routing.ruleMatches rule params = true).
Proof.
  intros Hv. split.
  - intros Hop. unfold Routing.ruleMatches, withValues. simpl.
    rewrite lookup_insert_eq, Hv, Hop. simpl. split.
    + by rewrite ToLower_lowerASCII.
    + induction (Routing.Values rule) as [|x xs IH]; simpl; [done |].
      by rewrite ToLower_lowerASCII, IH.
  - intros Hop Hin. unfold Routing.ruleMatches. rewrite Hv.
    destruct Hop as [->| ->]; simpl; apply existsb_exists; exists "";
      (split; [by apply list_elem_of_In |]).
    + apply Contains_empty.
    + unfold GoStrings.HasPrefix. by destruct v.
Qed.

Lemma X10_contains_ignores_case_witness :
  Routing.ruleMatches SamplesRules.browser
      (<[Routing.Field SamplesRules.browser := GoStrings.lowerASCII "Mozilla CHROME/120"]>
         SamplesRules.flat)
    = Routing.ruleMatches SamplesRules.browser SamplesRules.flat ∧
  Routing.ruleMatches
      (withValues SamplesRules.browser
         (map GoStrings.lowerASCII (Routing.Values SamplesRules.browser))) SamplesRules.flat
    = Routing.ruleMatches SamplesRules.browser SamplesRules.flat.
Proof.
  apply (X10_contains_ignores_case SamplesRules.browser SamplesRules.flat
           "Mozilla CHROME/120").
  - vm_compute. reflexivity.
  - reflexivity.
Defined.

(** X11: where the priorities of a campaign are non-negative and their sum
    fits an [int], the score is the sum of the priorities of the rules that
    match; it is never negative and never above the sum of all priorities,
    and a campaign without rules scores zero. *)
Theorem X11_score_is_sum_of_matching_priorities {uni : GoStrings.Unicode}
    (c : Routing.Campaign) (flat : gmap string string) :
  Forall (λ rule, 0 ≤ Routing.Priority rule) (Routing.Rules c) →
  prioritySum (Routing.Rules c) < 2 ^ 63 →
  Routing.calculateMatchScore c flat = matchedSum flat (Routing.Rules c) ∧
  0 ≤ Routing.calculateMatchScore c flat ≤ prioritySum (Routing.Rules c) ∧
  (Routing.Rules c = [] → Routing.calculateMatchScore c flat = 0).
Proof.
  intros Hnonneg Hfits.
  pose proof (calculateMatchScore_sum c flat Hnonneg Hfits) as Hsum.
  pose proof (matchedSum_bounds flat (Routing.Rules c) Hnonneg) as Hbounds.
  split; [exact Hsum |]. split; [lia |].
  intros Hnil. rewrite Hsum, Hnil. reflexivity.
Qed.

Lemma X11_score_is_sum_of_matching_priorities_witness :
  Routing.calculateMatchScore SamplesRules.campaign SamplesRules.flat
    = matchedSum SamplesRules.flat (Routing.Rules SamplesRules.campaign) ∧
  0 ≤ Routing.calculateMatchScore SamplesRules.campaign SamplesRules.flat
    ≤ prioritySum (Routing.Rules SamplesRules.campaign) ∧
  (Routing.Rules SamplesRules.campaign = [] →
   Routing.calculateMatchScore SamplesRules.campaign SamplesRules.flat = 0).
Proof.
  apply (X11_score_is_sum_of_matching_priorities SamplesRules.campaign SamplesRules.flat).
  - repeat constructor; vm_compute; discriminate.
  - vm_compute. reflexivity.
Defined.

Lemma flattenParams_lookup (params : URL.Values) (field : string) :
  Routing.flattenParams params !! field = firstValue params field.
Proof. unfold Routing.flattenParams, firstValue. apply lookup_omap. Qed.

(** X12: the score of a campaign depends on the request only through the
    first value of the parameters its rules name: two requests that agree on
    those first values give the same score, whatever else they carry. *)
Theorem X12_score_reads_first_values_of_rule_fields {uni : GoStrings.Unicode}
    (c : Routing.Campaign) (params params' : URL.Values) :
  (∀ rule, rule ∈ Routing.Rules c →
           firstValue params (Routing.Field rule) = firstValue params' (Routing.Field rule)) →
  scoreOf params c = scoreOf params' c.
Proof.
  unfold scoreOf, Routing.calculateMatchScore. intros Hagree.
  generalize 0 as acc.
  induction (Routing.Rules c) as [|rule rules IH]; intros acc; simpl; [done |].
  assert (Hrule : Routing.ruleMatches rule (Routing.flattenParams params)
                  = Routing.ruleMatches rule (Routing.flattenParams params')).
  { unfold Routing.ruleMatches. rewrite !flattenParams_lookup.
    rewrite (Hagree rule); [done | apply list_elem_of_here]. }
  rewrite Hrule. apply IH. intros r Hr. apply Hagree. by apply list_elem_of_further.
Qed.

Lemma X12_score_reads_first_values_of_rule_fields_witness :
  scoreOf (URL.ParseQuery "country=CA&ua=Chrome") SamplesRules.campaign
  = scoreOf (URL.ParseQuery "x=1&country=CA&country=US&ua=Chrome&ua=Safari")
      SamplesRules.campaign.
Proof.
  apply (X12_score_reads_first_values_of_rule_fields SamplesRules.campaign).
  intros rule Hin.
  repeat (apply elem_of_cons in Hin as [->|Hin]; [vm_compute; reflexivity |]).
  by apply elem_of_nil in Hin.
Defined.

(** ** The snapshot and its owners *)

Lemma loadCampaigns_lookup (rows : list (option Routing.Campaign)) (key : string)
    (c : Routing.Campaign) :
  Routing.campaigns (Routing.loadCampaigns rows) !! key = Some c →
  Some c ∈ rows ∧ key = Routing.campaignKey (Routing.OrganizationID c) (Routing.CampaignID c).
Proof.
  unfold Routing.loadCampaigns. simpl.
  induction rows as [|row rows IH] using rev_ind.
  - simpl. by rewrite lookup_empty.
  - rewrite foldl_snoc. destruct row as [c0|].
    + rewrite lookup_insert. case_decide as Hk.
      * intros [= <-]. split; [| done]. apply elem_of_app. right. apply list_elem_of_here.
      * intros Hget. destruct (IH Hget) as [Hin Hkey]. split; [| done].
        apply elem_of_app. by left.
    + intros Hget. destruct (IH Hget) as [Hin Hkey]. split; [| done].
      apply elem_of_app. by left.
Qed.

(** X13: after a refresh the snapshot holds nothing but scanned rows, each
    under the key built from its own tenant and campaign id; a row that did
    not scan leaves no entry; and when no two rows share a key, every scanned
    row is found under its key. *)
Theorem X13_refresh_holds_the_scanned_rows (rows : list (option Routing.Campaign)) :
  (∀ key c, Routing.getCampaign (Routing.loadCampaigns rows) key = Some c →
            Some c ∈ rows ∧
            key = Routing.campaignKey (Routing.OrganizationID c) (Routing.CampaignID c)) ∧
  (NoDup (omap (λ row, (λ c, Routing.campaignKey (Routing.OrganizationID c)
                                                 (Routing.CampaignID c)) <$> row) rows) →
   ∀ c, Some c ∈ rows →
        Routing.getCampaign (Routing.loadCampaigns rows)
          (Routing.campaignKey (Routing.OrganizationID c) (Routing.CampaignID c)) = Some c).
Proof.
  split; [intros key c; apply loadCampaigns_lookup |].
  unfold Routing.getCampaign, Routing.loadCampaigns. simpl.
  induction rows as [|row rows IH] using rev_ind; intros Hnd c Hin.
  - by apply elem_of_nil in Hin.
  - rewrite foldl_snoc. rewrite omap_app in Hnd. apply NoDup_app in Hnd as (Hnd & Hdisj & _).
    apply elem_of_app in Hin as [Hin|Hin].
    + destruct row as [c0|]; [| by apply IH].
      rewrite lookup_insert_ne; [by apply IH |].
      intros Heq. apply (Hdisj (Routing.campaignKey (Routing.OrganizationID c)
                                  (Routing.CampaignID c))).
      * apply list_elem_of_omap. exists (Some c). by split.
      * simpl. rewrite Heq. apply list_elem_of_here.
    + apply list_elem_of_singleton in Hin as <-. by rewrite lookup_insert_eq.
Qed.

Lemma X13_refresh_holds_the_scanned_rows_witness :
  Routing.getCampaign (Routing.loadCampaigns SamplesDefault.rows)
    (Routing.campaignKey (Routing.OrganizationID Samples.summer)
                         (Routing.CampaignID Samples.summer)) = Some Samples.summer.
Proof.
  apply (proj2 (X13_refresh_holds_the_scanned_rows SamplesDefault.rows)).
  - vm_compute. apply NoDup_cons. split; [| apply NoDup_singleton].
    intros H. apply list_elem_of_singleton in H. discriminate H.
  - apply list_elem_of_here.
Defined.

Lemma apply_keyedByOwner (re : Routing.RoutingEngine) (op : Admin.Op) :
  keyedByOwner re → keyedByOwner (Admin.apply re op).
Proof.
  intros Hre. destruct op as [[rows|]|c [|]|c [|]|org cid [|]]; simpl; try done.
  - apply loadCampaigns_keyedByOwner.
  - by apply putCampaign_keyedByOwner.
  - by apply putCampaign_keyedByOwner.
  - by apply removeCampaign_keyedByOwner.
Qed.

(** X14: through every sequence of refreshes, creations, updates and
    deletions, whether the store accepted them or not, each entry of the
    snapshot stays under the key built from the tenant id and the campaign id
    of the campaign it holds. *)
Theorem X14_snapshot_keys_match_campaigns (ops : list Admin.Op) :
  keyedByOwner (Admin.run ops).
Proof.
  unfold Admin.run.
  induction ops as [|op ops IH] using rev_ind.
  - intros key c. simpl. by rewrite lookup_empty.
  - rewrite foldl_snoc. by apply apply_keyedByOwner.
Qed.



(** X16: the tenant's [default] campaign is taken without a look at its
    status.  Once a campaign with id [default] is in the snapshot, a request
    of its tenant for which the scan finds nothing is sent to its
    destination, whether the path names no campaign or names [default]
    itself, and whatever the status of the campaign is. *)
Theorem X16_default_campaign_used_whatever_its_status {uni : GoStrings.Unicode} {lib : URL.Lib}
    (re : Routing.RoutingEngine) (order : list (string * Routing.Campaign))
    (params : URL.Values) (d : Routing.Campaign) :
  Routing.CampaignID d = "default" →
  Routing.findBestMatch order (Routing.OrganizationID d) params = None →
  Routing.GetDestination (fst (Admin.CreateCampaign re d true)) order
      (Routing.OrganizationID d) "" params = Routing.buildDestinationURL d params ∧
  Routing.GetDestination (fst (Admin.CreateCampaign re d true)) order
      (Routing.OrganizationID d) "default" params = Routing.buildDestinationURL d params.
Proof.
  intros Hid Hscan.
  assert (Hget : Routing.getCampaign (fst (Admin.CreateCampaign re d true))
                   (Routing.campaignKey (Routing.OrganizationID d) "default") = Some d).
  { unfold Routing.getCampaign. simpl. rewrite <- Hid. apply lookup_insert_eq. }
  unfold Routing.GetDestination, Routing.activeCampaign. split.
  - simpl String.eqb. cbv iota. by rewrite Hscan, Hget.
  - change (String.eqb "default" "") with false. cbv iota. rewrite Hget.
    destruct (String.eqb (Routing.Status d) "active"); [done |].
    by rewrite Hscan.
Qed.

Lemma X16_default_campaign_used_whatever_its_status_witness :
  Routing.GetDestination
      (fst (Admin.CreateCampaign Samples.snapshotS1 SamplesDefault.paused true))
      SamplesDefault.order "org_A" "" (URL.ParseQuery "click_id=x")
    = Routing.buildDestinationURL SamplesDefault.paused (URL.ParseQuery "click_id=x") ∧
  Routing.GetDestination
      (fst (Admin.CreateCampaign Samples.snapshotS1 SamplesDefault.paused true))
      SamplesDefault.order "org_A" "default" (URL.ParseQuery "click_id=x")
    = Routing.buildDestinationURL SamplesDefault.paused (URL.ParseQuery "click_id=x").
Proof.
  apply (X16_default_campaign_used_whatever_its_status Samples.snapshotS1
           SamplesDefault.order (URL.ParseQuery "click_id=x") SamplesDefault.paused).
  - reflexivity.
  - vm_compute. reflexivity.
Defined.

(** ** Tenants without a slash in their id *)

Lemma snapshotS1_entries (key : string) (c : Routing.Campaign) :
  Routing.campaigns Samples.snapshotS1 !! key = Some c → c = Samples.summer.
Proof.
  intros Hget. apply loadCampaigns_lookup in Hget as [Hin _].
  apply list_elem_of_singleton in Hin. by injection Hin.
Qed.

(** Whatever the routing decision selects is an entry of the snapshot. *)
Lemma decision_inSnapshot {uni : GoStrings.Unicode} (re : Routing.RoutingEngine)
    (order : list (string * Routing.Campaign)) (org cid : string) (params : URL.Values)
    (c : Routing.Campaign) :
  Routing.rangeOrder re order →
  Routing.selected (Routing.decision re order org cid params) = Some c →
  inSnapshot re c.
Proof.
  intros Horder.
  assert (Hrest : ∀ d,
    Routing.selected
      match Routing.findBestMatch order org params with
      | Some campaign => Routing.BestMatch campaign
      | None =>
          match Routing.getCampaign re (Routing.campaignKey org "default") with
          | Some defaultCampaign => Routing.Default defaultCampaign
          | None => Routing.Fallback
          end
      end = Some d → inSnapshot re d).
  { intros d.
    pose proof (findBestMatch_characterised order org params) as Hbest.
    destruct (Routing.findBestMatch order org params) as [b|].
    - simpl. intros [= <-]. destruct Hbest as (_ & l1 & k & l2 & Hsplit & _).
      exists k. apply elem_of_map_to_list. rewrite <- Horder, Hsplit. apply elem_of_middle.
    - destruct (Routing.getCampaign re (Routing.campaignKey org "default")) as [x|] eqn:Hd;
        simpl; [| done].
      intros [= <-]. by eexists. }
  unfold Routing.decision, Routing.activeCampaign.
  destruct (String.eqb cid ""); [apply Hrest |].
  destruct (Routing.getCampaign re (Routing.campaignKey org cid)) as [x|] eqn:Hx;
    [| apply Hrest].
  destruct (String.eqb (Routing.Status x) "active"); [| apply Hrest].
  simpl. intros [= <-]. by eexists.
Qed.

(** X17: for a snapshot keyed by owner in which no tenant id holds a [/],
    the asking tenant's included, the destination of a request is either the
    fixed fallback or built from an entry of the snapshot that belongs to
    the asking tenant, in every order in which the map may be visited. *)
Theorem X17_destination_built_from_own_campaign {uni : GoStrings.Unicode} {lib : URL.Lib}
    (re : Routing.RoutingEngine) (order : list (string * Routing.Campaign))
    (org cid : string) (params : URL.Values) :
  keyedByOwner re →
  Routing.rangeOrder re order →
  noSlash org = true →
  (∀ key c, Routing.campaigns re !! key = Some c →
            noSlash (Routing.OrganizationID c) = true) →
  Routing.GetDestination re order org cid params = Routing.ultimateFallback ∨
  ∃ c, inSnapshot re c ∧ Routing.OrganizationID c = org ∧
       Routing.GetDestination re order org cid params = Routing.buildDestinationURL c params.
Proof.
  intros Hkeyed Horder Horg Hids.
  rewrite GetDestination_decision.
  destruct (Routing.selected (Routing.decision re order org cid params)) as [c|] eqn:Hsel.
  - right. exists c. split_and!; [| | done].
    + by apply (decision_inSnapshot re order org cid params).
    + by apply (decision_same_tenant re order org Hkeyed Horder Horg Hids cid params).
  - by left.
Qed.

Lemma X17_destination_built_from_own_campaign_witness :
  Routing.GetDestination Samples.snapshotS1 SamplesNoMatch.order "org_A" "summer"
      (HTTP.Query Samples.requestS1) = Routing.ultimateFallback ∨
  ∃ c, inSnapshot Samples.snapshotS1 c ∧ Routing.OrganizationID c = "org_A" ∧
       Routing.GetDestination Samples.snapshotS1 SamplesNoMatch.order "org_A" "summer"
         (HTTP.Query Samples.requestS1)
       = Routing.buildDestinationURL c (HTTP.Query Samples.requestS1).
Proof.
  apply (X17_destination_built_from_own_campaign Samples.snapshotS1 SamplesNoMatch.order
           "org_A" "summer" (HTTP.Query Samples.requestS1)).
  - apply loadCampaigns_keyedByOwner.
  - unfold Routing.rangeOrder. vm_compute. reflexivity.
  - reflexivity.
  - intros key c Hget. apply snapshotS1_entries in Hget as ->. reflexivity.
Defined.

(** X18: under the same conditions [GetOrganizationCampaigns] lists exactly
    the campaigns of the snapshot whose tenant id is the one asked for,
    active or not. *)
Theorem X18_listing_is_the_tenants_campaigns
    (re : Routing.RoutingEngine) (order : list (string * Routing.Campaign))
    (org : string) (c : Routing.Campaign) :
  keyedByOwner re →
  Routing.rangeOrder re order →
  noSlash org = true →
  (∀ key c', Routing.campaigns re !! key = Some c' →
             noSlash (Routing.OrganizationID c') = true) →
  c ∈ Admin.GetOrganizationCampaigns order org ↔
  ∃ key, Routing.campaigns re !! key = Some c ∧ Routing.OrganizationID c = org.
Proof.
  intros Hkeyed Horder Horg Hids. unfold Admin.GetOrganizationCampaigns.
  rewrite list_elem_of_fmap. split.
  - intros ([key c'] & -> & Hin). simpl.
    apply list_elem_of_In, filter_In in Hin as [Hin Hpre]. simpl in Hpre.
    apply list_elem_of_In in Hin. rewrite Horder in Hin.
    apply elem_of_map_to_list in Hin.
    exists key. split; [done |].
    by apply (prefixed_key_same_tenant re org Hkeyed Horg Hids key c').
  - intros (key & Hget & Howner). exists (key, c). split; [done |].
    apply list_elem_of_In, filter_In. split.
    + apply list_elem_of_In. rewrite Horder. by apply elem_of_map_to_list.
    + simpl. rewrite (Hkeyed _ _ Hget), Howner. apply campaignKey_prefix.
Qed.

Lemma X18_listing_is_the_tenants_campaigns_witness :
  Samples.summer ∈ Admin.GetOrganizationCampaigns SamplesNoMatch.order "org_A" ↔
  ∃ key, Routing.campaigns Samples.snapshotS1 !! key = Some Samples.summer ∧
         Routing.OrganizationID Samples.summer = "org_A".
Proof.
  apply (X18_listing_is_the_tenants_campaigns Samples.snapshotS1 SamplesNoMatch.order
           "org_A" Samples.summer).
  - apply loadCampaigns_keyedByOwner.
  - unfold Routing.rangeOrder. vm_compute. reflexivity.
  - reflexivity.
  - intros key c Hget. apply snapshotS1_entries in Hget as ->. reflexivity.
Defined.

(** ** The dedup claim *)

Lemma isDuplicate_key (env : Ingestion.Env) (org click : string) (w : Ingestion.World) :
  click ≠ "" → Ingestion.redisUp env = true →
  Ingestion.isDuplicate env org click w =
  match Ingestion.redis w !! dedupKey org click with
  | Some expiry =>
      if Ingestion.now env <? expiry then (true, w)
      else (false, {| Ingestion.redis := <[dedupKey org click :=
                                             Ingestion.now env + Ingestion.dedupTTL]>
                                           (Ingestion.redis w);
                      Ingestion.topic := Ingestion.topic w;
                      Ingestion.logs := Ingestion.logs w |})
  | None => (false, {| Ingestion.redis := <[dedupKey org click :=
                                              Ingestion.now env + Ingestion.dedupTTL]>
                                            (Ingestion.redis w);
                       Ingestion.topic := Ingestion.topic w;
                       Ingestion.logs := Ingestion.logs w |})
  end.
Proof.
  intros Hclick Hup. unfold Ingestion.isDuplicate, dedupKey.
  destruct (String.eqb_spec click "") as [?|_]; [done |]. by rewrite Hup.
Qed.

(** X19: the first claim of a click id whose key is free is fresh.  A
    second claim of the same tenant and click id is a duplicate as long as
    less than five seconds have passed since the first, and it neither
    changes the store nor prolongs the window; from five seconds on the click
    is fresh again. *)
Theorem X19_duplicate_within_five_seconds
    (env1 env2 : Ingestion.Env) (org click : string) (w : Ingestion.World) :
  click ≠ "" →
  Ingestion.redisUp env1 = true →
  Ingestion.redisUp env2 = true →
  Ingestion.redis w !! dedupKey org click = None →
  fst (Ingestion.isDuplicate env1 org click w) = false ∧
  (Ingestion.now env2 < Ingestion.now env1 + 5000000000 →
   Ingestion.isDuplicate env2 org click (snd (Ingestion.isDuplicate env1 org click w))
   = (true, snd (Ingestion.isDuplicate env1 org click w))) ∧
  (Ingestion.now env1 + 5000000000 ≤ Ingestion.now env2 →
   fst (Ingestion.isDuplicate env2 org click (snd (Ingestion.isDuplicate env1 org click w)))
   = false).
Proof.
  intros Hclick Hup1 Hup2 Hfree.
  rewrite (isDuplicate_key env1 org click w Hclick Hup1), Hfree. simpl.
  split; [done |].
  rewrite (isDuplicate_key env2 org click _ Hclick Hup2). simpl.
  rewrite lookup_insert_eq. unfold Ingestion.dedupTTL.
  split; intros Htime.
  - destruct (Z.ltb_spec (Ingestion.now env2) (Ingestion.now env1 + 5 * 1000000000));
      [done | lia].
  - destruct (Z.ltb_spec (Ingestion.now env2) (Ingestion.now env1 + 5 * 1000000000));
      [lia | done].
Qed.

Lemma X19_duplicate_within_five_seconds_witness :
  fst (Ingestion.isDuplicate Samples.env0 "org_A" "dup1" Samples.world0) = false ∧
  (Ingestion.now SamplesDedup.inside < Ingestion.now Samples.env0 + 5000000000 →
   Ingestion.isDuplicate SamplesDedup.inside "org_A" "dup1"
     (snd (Ingestion.isDuplicate Samples.env0 "org_A" "dup1" Samples.world0))
   = (true, snd (Ingestion.isDuplicate Samples.env0 "org_A" "dup1" Samples.world0))) ∧
  (Ingestion.now Samples.env0 + 5000000000 ≤ Ingestion.now SamplesDedup.inside →
   fst (Ingestion.isDuplicate SamplesDedup.inside "org_A" "dup1"
          (snd (Ingestion.isDuplicate Samples.env0 "org_A" "dup1" Samples.world0)))
   = false).
Proof.
  apply (X19_duplicate_within_five_seconds Samples.env0 SamplesDedup.inside
           "org_A" "dup1" Samples.world0).
  - discriminate.
  - reflexivity.
  - reflexivity.
  - vm_compute. reflexivity.
Defined.

(** X20: with Redis not answering, [/in] goes on as for a fresh click: the
    response is the one it would be with Redis answering, a 302; the keys in
    Redis stay as they were; and when the body marshals and the topic
    accepts the message, the event is published without fraud flag,
    whatever the store held for the click. *)
Theorem X20_dedup_outage_degrades_open {uni : GoStrings.Unicode} {lib : URL.Lib}
    (re : Routing.RoutingEngine) (order : list (string * Routing.Campaign))
    (env env' : Ingestion.Env) (r : HTTP.Request) (w w' : Ingestion.World)
    (orgCtx : Auth.OrganizationContext) :
  HTTP.Context r = Auth.OrgPtr (Some orgCtx) →
  Ingestion.redisUp env = false →
  Ingestion.redisUp env' = true →
  fst (Ingestion.HandleTraffic re order env r w)
    = fst (Ingestion.HandleTraffic re order env' r w') ∧
  respondedWith 302 (fst (Ingestion.HandleTraffic re order env r w)) ∧
  Ingestion.redis (snd (Ingestion.HandleTraffic re order env r w)) = Ingestion.redis w ∧
  (Ingestion.publishOk env = true → bodyMarshals env r →
   ∃ m, Ingestion.topic (snd (Ingestion.HandleTraffic re order env r w))
          = Ingestion.topic w ++ [m] ∧
        Ingestion.FraudFlags (Ingestion.Data m) = []).
Proof.
  intros Hctx Hdown Hup.
  assert (Hdup : ∀ org click w0,
            Ingestion.isDuplicate env org click w0 = (false, w0) ∨
            ∃ l, Ingestion.isDuplicate env org click w0 = (false, Ingestion.logLine l w0)).
  { intros org click w0. unfold Ingestion.isDuplicate. rewrite Hdown. simpl.
    destruct (String.eqb click ""); [by left | right; by eexists]. }
  split_and!.
  - by rewrite (HandleTraffic_redirects re order env r w orgCtx Hctx),
               (HandleTraffic_redirects re order env' r w' orgCtx Hctx).
  - rewrite (HandleTraffic_redirects re order env r w orgCtx Hctx).
    eexists. split; reflexivity.
  - unfold Ingestion.HandleTraffic. rewrite Hctx. simpl.
    pose proof (readBody_redis r w) as Hrb.
    destruct (Ingestion.readBody r w) as [body w1]. simpl in Hrb.
    match goal with
    | |- context [Ingestion.isDuplicate env ?o ?c w1] =>
        destruct (Hdup o c w1) as [Hd|[l Hd]]; rewrite Hd
    end; simpl; unfold Ingestion.publish;
      destruct (Ingestion.marshalFails env _); simpl;
      rewrite ?warnDestination_redis; try done;
      destruct (Ingestion.publishOk env); simpl; rewrite ?warnDestination_redis; done.
  - intros Hok Hjson.
    destruct (HandleTraffic_published_flags re order env r w orgCtx Hctx Hok Hjson)
      as (m & Htopic & Hflags).
    exists m. split; [exact Htopic |]. rewrite Hflags.
    destruct (Ingestion.marshalFirst env); [done |].
    destruct (Hdup (Auth.OrganizationID orgCtx) (Ingestion.extractClickID env r)
                (snd (Ingestion.readBody r w))) as [Hd|[l Hd]]; by rewrite Hd.
Qed.

Lemma X20_dedup_outage_degrades_open_witness :
  fst (Ingestion.HandleTraffic SamplesDuplicate.snapshot SamplesDuplicate.order
         SamplesDedup.redisDown SamplesDuplicate.request (snd SamplesDuplicate.afterFirst))
    = fst (Ingestion.HandleTraffic SamplesDuplicate.snapshot SamplesDuplicate.order
             SamplesDedup.inside SamplesDuplicate.request (snd SamplesDuplicate.afterFirst)) ∧
  respondedWith 302
    (fst (Ingestion.HandleTraffic SamplesDuplicate.snapshot SamplesDuplicate.order
            SamplesDedup.redisDown SamplesDuplicate.request
            (snd SamplesDuplicate.afterFirst))) ∧
  Ingestion.redis
    (snd (Ingestion.HandleTraffic SamplesDuplicate.snapshot SamplesDuplicate.order
            SamplesDedup.redisDown SamplesDuplicate.request
            (snd SamplesDuplicate.afterFirst)))
    = Ingestion.redis (snd SamplesDuplicate.afterFirst) ∧
  ∃ m, Ingestion.topic
         (snd (Ingestion.HandleTraffic SamplesDuplicate.snapshot SamplesDuplicate.order
                 SamplesDedup.redisDown SamplesDuplicate.request
                 (snd SamplesDuplicate.afterFirst)))
         = Ingestion.topic (snd SamplesDuplicate.afterFirst) ++ [m] ∧
       Ingestion.FraudFlags (Ingestion.Data m) = [].
Proof.
  pose proof (X20_dedup_outage_degrades_open SamplesDuplicate.snapshot
                SamplesDuplicate.order SamplesDedup.redisDown SamplesDedup.inside
                SamplesDuplicate.request (snd SamplesDuplicate.afterFirst)
                (snd SamplesDuplicate.afterFirst) Samples.org_A eq_refl eq_refl eq_refl)
    as (Hsame & H302 & Hredis & Hevent).
  split_and!; [exact Hsame | exact H302 | exact Hredis |].
  apply Hevent; [reflexivity | left; reflexivity].
Defined.

Lemma dedupKey_tenant (a b x y : string) :
  noByte ":" a = true → noByte ":" b = true →
  dedupKey a x = dedupKey b y → a = b.
Proof.
  unfold dedupKey. intros Ha Hb Heq.
  assert (Hcut : a +:+ ":" +:+ x = b +:+ ":" +:+ y).
  { change ("click:" +:+ a +:+ ":" +:+ x) with
      (String "c" (String "l" (String "i" (String "c" (String "k" (String ":"
         (a +:+ ":" +:+ x))))))) in Heq.
    change ("click:" +:+ b +:+ ":" +:+ y) with
      (String "c" (String "l" (String "i" (String "c" (String "k" (String ":"
         (b +:+ ":" +:+ y))))))) in Heq.
    by injection Heq. }
  clear Heq. revert b Hb Hcut.
  induction a as [|ca a IH]; intros [|cb b] Hb Hcut.
  - reflexivity.
  - rewrite append_cons in Hcut. change ("" +:+ ":" +:+ x) with (String ":" x) in Hcut.
    injection Hcut as <- _. cbn [noByte] in Hb. by rewrite Ascii.eqb_refl in Hb.
  - rewrite append_cons in Hcut. change ("" +:+ ":" +:+ y) with (String ":" y) in Hcut.
    injection Hcut as -> _. cbn [noByte] in Ha. by rewrite Ascii.eqb_refl in Ha.
  - rewrite !append_cons in Hcut. injection Hcut as -> Hcut.
    cbn [noByte] in Ha, Hb.
    apply andb_prop in Ha as [_ Ha]. apply andb_prop in Hb as [_ Hb].
    f_equal. by apply IH.
Qed.

(** X21: the claims of one tenant do not touch those of another, as long
    as neither tenant id holds a [:]: whatever a tenant has claimed, the
    verdict for a click of another tenant is the one it would have been
    without. *)
Theorem X21_dedup_is_scoped_to_the_tenant
    (env1 env2 : Ingestion.Env) (org1 org2 click1 click2 : string) (w : Ingestion.World) :
  noByte ":" org1 = true →
  noByte ":" org2 = true →
  org1 ≠ org2 →
  fst (Ingestion.isDuplicate env2 org2 click2
         (snd (Ingestion.isDuplicate env1 org1 click1 w)))
  = fst (Ingestion.isDuplicate env2 org2 click2 w).
Proof.
  intros H1 H2 Hne.
  assert (Hkeys : dedupKey org1 click1 ≠ dedupKey org2 click2).
  { intros Heq. apply Hne. by apply (dedupKey_tenant org1 org2 click1 click2). }
  assert (Hredis : Ingestion.redis (snd (Ingestion.isDuplicate env1 org1 click1 w))
                     !! dedupKey org2 click2
                   = Ingestion.redis w !! dedupKey org2 click2).
  { unfold Ingestion.isDuplicate. fold (dedupKey org1 click1).
    destruct (String.eqb click1 ""); [done |].
    destruct (Ingestion.redisUp env1); simpl; [| done].
    destruct (Ingestion.redis w !! dedupKey org1 click1) as [e|].
    - destruct (Ingestion.now env1 <? e); simpl; [done |]. by rewrite lookup_insert_ne.
    - simpl. by rewrite lookup_insert_ne. }
  unfold Ingestion.isDuplicate at 1 3. fold (dedupKey org2 click2).
  destruct (String.eqb click2 ""); [done |].
  destruct (Ingestion.redisUp env2); simpl; [| done].
  rewrite Hredis.
  destruct (Ingestion.redis w !! dedupKey org2 click2) as [e|]; [| done].
  by destruct (Ingestion.now env2 <? e).
Qed.

Lemma X21_dedup_is_scoped_to_the_tenant_witness :
  fst (Ingestion.isDuplicate SamplesDedup.inside "org_B" "dup1"
         (snd (Ingestion.isDuplicate Samples.env0 "org_A" "dup1" Samples.world0)))
  = fst (Ingestion.isDuplicate SamplesDedup.inside "org_B" "dup1" Samples.world0).
Proof.
  apply (X21_dedup_is_scoped_to_the_tenant Samples.env0 SamplesDedup.inside
           "org_A" "org_B" "dup1" "dup1" Samples.world0).
  - reflexivity.
  - reflexivity.
  - discriminate.
Defined.

(** ** Click ids *)

(** X22: [extractClickID] returns the first non-empty value among
    [click_id], [clickid], [cid], [transaction_id] and [tid], in this order,
    and mints a fresh id only when all five are missing or empty; the click
    id of an event is empty only if the minted id is. *)
Theorem X22_click_id_is_first_alias (env : Ingestion.Env) (r : HTTP.Request) :
  (URL.Get (HTTP.Query r) "click_id" ≠ "" →
   Ingestion.extractClickID env r = URL.Get (HTTP.Query r) "click_id") ∧
  (URL.Get (HTTP.Query r) "click_id" = "" → URL.Get (HTTP.Query r) "clickid" ≠ "" →
   Ingestion.extractClickID env r = URL.Get (HTTP.Query r) "clickid") ∧
  (URL.Get (HTTP.Query r) "click_id" = "" → URL.Get (HTTP.Query r) "clickid" = "" →
   URL.Get (HTTP.Query r) "cid" ≠ "" →
   Ingestion.extractClickID env r = URL.Get (HTTP.Query r) "cid") ∧
  (URL.Get (HTTP.Query r) "click_id" = "" → URL.Get (HTTP.Query r) "clickid" = "" →
   URL.Get (HTTP.Query r) "cid" = "" → URL.Get (HTTP.Query r) "transaction_id" ≠ "" →
   Ingestion.extractClickID env r = URL.Get (HTTP.Query r) "transaction_id") ∧
  (URL.Get (HTTP.Query r) "click_id" = "" → URL.Get (HTTP.Query r) "clickid" = "" →
   URL.Get (HTTP.Query r) "cid" = "" → URL.Get (HTTP.Query r) "transaction_id" = "" →
   URL.Get (HTTP.Query r) "tid" ≠ "" →
   Ingestion.extractClickID env r = URL.Get (HTTP.Query r) "tid") ∧
  (Forall (λ alias, URL.Get (HTTP.Query r) alias = "")
          ["click_id"; "clickid"; "cid"; "transaction_id"; "tid"] →
   Ingestion.extractClickID env r = Ingestion.clickUUID env) ∧
  (Ingestion.clickUUID env ≠ "" → Ingestion.extractClickID env r ≠ "").
Proof.
  unfold Ingestion.extractClickID. cbn [List.find].
  destruct (String.eqb_spec (URL.Get (HTTP.Query r) "click_id") "") as [H1|H1]; simpl.
  2: { split_and!; try done. intros Hall. by apply Forall_cons_1 in Hall as [? _]. }
  destruct (String.eqb_spec (URL.Get (HTTP.Query r) "clickid") "") as [H2|H2]; simpl.
  2: { split_and!; try done. intros Hall.
       apply Forall_cons_1 in Hall as [_ Hall]. by apply Forall_cons_1 in Hall as [? _]. }
  destruct (String.eqb_spec (URL.Get (HTTP.Query r) "cid") "") as [H3|H3]; simpl.
  2: { split_and!; try done. intros Hall.
       do 2 apply Forall_cons_1 in Hall as [_ Hall]. by apply Forall_cons_1 in Hall as [? _]. }
  destruct (String.eqb_spec (URL.Get (HTTP.Query r) "transaction_id") "") as [H4|H4]; simpl.
  2: { split_and!; try done. intros Hall.
       do 3 apply Forall_cons_1 in Hall as [_ Hall]. by apply Forall_cons_1 in Hall as [? _]. }
  destruct (String.eqb_spec (URL.Get (HTTP.Query r) "tid") "") as [H5|H5]; simpl.
  2: { split_and!; try done. intros Hall.
       do 4 apply Forall_cons_1 in Hall as [_ Hall]. by apply Forall_cons_1 in Hall as [? _]. }
  split_and!; done.
Qed.

Lemma X22_click_id_is_first_alias_witness :
  Ingestion.extractClickID Samples.env0 SamplesDedup.aliasPostback
    = URL.Get (HTTP.Query SamplesDedup.aliasPostback) "clickid" ∧
  Ingestion.extractClickID Samples.env0 SamplesDedup.tidOnly
    = URL.Get (HTTP.Query SamplesDedup.tidOnly) "tid".
Proof.
  destruct (X22_click_id_is_first_alias Samples.env0 SamplesDedup.aliasPostback)
    as (_ & Hclickid & _).
  destruct (X22_click_id_is_first_alias Samples.env0 SamplesDedup.tidOnly)
    as (_ & _ & _ & _ & Htid & _).
  split.
  - apply Hclickid; [vm_compute; reflexivity | vm_compute; discriminate].
  - apply Htid; try (vm_compute; reflexivity). vm_compute. discriminate.
Defined.

(** X23: [/postback] reads the click id from [click_id] alone: when that
    parameter is missing or empty the answer is 400 and nothing is published
    or logged, also when the request carries the click id under an alias that
    [/in] accepts, and also when the tenant context is the nil pointer. *)
Theorem X23_postback_needs_click_id {uni : GoStrings.Unicode}
    (env : Ingestion.Env) (r : HTTP.Request) (w : Ingestion.World) :
  HTTP.Context r ≠ Auth.NoValue →
  URL.Get (HTTP.Query r) "click_id" = "" →
  Ingestion.HandlePostback env r w
    = (Ingestion.Responded (HTTP.Error "Missing click_id parameter" 400), w) ∧
  (URL.Get (HTTP.Query r) "clickid" ≠ "" →
   Ingestion.extractClickID env r = URL.Get (HTTP.Query r) "clickid").
Proof.
  intros Hctx Hclick. split.
  - unfold Ingestion.HandlePostback.
    destruct (HTTP.Context r) as [|p]; [done |]. simpl. by rewrite Hclick.
  - intros Halias. unfold Ingestion.extractClickID. cbn [List.find].
    rewrite Hclick. simpl.
    by destruct (String.eqb_spec (URL.Get (HTTP.Query r) "clickid") "").
Qed.

Lemma X23_postback_needs_click_id_witness :
  Ingestion.HandlePostback Samples.env0 SamplesDedup.aliasPostback Samples.world0
    = (Ingestion.Responded (HTTP.Error "Missing click_id parameter" 400), Samples.world0) ∧
  Ingestion.extractClickID Samples.env0 SamplesDedup.aliasPostback
    = URL.Get (HTTP.Query SamplesDedup.aliasPostback) "clickid".
Proof.
  pose proof (X23_postback_needs_click_id Samples.env0 SamplesDedup.aliasPostback
                Samples.world0) as H.
  assert (Hctx : HTTP.Context SamplesDedup.aliasPostback ≠ Auth.NoValue) by discriminate.
  assert (Hclick : URL.Get (HTTP.Query SamplesDedup.aliasPostback) "click_id" = "")
    by (vm_compute; reflexivity).
  destruct (H Hctx Hclick) as [H400 Halias].
  split; [exact H400 |]. apply Halias. vm_compute. discriminate.
Defined.

(** ** The client address *)

Lemma LastIndex_byte_none (b : ascii) (s : string) :
  noByte b s = true → GoStrings.LastIndex s (String b "") = None.
Proof.
  induction s as [|c s IH]; [done |]. cbn [noByte GoStrings.LastIndex String.prefix].
  intros [Hc H]%andb_prop. rewrite (IH H).
  destruct (ascii_dec b c) as [->|_]; [| done].
  by rewrite Ascii.eqb_refl in Hc.
Qed.

Lemma LastIndex_host_port (host port : string) :
  noByte ":" port = true →
  GoStrings.LastIndex (host +:+ ":" +:+ port) ":" = Some (String.length host).
Proof.
  intros Hport. induction host as [|c host IH].
  - change ("" +:+ ":" +:+ port) with (String ":" port).
    cbn [GoStrings.LastIndex String.prefix String.length].
    rewrite (LastIndex_byte_none ":" port Hport).
    destruct (ascii_dec ":" ":"); [| done]. by destruct port.
  - rewrite append_cons. cbn [GoStrings.LastIndex String.length]. by rewrite IH.
Qed.

Lemma substring_prefix_append (a b : string) :
  String.substring 0 (String.length a) (a +:+ b) = a.
Proof.
  induction a as [|c a IH]; [by destruct b |].
  rewrite append_cons. cbn [String.length String.substring]. by rewrite IH.
Qed.

Lemma noByte_Index (b : ascii) (s : string) :
  noByte b s = true → GoStrings.Index s (String b "") = None.
Proof.
  induction s as [|c s IH]; [done |]. cbn [noByte GoStrings.Index String.prefix].
  intros [Hc Hs]%andb_prop. rewrite (IH Hs).
  destruct (ascii_dec b c) as [->|_]; [| done]. by rewrite Ascii.eqb_refl in Hc.
Qed.

Lemma Index_at (b : ascii) (first rest : string) :
  noByte b first = true →
  GoStrings.Index (first +:+ String b rest) (String b "") = Some (String.length first).
Proof.
  induction first as [|c first IH]; intros Hfirst.
  - change ("" +:+ String b rest) with (String b rest).
    cbn [GoStrings.Index String.prefix]. destruct (ascii_dec b b); [| done]. by destruct rest.
  - rewrite append_cons. cbn [GoStrings.Index String.prefix noByte String.length] in *.
    apply andb_prop in Hfirst as [Hc Hfirst].
    destruct (ascii_dec b c) as [->|_]; [by rewrite Ascii.eqb_refl in Hc |].
    by rewrite (IH Hfirst).
Qed.

(** X24: the client address.  [X-Real-IP] is read under its canonical name
    [X-Real-Ip].  When [X-Forwarded-For] has a value, the address is what
    stands before its first comma, without the white space around it, or
    the whole value, as it is, when it has no comma; [X-Real-IP] and the
    peer address are not looked at.  Without it, the address is the value of
    [X-Real-IP] when there is one; with neither header, it is the peer
    address without its port, the text before the last colon, or the whole
    peer address when it has no colon. *)
Theorem X24_client_address {uni : GoStrings.Unicode} (r : HTTP.Request) :
  HTTP.HeaderGet (HTTP.Header r) "X-Real-IP" = URL.Get (HTTP.Header r) "X-Real-Ip" ∧
  (∀ first rest,
     HTTP.HeaderGet (HTTP.Header r) "X-Forwarded-For" = first +:+ "," +:+ rest →
     noByte "," first = true →
     Ingestion.getRealIP r = GoStrings.TrimSpace first) ∧
  (HTTP.HeaderGet (HTTP.Header r) "X-Forwarded-For" ≠ "" →
   noByte "," (HTTP.HeaderGet (HTTP.Header r) "X-Forwarded-For") = true →
   Ingestion.getRealIP r = HTTP.HeaderGet (HTTP.Header r) "X-Forwarded-For") ∧
  (HTTP.HeaderGet (HTTP.Header r) "X-Forwarded-For" = "" →
   HTTP.HeaderGet (HTTP.Header r) "X-Real-IP" ≠ "" →
   Ingestion.getRealIP r = HTTP.HeaderGet (HTTP.Header r) "X-Real-IP") ∧
  (HTTP.HeaderGet (HTTP.Header r) "X-Forwarded-For" = "" →
   HTTP.HeaderGet (HTTP.Header r) "X-Real-IP" = "" →
   (∀ host port, HTTP.RemoteAddr r = host +:+ ":" +:+ port → noByte ":" port = true →
                 Ingestion.getRealIP r = host) ∧
   (noByte ":" (HTTP.RemoteAddr r) = true → Ingestion.getRealIP r = HTTP.RemoteAddr r)).
Proof.
  split_and!.
  - reflexivity.
  - intros first rest Hxff Hfirst. unfold Ingestion.getRealIP. rewrite Hxff.
    change (first +:+ "," +:+ rest) with (first +:+ String "," rest).
    rewrite (Index_at "," first rest Hfirst), substring_prefix_append.
    by destruct first.
  - intros Hne Hnone. unfold Ingestion.getRealIP.
    destruct (String.eqb_spec (HTTP.HeaderGet (HTTP.Header r) "X-Forwarded-For") "")
      as [?|_]; [done |]. simpl.
    by rewrite (noByte_Index "," _ Hnone).
  - intros Hxff Hxri. unfold Ingestion.getRealIP. rewrite Hxff. simpl.
    by destruct (String.eqb_spec (HTTP.HeaderGet (HTTP.Header r) "X-Real-IP") "").
  - intros Hxff Hxri. unfold Ingestion.getRealIP. rewrite Hxff, Hxri. simpl. split.
    + intros host port Haddr Hport. rewrite Haddr.
      rewrite (LastIndex_host_port host port Hport). apply substring_prefix_append.
    + intros Hnone. by rewrite (LastIndex_byte_none ":" _ Hnone).
Qed.

Lemma X24_client_address_witness :
  Ingestion.getRealIP SamplesAddress.proxied = "198.51.100.42" ∧
  Ingestion.getRealIP SamplesAddress.realIP = "198.51.100.7" ∧
  Ingestion.getRealIP SamplesAddress.direct = "[2001:db8::1]".
Proof.
  destruct (X24_client_address SamplesAddress.proxied) as (_ & Hfirst & _).
  destruct (X24_client_address SamplesAddress.realIP) as (_ & _ & _ & Hreal & _).
  destruct (X24_client_address SamplesAddress.direct) as (_ & _ & _ & _ & Hpeer).
  split_and!.
  - transitivity (GoStrings.TrimSpace "198.51.100.42"); [| reflexivity].
    apply (Hfirst "198.51.100.42" " 10.0.0.1"); vm_compute; reflexivity.
  - transitivity (HTTP.HeaderGet (HTTP.Header SamplesAddress.realIP) "X-Real-IP");
      [| reflexivity].
    apply Hreal; [vm_compute; reflexivity | vm_compute; discriminate].
  - apply (proj1 (Hpeer eq_refl eq_refl) "[2001:db8::1]" "52000"); vm_compute; reflexivity.
Defined.

(** ** Captured headers *)

(** X25: every captured header is the first value of a request header,
    under that header's name in lower case; headers without a value are left
    out.  Where no two header names of the request differ in case only, each
    header that has a value is found under its lower-cased name. *)
Theorem X25_captured_headers {uni : GoStrings.Unicode}
    (headers : gmap string (list string)) :
  (∀ name v, Ingestion.flattenHeaders headers !! name = Some v →
             ∃ key, GoStrings.ToLower key = name ∧ headers !! key ≫= head = Some v) ∧
  ((∀ k1 k2, is_Some (headers !! k1) → is_Some (headers !! k2) →
             GoStrings.ToLower k1 = GoStrings.ToLower k2 → k1 = k2) →
   ∀ key, is_Some (headers !! key) →
          Ingestion.flattenHeaders headers !! GoStrings.ToLower key = headers !! key ≫= head).
Proof.
  unfold Ingestion.flattenHeaders.
  apply (map_fold_weak_ind
    (λ (flat : gmap string string) (m : gmap string (list string)),
       (∀ name v, flat !! name = Some v →
                  ∃ key, GoStrings.ToLower key = name ∧ m !! key ≫= head = Some v) ∧
       ((∀ k1 k2, is_Some (m !! k1) → is_Some (m !! k2) →
                  GoStrings.ToLower k1 = GoStrings.ToLower k2 → k1 = k2) →
        ∀ key, is_Some (m !! key) → flat !! GoStrings.ToLower key = m !! key ≫= head))).
  - split.
    + intros name v. by rewrite lookup_empty.
    + intros _ key [x Hx]. by rewrite lookup_empty in Hx.
  - intros i values m flat Hfresh [IH1 IH2]. split.
    + intros name v Hget.
      assert (Hold : flat !! name = Some v →
                     ∃ key, GoStrings.ToLower key = name ∧
                            <[i:=values]> m !! key ≫= head = Some v).
      { intros Hf. destruct (IH1 name v Hf) as (key & Hk & Hv). exists key.
        split; [done |]. rewrite lookup_insert_ne; [done |].
        intros <-. by rewrite Hfresh in Hv. }
      destruct values as [|x xs]; [by apply Hold |].
      rewrite lookup_insert in Hget. case_decide as Hname; [| by apply Hold].
      injection Hget as <-. exists i. split; [done |]. by rewrite lookup_insert_eq.
    + intros Hinj key Hkey.
      assert (Hinj' : ∀ k1 k2, is_Some (m !! k1) → is_Some (m !! k2) →
                               GoStrings.ToLower k1 = GoStrings.ToLower k2 → k1 = k2).
      { intros k1 k2 [x1 H1] [x2 H2]. apply Hinj.
        - rewrite lookup_insert_ne; [by eexists |]. intros <-. congruence.
        - rewrite lookup_insert_ne; [by eexists |]. intros <-. congruence. }
      destruct (decide (key = i)) as [->|Hne].
      * rewrite lookup_insert_eq. destruct values as [|x xs]; simpl.
        -- destruct (flat !! GoStrings.ToLower i) as [v|] eqn:Hf; [| done].
           destruct (IH1 _ _ Hf) as (k & Hk & Hv).
           assert (k = i); [| subst; by rewrite Hfresh in Hv].
           apply Hinj; [| by rewrite lookup_insert_eq | done].
           rewrite lookup_insert_ne; [| intros <-; by rewrite Hfresh in Hv].
           destruct (m !! k); [by eexists | done].
        -- by rewrite lookup_insert_eq.
      * rewrite lookup_insert_ne in Hkey by done. rewrite lookup_insert_ne by done.
        assert (Hlow : GoStrings.ToLower i ≠ GoStrings.ToLower key).
        { intros Heq. apply Hne. symmetry. apply Hinj; [by rewrite lookup_insert_eq | | done].
          by rewrite lookup_insert_ne. }
        destruct values as [|x xs]; [by apply IH2 |].
        rewrite lookup_insert_ne by done. by apply IH2.
Qed.

Lemma X25_captured_headers_witness :
  Ingestion.flattenHeaders (HTTP.Header SamplesAddress.direct) !! GoStrings.ToLower "User-Agent"
    = HTTP.Header SamplesAddress.direct !! "User-Agent" ≫= head ∧
  Ingestion.flattenHeaders (HTTP.Header SamplesAddress.direct) !! GoStrings.ToLower "Accept"
    = HTTP.Header SamplesAddress.direct !! "Accept" ≫= head.
Proof.
  pose proof (proj2 (X25_captured_headers (HTTP.Header SamplesAddress.direct))) as H.
  assert (Hinj : ∀ k1 k2,
            is_Some (HTTP.Header SamplesAddress.direct !! k1) →
            is_Some (HTTP.Header SamplesAddress.direct !! k2) →
            GoStrings.ToLower k1 = GoStrings.ToLower k2 → k1 = k2).
  { intros k1 k2 [x1 H1] [x2 H2] Hlow.
    apply elem_of_map_to_list in H1, H2.
    assert (Hl : map_to_list (HTTP.Header SamplesAddress.direct)
                 = [("User-Agent", ["curl/8"]); ("Accept", [])]) by (vm_compute; reflexivity).
    rewrite Hl in H1, H2.
    apply elem_of_cons in H1 as [[= -> _]|H1]; [| apply list_elem_of_singleton in H1 as [= -> _]];
      (apply elem_of_cons in H2 as [[= -> _]|H2];
         [| apply list_elem_of_singleton in H2 as [= -> _]]);
      first [reflexivity | vm_compute in Hlow; discriminate Hlow]. }
  split; apply (H Hinj); vm_compute; by eexists.
Defined.

(** ** What the handlers publish *)

Lemma publish_topic_cases (env : Ingestion.Env) (attrs : list (string * string))
    (e : Ingestion.Event) (w : Ingestion.World) :
  Ingestion.topic (Ingestion.publish env attrs e w) = Ingestion.topic w ∨
  Ingestion.topic (Ingestion.publish env attrs e w)
    = Ingestion.topic w ++ [{| Ingestion.Data := e; Ingestion.Attributes := attrs |}].
Proof.
  unfold Ingestion.publish.
  destruct (Ingestion.marshalFails env e); [by left |].
  destruct (Ingestion.publishOk env); [by right | by left].
Qed.

Lemma appendsOwnEvent_none (env : Ingestion.Env) (r : HTTP.Request) (w w' : Ingestion.World) :
  Ingestion.topic w' = Ingestion.topic w → appendsOwnEvent env r w w'.
Proof.
  intros Heq. exists []. rewrite app_nil_r. split; [done |]. split; [simpl; lia |].
  intros m Hm. by apply elem_of_nil in Hm.
Qed.

Lemma appendsOwnEvent_publish (env : Ingestion.Env) (r : HTTP.Request)
    (w w0 : Ingestion.World) (attrs : list (string * string)) (e : Ingestion.Event)
    (orgCtx : Auth.OrganizationContext) :
  HTTP.Context r = Auth.OrgPtr (Some orgCtx) →
  Ingestion.topic w0 = Ingestion.topic w →
  Ingestion.EventID e = Ingestion.eventUUID env →
  Ingestion.OrganizationID e = Auth.OrganizationID orgCtx →
  (∀ m, Ingestion.Attributes m = attrs →
        attribute m "event_id" = Some (Ingestion.EventID e) ∧
        attribute m "click_id" = Some (Ingestion.ClickID e) ∧
        attribute m "organization_id" = Some (Ingestion.OrganizationID e)) →
  appendsOwnEvent env r w (Ingestion.publish env attrs e w0).
Proof.
  intros Hctx Htop Hid Horg Hattrs.
  destruct (publish_topic_cases env attrs e w0) as [Hsame|Hone].
  - apply appendsOwnEvent_none. congruence.
  - eexists [_]. rewrite Hone, Htop. split; [done |]. split; [simpl; lia |].
    intros m Hm. apply list_elem_of_singleton in Hm as ->.
    destruct (Hattrs {| Ingestion.Data := e; Ingestion.Attributes := attrs |} eq_refl)
      as (Ha1 & Ha2 & Ha3).
    simpl. split_and!; [done | congruence | done |].
    exists orgCtx. split_and!; [done | done | congruence].
Qed.

(** X26: whatever the request and the environment, each handler leaves the
    messages already in the topic in place and adds at most one; a message it
    adds is the event of this request and carries the tenant id of the
    request's context, in the event and in the attribute [organization_id],
    with the ids of the event and of the click as attributes; it is added
    only when there is such a context. *)
Theorem X26_handlers_append_their_own_event {uni : GoStrings.Unicode} {lib : URL.Lib}
    (re : Routing.RoutingEngine) (order : list (string * Routing.Campaign))
    (env : Ingestion.Env) (r : HTTP.Request) (w : Ingestion.World) :
  appendsOwnEvent env r w (snd (Ingestion.HandleTraffic re order env r w)) ∧
  appendsOwnEvent env r w (snd (Ingestion.HandlePixel env r w)) ∧
  appendsOwnEvent env r w (snd (Ingestion.HandlePostback env r w)).
Proof.
  destruct (HTTP.Context r) as [|[orgCtx|]] eqn:Hctx.
  - unfold Ingestion.HandleTraffic, Ingestion.HandlePixel, Ingestion.HandlePostback.
    rewrite Hctx. simpl. split_and!; by apply appendsOwnEvent_none.
  - split_and!.
    + destruct (HandleTraffic_world re order env r w orgCtx Hctx)
        as (e & w2 & org & cid & Hw & Htop & Hid & Horg & _).
      rewrite Hw.
      apply (appendsOwnEvent_publish env r w _ _ e orgCtx); try done.
      intros m Hm. unfold attribute. rewrite Hm. split_and!; reflexivity.
    + unfold Ingestion.HandlePixel. rewrite Hctx. simpl. unfold Ingestion.publishEvent.
      apply (appendsOwnEvent_publish env r w w _ _ orgCtx); try done.
      intros m Hm. unfold attribute. rewrite Hm. split_and!; reflexivity.
    + destruct (String.eqb_spec (URL.Get (HTTP.Query r) "click_id") "") as [Hempty|Hclick].
      * unfold Ingestion.HandlePostback. rewrite Hctx. simpl. rewrite Hempty. simpl.
        by apply appendsOwnEvent_none.
      * destruct (HandlePostback_world env r w orgCtx Hctx Hclick)
          as (_ & e & w1 & Hw & Htop & Hid & Horg & _).
        rewrite Hw. unfold Ingestion.publishEvent.
        apply (appendsOwnEvent_publish env r w w1 _ e orgCtx); try done.
        intros m Hm. unfold attribute. rewrite Hm. split_and!; reflexivity.
  - unfold Ingestion.HandleTraffic, Ingestion.HandlePixel, Ingestion.HandlePostback.
    rewrite Hctx. simpl.
    pose proof (readBody_topic r w) as Hrb.
    split_and!; try by apply appendsOwnEvent_none.
    + apply appendsOwnEvent_none. by destruct (Ingestion.callsFirst env).
    + destruct (String.eqb (URL.Get (HTTP.Query r) "click_id") "");
        apply appendsOwnEvent_none; [done |]. by destruct (Ingestion.callsFirst env).
Qed.

Lemma X26_handlers_append_their_own_event_witness :
  map (λ m, (attribute m "event_id", attribute m "organization_id",
             Ingestion.OrganizationID (Ingestion.Data m)))
      (Ingestion.topic (snd SamplesDuplicate.afterFirst))
  = [(Some "evt-1", Some "org_A", "org_A")].
Proof.
  destruct (X26_handlers_append_their_own_event SamplesDuplicate.snapshot
              SamplesDuplicate.order Samples.env0 SamplesDuplicate.request Samples.world0)
    as ((l & Htopic & _ & Hown) & _).
  unfold SamplesDuplicate.afterFirst. rewrite Htopic.
  assert (Hl : l = Ingestion.topic
                     (snd (Ingestion.HandleTraffic SamplesDuplicate.snapshot
                             SamplesDuplicate.order Samples.env0 SamplesDuplicate.request
                             Samples.world0))) by (by rewrite Htopic).
  assert (Hone : ∃ m, l = [m]) by (rewrite Hl; vm_compute; by eexists).
  destruct Hone as [m ->].
  destruct (Hown m (list_elem_of_here _ _)) as (_ & Hev & _ & orgCtx & Hctx & Horg & Hattr).
  injection Hctx as <-. simpl. by rewrite Hev, Hattr, Horg.
Defined.





(** X28: the redirect of [/in] is decided by the snapshot, the visiting
    order, the tenant, the path parameter and the query alone: the clock, the
    state of Redis and of the topic, the dedup verdict and the fate of the
    event do not change the response. *)
Theorem X28_redirect_does_not_wait_for_storage {uni : GoStrings.Unicode} {lib : URL.Lib}
    (re : Routing.RoutingEngine) (order : list (string * Routing.Campaign))
    (env env' : Ingestion.Env) (r : HTTP.Request) (w w' : Ingestion.World)
    (orgCtx : Auth.OrganizationContext) :
  HTTP.Context r = Auth.OrgPtr (Some orgCtx) →
  fst (Ingestion.HandleTraffic re order env r w)
  = fst (Ingestion.HandleTraffic re order env' r w').
Proof.
  intros Hctx.
  by rewrite (HandleTraffic_redirects re order env r w orgCtx Hctx),
             (HandleTraffic_redirects re order env' r w' orgCtx Hctx).
Qed.

Lemma X28_redirect_does_not_wait_for_storage_witness :
  fst (Ingestion.HandleTraffic SamplesDuplicate.snapshot SamplesDuplicate.order
         Samples.env0 SamplesDuplicate.request Samples.world0)
  = fst (Ingestion.HandleTraffic SamplesDuplicate.snapshot SamplesDuplicate.order
           SamplesSinkDown.env SamplesDuplicate.request (snd SamplesDuplicate.afterSecond)).
Proof.
  exact (X28_redirect_does_not_wait_for_storage SamplesDuplicate.snapshot
           SamplesDuplicate.order Samples.env0 SamplesSinkDown.env SamplesDuplicate.request
           Samples.world0 (snd SamplesDuplicate.afterSecond) Samples.org_A eq_refl).
Defined.

(** ** The encoded query read back *)

Lemma QueryEscape_byte (c : ascii) (s : string) :
  allBytes escapedByte (URL.QueryEscape (String c "")) = true ∧
  URL.QueryUnescape (URL.QueryEscape (String c "") +:+ s) = String c <$> URL.QueryUnescape s.
Proof.
  destruct c as [[] [] [] [] [] [] [] []]; (split; [vm_compute; reflexivity |]); reflexivity.
Qed.

Lemma QueryEscape_cons (c : ascii) (s : string) :
  URL.QueryEscape (String c s) = URL.QueryEscape (String c "") +:+ URL.QueryEscape s.
Proof.
  cbn [URL.QueryEscape].
  destruct (Ascii.eqb c " "); [reflexivity |].
  destruct (URL.shouldEscape c); reflexivity.
Qed.

Lemma QueryEscape_roundtrip (s : string) :
  URL.QueryUnescape (URL.QueryEscape s) = Some s.
Proof.
  induction s as [|c s IH]; [reflexivity |].
  rewrite QueryEscape_cons, (proj2 (QueryEscape_byte c _)), IH. reflexivity.
Qed.

Lemma allBytes_app (P : ascii → bool) (a b : string) :
  allBytes P (a +:+ b) = allBytes P a && allBytes P b.
Proof.
  induction a as [|c a IH]; [reflexivity |].
  rewrite append_cons. cbn [allBytes]. by rewrite IH, andb_assoc.
Qed.

Lemma QueryEscape_bytes (s : string) : allBytes escapedByte (URL.QueryEscape s) = true.
Proof.
  induction s as [|c s IH]; [reflexivity |].
  by rewrite QueryEscape_cons, allBytes_app, (proj1 (QueryEscape_byte c "")), IH.
Qed.

Lemma allBytes_noByte (P : ascii → bool) (b : ascii) (s : string) :
  P b = false → allBytes P s = true → noByte b s = true.
Proof.
  intros Hb. induction s as [|c s IH]; [done |]. cbn [allBytes noByte].
  intros [Hc Hs]%andb_prop. rewrite (IH Hs), andb_true_r.
  apply negb_true_iff, Ascii.eqb_neq. intros ->. congruence.
Qed.

Lemma noByte_app (b : ascii) (x y : string) :
  noByte b (x +:+ y) = noByte b x && noByte b y.
Proof.
  induction x as [|c x IH]; [reflexivity |].
  rewrite append_cons. cbn [noByte]. by rewrite IH, andb_assoc.
Qed.

Lemma Cut_at (b : ascii) (x y : string) :
  noByte b x = true → GoStrings.Cut (x +:+ String b y) b = (x, y, true).
Proof.
  induction x as [|c x IH]; intros Hx.
  - change ("" +:+ String b y) with (String b y). cbn [GoStrings.Cut].
    by rewrite Ascii.eqb_refl.
  - rewrite append_cons. cbn [GoStrings.Cut noByte] in *.
    apply andb_prop in Hx as [Hc Hx]. apply negb_true_iff in Hc. rewrite Hc.
    by rewrite (IH Hx).
Qed.

Lemma encodePair_noByte (b : ascii) (k x : string) :
  escapedByte b = false → Ascii.eqb "=" b = false → noByte b (encodePair k x) = true.
Proof.
  intros Hb Heq. unfold encodePair. rewrite !noByte_app.
  rewrite (allBytes_noByte escapedByte b _ Hb (QueryEscape_bytes k)).
  rewrite (allBytes_noByte escapedByte b _ Hb (QueryEscape_bytes x)).
  cbn [noByte]. by rewrite Heq.
Qed.

Lemma parsePair_encodePair (k x : string) (m : URL.Values) :
  URL.parsePair (encodePair k x) m = URL.Add k x m.
Proof.
  unfold URL.parsePair.
  assert (Hsemi : GoStrings.Contains (encodePair k x) ";" = false).
  { unfold GoStrings.Contains. rewrite noByte_Index; [done |].
    by apply encodePair_noByte. }
  rewrite Hsemi.
  assert (Hne : String.eqb (encodePair k x) "" = false).
  { unfold encodePair. destruct (URL.QueryEscape k); reflexivity. }
  rewrite Hne. unfold encodePair.
  change ("=" +:+ URL.QueryEscape x) with (String "=" (URL.QueryEscape x)).
  rewrite Cut_at.
  2: { by apply (allBytes_noByte escapedByte "=" _ eq_refl), QueryEscape_bytes. }
  by rewrite !QueryEscape_roundtrip.
Qed.

Lemma append_empty_r (s : string) : s +:+ "" = s.
Proof. induction s as [|c s IH]; [done |]. by rewrite append_cons, IH. Qed.

Lemma join_amp_tail (p : string) (ps : list string) :
  URL.join_amp (p :: ps) = p +:+ ampTail ps.
Proof.
  unfold URL.join_amp. revert p.
  induction ps as [|q ps IH]; intros p; cbn [foldl ampTail].
  - by rewrite append_empty_r.
  - rewrite IH. by rewrite !append_assoc.
Qed.

Lemma segments_single (p : string) : noByte "&" p = true → URL.segments p = [p].
Proof.
  induction p as [|c p IH]; [done |]. cbn [noByte URL.segments].
  intros [Hc Hp]%andb_prop. apply negb_true_iff in Hc. by rewrite Hc, (IH Hp).
Qed.

Lemma segments_amp (p r : string) :
  noByte "&" p = true → URL.segments (p +:+ String "&" r) = p :: URL.segments r.
Proof.
  induction p as [|c p IH]; intros Hp.
  - change ("" +:+ String "&" r) with (String "&" r). reflexivity.
  - rewrite append_cons. cbn [noByte URL.segments] in *.
    apply andb_prop in Hp as [Hc Hp]. apply negb_true_iff in Hc. by rewrite Hc, (IH Hp).
Qed.

Lemma segments_join_amp (p : string) (ps : list string) :
  Forall (λ q, noByte "&" q = true) (p :: ps) →
  URL.segments (URL.join_amp (p :: ps)) = p :: ps.
Proof.
  rewrite join_amp_tail. revert p.
  induction ps as [|q ps IH]; intros p Hall; cbn [ampTail].
  - rewrite append_empty_r. apply segments_single. by inversion Hall.
  - inversion Hall as [|? ? Hp Hrest]; subst.
    change ("&" +:+ q +:+ ampTail ps) with (String "&" (q +:+ ampTail ps)).
    rewrite segments_amp by done. f_equal. by apply IH.
Qed.

Lemma encodedPairs_noAmp (v : URL.Values) :
  Forall (λ q, noByte "&" q = true) (encodedPairs v).
Proof.
  unfold encodedPairs. apply Forall_forall. intros q Hq.
  apply list_elem_of_In, in_flat_map in Hq as (k & _ & Hq).
  apply in_map_iff in Hq as (x & <- & _).
  by apply (encodePair_noByte "&" k x).
Qed.

Lemma ParseQuery_Encode_fold (v : URL.Values) :
  URL.ParseQuery (URL.Encode v) = foldl (λ m pair, URL.parsePair pair m) ∅ (encodedPairs v).
Proof.
  unfold URL.ParseQuery, URL.Encode. fold (encodedPairs v).
  pose proof (encodedPairs_noAmp v) as Hall.
  destruct (encodedPairs v) as [|p ps]; [reflexivity |].
  by rewrite segments_join_amp.
Qed.

Lemma foldl_parsePair_values (k : string) (xs : list string) (m : URL.Values) :
  foldl (λ m pair, URL.parsePair pair m) m
        (map (λ x, URL.QueryEscape k +:+ "=" +:+ URL.QueryEscape x) xs)
  = foldl (λ q' value, URL.Add k value q') m xs.
Proof.
  revert m. induction xs as [|x xs IH]; intros m; [done |]. cbn [map foldl].
  rewrite <- IH. f_equal. apply (parsePair_encodePair k x m).
Qed.

Lemma foldl_parsePair_keys (v : URL.Values) (keys : list string) (m : URL.Values) :
  foldl (λ m pair, URL.parsePair pair m) m
        (flat_map (λ k, map (λ x, URL.QueryEscape k +:+ "=" +:+ URL.QueryEscape x)
                            (default [] (v !! k))) keys)
  = Routing.addParams (map (λ k, (k, valuesOf v k)) keys) m.
Proof.
  unfold Routing.addParams. revert m.
  induction keys as [|k keys IH]; intros m; [done |].
  cbn [flat_map map foldl fst snd]. rewrite foldl_app, foldl_parsePair_values. apply IH.
Qed.

Lemma insert_sorted_perm (k : string) (l : list string) : URL.insert_sorted k l ≡ₚ k :: l.
Proof.
  induction l as [|x l IH]; [done |]. cbn [URL.insert_sorted].
  destruct (String.leb k x); [done |]. rewrite IH. apply perm_swap.
Qed.

Lemma sorted_keys_perm (v : URL.Values) : URL.sorted_keys v ≡ₚ (map_to_list v).*1.
Proof.
  unfold URL.sorted_keys.
  change (map fst (map_to_list v)) with ((map_to_list v).*1).
  induction ((map_to_list v).*1) as [|k l IH]; [done |].
  cbn [foldr]. by rewrite insert_sorted_perm, IH.
Qed.

Lemma ParseQuery_Encode_lookup (v : URL.Values) (k : string) :
  URL.ParseQuery (URL.Encode v) !! k =
  match v !! k with
  | Some (x :: xs) => Some (x :: xs)
  | _ => None
  end.
Proof.
  rewrite ParseQuery_Encode_fold. unfold encodedPairs. rewrite foldl_parsePair_keys.
  assert (Hfst : (map (λ k0, (k0, valuesOf v k0)) (URL.sorted_keys v)).*1 = URL.sorted_keys v).
  { rewrite <- list_fmap_compose. apply list_fmap_id. }
  assert (Hnd : NoDup (URL.sorted_keys v)).
  { rewrite sorted_keys_perm. apply NoDup_fst_map_to_list. }
  rewrite addParams_lookup by (by rewrite Hfst).
  unfold valuesOf at 2. rewrite lookup_empty. simpl.
  destruct (v !! k) as [vs|] eqn:Hv.
  - assert (Hl : (list_to_map (map (λ k0, (k0, valuesOf v k0)) (URL.sorted_keys v))
                    : URL.Values) !! k = Some vs).
    { apply elem_of_list_to_map; [by rewrite Hfst |].
      apply list_elem_of_fmap. exists k. split.
      - unfold valuesOf. by rewrite Hv.
      - rewrite sorted_keys_perm. apply list_elem_of_fmap. exists (k, vs).
        split; [done |]. by apply elem_of_map_to_list. }
    rewrite Hl. by destruct vs.
  - assert (Hl : (list_to_map (map (λ k0, (k0, valuesOf v k0)) (URL.sorted_keys v))
                    : URL.Values) !! k = None).
    { apply not_elem_of_list_to_map. rewrite Hfst, sorted_keys_perm.
      intros Hin. apply list_elem_of_fmap in Hin as ([k' vs] & -> & Hin).
      apply elem_of_map_to_list in Hin. simpl in Hv. congruence. }
    by rewrite Hl.
Qed.

Lemma ParseQuery_Encode_values (v : URL.Values) (k : string) :
  valuesOf (URL.ParseQuery (URL.Encode v)) k = valuesOf v k.
Proof.
  unfold valuesOf. rewrite ParseQuery_Encode_lookup.
  by destruct (v !! k) as [[|x xs]|].
Qed.

(** X29: with [append_params] set, a non-empty inbound parameter map and a
    destination that parses, the URL [buildDestinationURL] prints is the
    parsed destination with a new raw query, and that raw query, read back
    with [Query], holds under every key the destination's own values
    followed by the inbound values: escaping and encoding lose and alter no
    key and no value. *)
Theorem X29_redirect_query_reads_back {lib : URL.Lib}
    (c : Routing.Campaign) (params : URL.Values) (u : URL.URL) :
  Routing.AppendParams c = true →
  params ≠ ∅ →
  URL.Parse (Routing.DestinationURL c) = Some u →
  ∃ q, Routing.buildDestinationURL c params = URL.String_ (URL.withRawQuery u q) ∧
       ∀ key, valuesOf (URL.Query (URL.withRawQuery u q)) key =
              valuesOf (URL.Query u) key ++ valuesOf params key.
Proof.
  intros Happend Hne Hparse.
  exists (URL.Encode (Routing.addParams (map_to_list params) (URL.Query u))). split.
  - unfold Routing.buildDestinationURL. rewrite Happend, Hparse. simpl.
    destruct (size params) eqn:Hsize; [by apply map_size_empty_iff in Hsize | done].
  - intros key. unfold URL.Query at 1. simpl. rewrite ParseQuery_Encode_values.
    apply addParams_valuesOf.
Qed.

Lemma X29_redirect_query_reads_back_witness :
  ∃ q, Routing.buildDestinationURL SamplesAppend.campaign SamplesAppend.params
       = URL.String_ (URL.withRawQuery SamplesAppend.parsed q) ∧
       ∀ key, valuesOf (URL.Query (URL.withRawQuery SamplesAppend.parsed q)) key =
              valuesOf (URL.Query SamplesAppend.parsed) key
              ++ valuesOf SamplesAppend.params key.
Proof.
  apply (X29_redirect_query_reads_back SamplesAppend.campaign SamplesAppend.params
           SamplesAppend.parsed).
  - reflexivity.
  - vm_compute. discriminate.
  - vm_compute. reflexivity.
Defined.
